(** * Synq: migration store and migration applier

    A shallow embedding of [synq/core/migration.py] and
    [synq/core/database.py], with the properties of the migration store
    (naming, persistence, enumeration, pending set), of the SQL generator's
    fail-soft policy and of the transactional applier.

    Conventions of the embedding.
    - A Python [str] is a [string]; its characters are the code points below
      256, on which [str.isspace], [str.lower], [int], [repr] and the classes
      of the regular expressions are written out as CPython has them.
    - A Python exception is a value of [exn], its class and its text; code
      that may raise returns [res A], and [try]/[except] is [try_except]
      with a test on the class.
    - The migrations directory is a finite map from file names to files, on
      a POSIX file system with UTF-8 names: it holds files only, it can be
      written to and so can its files, and its own path is short enough for
      the limit on the length of a whole path to stay out of reach; texts
      are encoded in UTF-8. The applied-migration set is a [gset string].
    - The database is a type parameter with the operations the code calls on
      a session or a connection; what a rollback undoes is left to it. *)

From Stdlib Require Import ZArith Ascii String List Lia DecimalString.
From Stdlib Require DecimalFacts DecimalPos DecimalN.
From stdpp Require Import base list strings gmap sorting.

Local Open Scope Z_scope.

(** ** Python [str] primitives *)

Module Py.

(** [str.isspace] on one character. *)
Definition isspace (c : ascii) : bool :=
  let n := N_of_ascii c in
  ((9 <=? n) && (n <=? 13) || (28 <=? n) && (n <=? 32)
   || (n =? 133) || (n =? 160))%N.

(** The blanks [int] accepts around a number. *)
Definition int_space (c : ascii) : bool :=
  let n := N_of_ascii c in
  ((9 <=? n) && (n <=? 13) || (n =? 32) || (n =? 133) || (n =? 160))%N.

Definition isdigit (c : ascii) : bool :=
  let n := N_of_ascii c in ((48 <=? n) && (n <=? 57))%N.

Definition is_lower_az (c : ascii) : bool :=
  let n := N_of_ascii c in ((97 <=? n) && (n <=? 122))%N.

Definition is_underscore (c : ascii) : bool :=
  (N_of_ascii c =? 95)%N.

(** [str.lower] on one character. *)
Definition lower_char (c : ascii) : ascii :=
  let n := N_of_ascii c in
  if ((65 <=? n) && (n <=? 90)
      || (192 <=? n) && (n <=? 222) && negb (n =? 215))%N
  then ascii_of_N (n + 32) else c.

Fixpoint map_chars (f : ascii → ascii) (s : string) : string :=
  match s with
  | EmptyString => EmptyString
  | String c s' => String (f c) (map_chars f s')
  end.

Fixpoint all_chars (p : ascii → bool) (s : string) : bool :=
  match s with
  | EmptyString => true
  | String c s' => p c && all_chars p s'
  end.

Fixpoint has_char (x : ascii) (s : string) : bool :=
  match s with
  | EmptyString => false
  | String c s' => bool_decide (c = x) || has_char x s'
  end.

Definition lower (s : string) : string := map_chars lower_char s.

Definition is_empty (s : string) : bool :=
  match s with EmptyString => true | _ => false end.

(** The first character of [s] satisfies [p]. *)
Definition head_is (p : ascii → bool) (s : string) : bool :=
  match s with EmptyString => false | String c _ => p c end.

Fixpoint lstrip_by (p : ascii → bool) (s : string) : string :=
  match s with
  | EmptyString => EmptyString
  | String c s' => if p c then lstrip_by p s' else s
  end.

Fixpoint rstrip_by (p : ascii → bool) (s : string) : string :=
  match s with
  | EmptyString => EmptyString
  | String c s' =>
      match rstrip_by p s' with
      | EmptyString => if p c then EmptyString else String c EmptyString
      | r => String c r
      end
  end.

Definition strip_by (p : ascii → bool) (s : string) : string :=
  rstrip_by p (lstrip_by p s).

(** [s.strip()], and [s.strip(chars)] / [s.rstrip(chars)]. *)
Definition strip (s : string) : string := strip_by isspace s.
Definition strip_chars (chars s : string) : string :=
  strip_by (λ c, has_char c chars) s.
Definition rstrip_chars (chars s : string) : string :=
  rstrip_by (λ c, has_char c chars) s.

(** [s.split(sep)] for a one-character separator. *)
Fixpoint split (sep : ascii) (s : string) : list string :=
  match s with
  | EmptyString => [EmptyString]
  | String c s' =>
      if bool_decide (c = sep) then EmptyString :: split sep s'
      else match split sep s' with
           | h :: t => String c h :: t
           | [] => [String c EmptyString]
           end
  end.

(** [s.split(sep, 1)]. *)
Fixpoint split1 (sep : ascii) (s : string) : list string :=
  match s with
  | EmptyString => [EmptyString]
  | String c s' =>
      if bool_decide (c = sep) then [EmptyString; s']
      else match split1 sep s' with
           | h :: t => String c h :: t
           | [] => [String c EmptyString]
           end
  end.

(** [sep.join(parts)]. *)
Fixpoint join (sep : string) (parts : list string) : string :=
  match parts with
  | [] => EmptyString
  | [x] => x
  | x :: rest => x +:+ sep +:+ join sep rest
  end.

Definition startswith (s p : string) : bool := String.prefix p s.

Fixpoint endswith (s p : string) : bool :=
  String.eqb s p ||
  match s with
  | EmptyString => false
  | String _ s' => endswith s' p
  end.

(** [s[:n]]. *)
Fixpoint slice_to (n : nat) (s : string) : string :=
  match n, s with
  | S n', String c s' => String c (slice_to n' s')
  | _, _ => EmptyString
  end.

(** The value of a string of decimal digits, most significant first. *)
Fixpoint digits_value (acc : Z) (s : string) : Z :=
  match s with
  | EmptyString => acc
  | String c s' => digits_value (10 * acc + Z.of_N (N_of_ascii c - 48)) s'
  end.

Definition unsigned_int (s : string) : option Z :=
  if negb (is_empty s) && all_chars isdigit s
  then Some (digits_value 0 s) else None.

(** [int(s)]: [None] stands for [ValueError]. *)
Definition int (s : string) : option Z :=
  match strip_by int_space s with
  | EmptyString => None
  | String c d =>
      if bool_decide (c = "+"%char) then unsigned_int d
      else if bool_decide (c = "-"%char) then Z.opp <$> unsigned_int d
      else unsigned_int (String c d)
  end.

Definition decimal (n : N) : string := NilZero.string_of_uint (N.to_uint n).

Fixpoint zeros (n : nat) : string :=
  match n with O => EmptyString | S n' => String "0" (zeros n') end.

Definition zero_pad (width : nat) (s : string) : string :=
  zeros (width - String.length s) +:+ s.

(** [format(n, "04d")]. *)
Definition format_04d (n : Z) : string :=
  if n <? 0 then String "-" (zero_pad 3 (decimal (Z.to_N (- n))))
  else zero_pad 4 (decimal (Z.to_N n)).

(** The number of decimal digits of [n]; converting an [int] of more than
    [int_max_str_digits] digits to text raises [ValueError]. *)
Definition digits (n : Z) : nat := String.length (decimal (Z.to_N (Z.abs n))).

Definition int_max_str_digits : nat := 4300.

(** The text a file opened with the default [newline=None] reads: a
    carriage return, with the line feed that follows it if any, is read as
    one line feed. *)
Fixpoint universal_newlines (s : string) : string :=
  match s with
  | EmptyString => EmptyString
  | String c s' =>
      if bool_decide (c = "013"%char) then
        String "010"
          match s' with
          | String c' s'' =>
              if bool_decide (c' = "010"%char) then universal_newlines s''
              else universal_newlines s'
          | EmptyString => EmptyString
          end
      else String c (universal_newlines s')
  end.

(** The number of bytes of [s] in UTF-8. *)
Fixpoint utf8_length (s : string) : nat :=
  match s with
  | EmptyString => O
  | String c s' =>
      ((if (N_of_ascii c <? 128)%N then 1 else 2) + utf8_length s')%nat
  end.

(** [repr(s)]: [str.isprintable] on one character, the escapes, and the
    choice of the quote. *)
Definition isprintable (c : ascii) : bool :=
  let n := N_of_ascii c in
  ((32 <=? n) && (n <? 127) || (161 <=? n) && negb (n =? 173))%N.

Definition hex_digit (n : N) : ascii :=
  if (n <? 10)%N then ascii_of_N (48 + n) else ascii_of_N (87 + n).

Definition repr_char (quote c : ascii) : string :=
  let n := N_of_ascii c in
  if bool_decide (c = quote) || bool_decide (c = "\"%char)
  then String "\" (String c EmptyString)
  else if (n =? 9)%N then "\t"
  else if (n =? 10)%N then "\n"
  else if (n =? 13)%N then "\r"
  else if isprintable c then String c EmptyString
  else String "\" (String "x" (String (hex_digit (n / 16))
                                 (String (hex_digit (n mod 16)) EmptyString))).

Fixpoint repr_chars (quote : ascii) (s : string) : string :=
  match s with
  | EmptyString => EmptyString
  | String c s' => repr_char quote c +:+ repr_chars quote s'
  end.

Definition repr (s : string) : string :=
  let quote :=
    if has_char "'" s && negb (has_char "034" s) then "034"%char
    else "'"%char in
  String quote (repr_chars quote s +:+ String quote EmptyString).

(** [pathlib.PurePosixPath]: the root and the parts of a path written as
    text, its text again, and [str(Path(base) / name)]. *)
Definition path_root (s : string) : string :=
  if startswith s "//" && negb (startswith s "///") then "//"
  else if startswith s "/" then "/"
  else "".

Definition path_parts (s : string) : list string :=
  filter (λ p, p ≠ "" ∧ p ≠ ".") (split "/" s).

Definition path_str (root : string) (parts : list string) : string :=
  if is_empty root && bool_decide (parts = []) then "."
  else root +:+ join "/" parts.

Definition joinpath (base name : string) : string :=
  if startswith name "/" then path_str (path_root name) (path_parts name)
  else path_str (path_root base) (path_parts base ++ path_parts name).

End Py.

(** ** Exceptions and fallible results *)

Inductive exn_class : Set :=
| SQLAlchemyError | RuntimeError | ValueError | OSError | AttributeError
| TypeError.

(** An exception: its class and [str(e)]. *)
Record exn : Set := Exn { exn_class_of : exn_class; exn_str : string }.

Global Instance exn_class_eq_dec : EqDecision exn_class.
Proof. solve_decision. Defined.

Inductive res (A : Type) : Type :=
| Ok (x : A)
| Raise (e : exn).
Arguments Ok {A} x.
Arguments Raise {A} e.

Global Instance res_ret : MRet res := λ A x, Ok x.
Global Instance res_bind : MBind res := λ A B k m,
  match m with
  | Ok x => k x
  | Raise e => Raise e
  end.

(** [try: body except classes as e: handler(e)]. *)
Definition try_except {A} (body : res A) (caught : exn_class → bool)
    (handler : exn → res A) : res A :=
  match body with
  | Ok x => Ok x
  | Raise e => if caught (exn_class_of e) then handler e else Raise e
  end.

(** [except Exception]: every class of [exn_class] derives from it. *)
Definition any_exception (_ : exn_class) : bool := true.

Definition is_ok {A} (r : res A) : bool :=
  match r with Ok _ => true | Raise _ => false end.

(** ** The migration store ([synq/core/migration.py]) *)

Module MigrationFile.
Record t : Set := Build {
  number : Z;
  name : string;
  filename : string;
  filepath : string;
  sql_content : string
}.
End MigrationFile.

Module PendingMigration.
Record t : Set := Build {
  filename : string;
  sql_content : string
}.
End PendingMigration.

(** [str(e)] of the [OSError] that the operating system raises on a path:
    the error number, its text and the path as [repr] prints it. *)
Definition os_error (errno strerror path : string) : exn :=
  Exn OSError
    ("[Errno " +:+ errno +:+ "] " +:+ strerror +:+ ": " +:+ Py.repr path).

(** A file of the migrations directory: the text it holds, as written, or
    the error that [open]/[read] raises on it: an [OSError] with its number
    and text (permission denied, is a directory), or the [ValueError] of
    bytes that do not decode, with its text. *)
Inductive read_failure : Set :=
| CannotOpen (errno strerror : string)
| CannotDecode (reason : string).

Inductive file : Set :=
| Text (content : string)
| Unreadable (why : read_failure).

Definition read_error (path : string) (why : read_failure) : exn :=
  match why with
  | CannotOpen errno strerror => os_error errno strerror path
  | CannotDecode reason => Exn ValueError reason
  end.

(** The directory: file names are unique, and every entry is a file (the
    store creates no directory inside it). *)
Abbreviation directory := (gmap string file).

(** ** Schema values and migration operations *)

(** Modelled from the spec: [ColumnDefinition] of [synq.core.snapshot],
    whose source is not part of the files at hand (data model: name, declared
    type token, nullable, primary-key, unique and autoincrement flags,
    optional default expression). *)
Module ColumnDefinition.
Record t : Set := Build {
  name : string;
  type : string;
  nullable : bool;
  primary_key : bool;
  unique : bool;
  autoincrement : bool;
  default : option string
}.
End ColumnDefinition.

(** Modelled from the spec: [IndexDefinition] (name, ordered column names,
    unique flag). *)
Module IndexDefinition.
Record t : Set := Build {
  name : string;
  columns : list string;
  unique : bool
}.
End IndexDefinition.

(** Modelled from the spec: [ForeignKeyDefinition] (optional constraint
    name, local columns, referenced table and columns, optional ON DELETE and
    ON UPDATE actions). *)
Module ForeignKeyDefinition.
Record t : Set := Build {
  name : option string;
  columns : list string;
  referred_table : string;
  referred_columns : list string;
  ondelete : option string;
  onupdate : option string
}.
End ForeignKeyDefinition.

(** Modelled from the spec: [TableSnapshot] (table name, ordered columns,
    indexes, foreign keys). *)
Module TableSnapshot.
Record t : Set := Build {
  name : string;
  columns : list ColumnDefinition.t;
  indexes : list IndexDefinition.t;
  foreign_keys : list ForeignKeyDefinition.t
}.
End TableSnapshot.

(** What [old_definition] and [new_definition] may hold. *)
Inductive definition : Set :=
| TableDef (t : TableSnapshot.t)
| ColumnDef (c : ColumnDefinition.t)
| IndexDef (i : IndexDefinition.t)
| ForeignKeyDef (f : ForeignKeyDefinition.t).

(** Modelled from the spec: [OperationType] of [synq.core.diff], the nine
    kinds of the data model; [OTHER] stands for any member the generator
    does not recognise. *)
Inductive OperationType : Set :=
| CREATE_TABLE | DROP_TABLE
| ADD_COLUMN | DROP_COLUMN | ALTER_COLUMN
| CREATE_INDEX | DROP_INDEX
| ADD_FOREIGN_KEY | DROP_FOREIGN_KEY
| OTHER (member : string).

(** Modelled from the spec: [MigrationOperation] of [synq.core.diff] (kind,
    table name, optional object name, optional old and new definitions). *)
Module MigrationOperation.
Record t : Set := Build {
  operation_type : OperationType;
  table_name : string;
  object_name : option string;
  old_definition : option definition;
  new_definition : option definition
}.
End MigrationOperation.

(** Truth value of an optional string ([None] and [""] are false), and its
    rendering inside an f-string. *)
Definition truthy (o : option string) : bool :=
  match o with
  | Some s => negb (Py.is_empty s)
  | None => false
  end.

Definition fmt (o : option string) : string :=
  match o with
  | Some s => s
  | None => "None"
  end.

(** The name of the class of what [old_definition] or [new_definition]
    holds, and the [AttributeError] of reading an attribute it does not
    have. *)
Definition class_name (d : option definition) : string :=
  match d with
  | None => "NoneType"
  | Some (TableDef _) => "TableSnapshot"
  | Some (ColumnDef _) => "ColumnDefinition"
  | Some (IndexDef _) => "IndexDefinition"
  | Some (ForeignKeyDef _) => "ForeignKeyDefinition"
  end.

Definition no_attribute {A} (d : option definition) (attr : string) : res A :=
  Raise (Exn AttributeError
           ("'" +:+ class_name d +:+ "' object has no attribute '"
              +:+ attr +:+ "'")).

(** [d.name], [d.type], ...: the value of the attribute on the classes that
    have it. A name is a text, but for a foreign key, whose name may be
    [None]; the columns of an index or of a foreign key are names, those of
    a table are column definitions. *)
Definition attr_name (d : option definition) : res (option string) :=
  match d with
  | Some (TableDef t) => Ok (Some (TableSnapshot.name t))
  | Some (ColumnDef c) => Ok (Some (ColumnDefinition.name c))
  | Some (IndexDef i) => Ok (Some (IndexDefinition.name i))
  | Some (ForeignKeyDef f) => Ok (ForeignKeyDefinition.name f)
  | None => no_attribute d "name"
  end.

Definition attr_type (d : option definition) : res string :=
  match d with
  | Some (ColumnDef c) => Ok (ColumnDefinition.type c)
  | _ => no_attribute d "type"
  end.

Definition attr_nullable (d : option definition) : res bool :=
  match d with
  | Some (ColumnDef c) => Ok (ColumnDefinition.nullable c)
  | _ => no_attribute d "nullable"
  end.

Definition attr_default (d : option definition) : res (option string) :=
  match d with
  | Some (ColumnDef c) => Ok (ColumnDefinition.default c)
  | _ => no_attribute d "default"
  end.

Definition attr_unique (d : option definition) : res bool :=
  match d with
  | Some (ColumnDef c) => Ok (ColumnDefinition.unique c)
  | Some (IndexDef i) => Ok (IndexDefinition.unique i)
  | _ => no_attribute d "unique"
  end.

Definition attr_columns (d : option definition)
    : res (list string + list ColumnDefinition.t) :=
  match d with
  | Some (IndexDef i) => Ok (inl (IndexDefinition.columns i))
  | Some (ForeignKeyDef f) => Ok (inl (ForeignKeyDefinition.columns f))
  | Some (TableDef t) => Ok (inr (TableSnapshot.columns t))
  | _ => no_attribute d "columns"
  end.

Definition attr_referred_columns (d : option definition)
    : res (list string) :=
  match d with
  | Some (ForeignKeyDef f) => Ok (ForeignKeyDefinition.referred_columns f)
  | _ => no_attribute d "referred_columns"
  end.

Definition attr_referred_table (d : option definition) : res string :=
  match d with
  | Some (ForeignKeyDef f) => Ok (ForeignKeyDefinition.referred_table f)
  | _ => no_attribute d "referred_table"
  end.

Definition attr_ondelete (d : option definition) : res (option string) :=
  match d with
  | Some (ForeignKeyDef f) => Ok (ForeignKeyDefinition.ondelete f)
  | _ => no_attribute d "ondelete"
  end.

Definition attr_onupdate (d : option definition) : res (option string) :=
  match d with
  | Some (ForeignKeyDef f) => Ok (ForeignKeyDefinition.onupdate f)
  | _ => no_attribute d "onupdate"
  end.

(** [sep.join(items)]: [TypeError] on the first item that is no text. *)
Definition join_items (sep : string)
    (items : list string + list ColumnDefinition.t) : res string :=
  match items with
  | inl names => Ok (Py.join sep names)
  | inr [] => Ok ""
  | inr (_ :: _) =>
      Raise (Exn TypeError
               "sequence item 0: expected str instance, ColumnDefinition found")
  end.

Module MigrationManager.

(** [[^a-z0-9_]] does not match [c]. *)
Definition slug_char (c : ascii) : bool :=
  Py.is_lower_az c || Py.isdigit c || Py.is_underscore c.

(** [re.sub(r"[^a-z0-9_]", "_", s)]. *)
Definition replace_unsafe (s : string) : string :=
  Py.map_chars (λ c, if slug_char c then c else "_"%char) s.

(** [re.sub(r"_+", "_", s)]. *)
Fixpoint squeeze_underscores (s : string) : string :=
  match s with
  | EmptyString => EmptyString
  | String c s' =>
      if Py.is_underscore c then
        match s' with
        | String c' _ =>
            if Py.is_underscore c' then squeeze_underscores s'
            else String c (squeeze_underscores s')
        | EmptyString => String c EmptyString
        end
      else String c (squeeze_underscores s')
  end.

Definition create_migration_name (description : string) : string :=
  let name := Py.strip (Py.lower description) in
  let name := replace_unsafe name in
  let name := squeeze_underscores name in
  let name := Py.strip_chars "_" name in
  let name :=
    if (50 <? String.length name)%nat
    then Py.rstrip_chars "_" (Py.slice_to 50 name) else name in
  let name := if Py.is_empty name then "migration" else name in
  name.

Definition migration_filename (migration_number : Z)
    (migration_name : string) : string :=
  Py.format_04d migration_number +:+ "_" +:+ migration_name +:+ ".sql".

(** [pathlib]: [name.rfind(".")], [Path.stem] and [glob("*.sql")]. *)
Fixpoint rfind (x : ascii) (s : string) : option nat :=
  match s with
  | EmptyString => None
  | String c s' =>
      match rfind x s' with
      | Some i => Some (S i)
      | None => if bool_decide (c = x) then Some O else None
      end
  end.

Definition stem (name : string) : string :=
  match rfind "." name with
  | Some i =>
      if ((0 <? i) && (i <? String.length name - 1))%nat
      then Py.slice_to i name else name
  | None => name
  end.

Definition glob_sql (dir : directory) : list string :=
  filter (λ n, Py.endswith n ".sql" = true) (map fst (map_to_list dir)).

Section Store.

(** [self.migrations_path]. *)
Variable migrations_path : string.

(** [self.migrations_path / filename], as text. *)
Definition path_of (filename : string) : string :=
  Py.joinpath migrations_path filename.

(** The longest name of a directory entry, in bytes. *)
Definition name_max : nat := 255.

(** [open(filepath, "w")] on a file name that starts with the number: a
    null character is refused before the operating system is asked; a first
    part that is too long, or that should be a directory and is not one, is
    refused by it. Otherwise the file is created or emptied. *)
Definition open_for_writing (dir : directory) (filename : string)
    : res unit :=
  let filepath := path_of filename in
  if Py.has_char "000" filename
  then Raise (Exn ValueError "embedded null byte")
  else
    match Py.path_parts filename with
    | [] => Raise (os_error "21" "Is a directory" filepath)
    | entry :: rest =>
        if (name_max <? Py.utf8_length entry)%nat
        then Raise (os_error "36" "File name too long" filepath)
        else
          match rest with
          | [] => Ok tt
          | _ :: _ =>
              if bool_decide (is_Some (dir !! entry))
              then Raise (os_error "20" "Not a directory" filepath)
              else Raise (os_error "2" "No such file or directory" filepath)
          end
    end.

(** The directory after the call, and the path returned or the error
    raised: formatting the number, then opening the file, may raise, and
    nothing is written then. *)
Definition save_migration (dir : directory) (migration_number : Z)
    (migration_name sql_content : string) : directory * res string :=
  if (Py.int_max_str_digits <? Py.digits migration_number)%nat
  then (dir,
        Raise (Exn ValueError
                 ("Exceeds the limit (4300 digits) for integer string "
                    +:+ "conversion; use sys.set_int_max_str_digits() to "
                    +:+ "increase the limit")))
  else
    let filename := migration_filename migration_number migration_name in
    let filepath := path_of filename in
    match open_for_writing dir filename with
    | Ok _ => (<[filename := Text sql_content]> dir, Ok filepath)
    | Raise e => (dir, Raise e)
    end.

(** [open(filepath).read()]: the text of the file, its line ends read as
    line feeds. *)
Definition read_file (dir : directory) (filename : string) : res string :=
  match dir !! filename with
  | Some (Text content) => Ok (Py.universal_newlines content)
  | Some (Unreadable why) => Raise (read_error (path_of filename) why)
  | None =>
      Raise (os_error "2" "No such file or directory" (path_of filename))
  end.

Definition int_or_raise (s : string) : res Z :=
  match Py.int s with
  | Some n => Ok n
  | None =>
      Raise (Exn ValueError
               ("invalid literal for int() with base 10: "
                  +:+ Py.slice_to 200 (Py.repr s)))
  end.

Definition os_or_value_error (c : exn_class) : bool :=
  bool_decide (c = OSError) || bool_decide (c = ValueError).

(** The body of the loop of [get_all_migrations] on one path: [None] is
    [continue]. *)
Definition load_migration (dir : directory) (fname : string)
    : res (option MigrationFile.t) :=
  try_except
    (match Py.split1 "_" (stem fname) with
     | [part0; part1] =>
         number ← int_or_raise part0 ;
         sql_content ← read_file dir fname ;
         Ok (Some (MigrationFile.Build number part1 fname
                     (path_of fname) sql_content))
     | _ => Ok None
     end)
    os_or_value_error
    (λ _, Ok None).

Fixpoint load_all (dir : directory) (paths : list string)
    (migration_files : list MigrationFile.t)
    : res (list MigrationFile.t) :=
  match paths with
  | [] => Ok migration_files
  | fname :: rest =>
      loaded ← load_migration dir fname ;
      match loaded with
      | Some m => load_all dir rest (migration_files ++ [m])
      | None => load_all dir rest migration_files
      end
  end.

Definition get_all_migrations (dir : directory)
    : res (list MigrationFile.t) :=
  load_all dir (merge_sort String.le (glob_sql dir)) [].

Fixpoint select_pending (applied_migrations : gset string)
    (all_migrations : list MigrationFile.t)
    (pending : list PendingMigration.t) : list PendingMigration.t :=
  match all_migrations with
  | [] => pending
  | migration :: rest =>
      if bool_decide (MigrationFile.filename migration ∉ applied_migrations)
      then select_pending applied_migrations rest
             (pending ++ [PendingMigration.Build
                            (MigrationFile.filename migration)
                            (MigrationFile.sql_content migration)])
      else select_pending applied_migrations rest pending
  end.

(** [get_applied] is the outcome of [db_manager.get_applied_migrations()]. *)
Definition get_pending_migrations (dir : directory)
    (get_applied : res (list string)) : res (list PendingMigration.t) :=
  all_migrations ← get_all_migrations dir ;
  applied ← get_applied ;
  Ok (select_pending (list_to_set applied) all_migrations []).

End Store.

Section Generator.

(** [str(operation)] and [str(operation.operation_type)]: the classes are
    declared in [synq.core.diff]. *)
Variable str_operation : MigrationOperation.t → string.
Variable str_operation_type : OperationType → string.

(** [str(CreateTable(self._build_sqlalchemy_table(table_def, metadata))
    .compile(engine))]: SQLAlchemy's DDL compiler on the rebuilt table; it
    raises when the table cannot be rebuilt or compiled. *)
Variable create_table_ddl : option definition → res string.

Definition null_clause (nullable : bool) : string :=
  if nullable then "NULL" else "NOT NULL".

(** The four lines returned for an altered column. *)
Definition alter_column_comment (operation : MigrationOperation.t)
    (old_name : option string) (old_type : string) (old_nullable : bool)
    (new_name : option string) (new_type : string) (new_nullable : bool)
    : list string :=
  [ "-- ALTER COLUMN " +:+ MigrationOperation.table_name operation +:+ "."
      +:+ fmt (MigrationOperation.object_name operation);
    "-- Note: Column alteration may require database-specific syntax";
    "-- Old: " +:+ fmt old_name +:+ " " +:+ old_type +:+ " "
      +:+ null_clause old_nullable;
    "-- New: " +:+ fmt new_name +:+ " " +:+ new_type +:+ " "
      +:+ null_clause new_nullable ].

Definition _operation_to_sql (operation : MigrationOperation.t) : res string :=
  let table_name := MigrationOperation.table_name operation in
  let object_name := MigrationOperation.object_name operation in
  match MigrationOperation.operation_type operation with
  | CREATE_TABLE =>
      ddl ← create_table_ddl (MigrationOperation.new_definition operation);
      Ok (Py.strip ddl +:+ ";")
  | DROP_TABLE => Ok ("DROP TABLE " +:+ table_name +:+ ";")
  | ADD_COLUMN =>
      let col_def := MigrationOperation.new_definition operation in
      sql_type ← attr_type col_def;
      name ← attr_name col_def;
      let parts := ["ADD COLUMN " +:+ fmt name +:+ " " +:+ sql_type] in
      nullable ← attr_nullable col_def;
      let parts :=
        if (nullable : bool) then parts else parts ++ ["NOT NULL"] in
      default ← attr_default col_def;
      let parts :=
        if truthy default then parts ++ ["DEFAULT " +:+ fmt default]
        else parts in
      unique ← attr_unique col_def;
      let parts :=
        if (unique : bool) then parts ++ ["UNIQUE"] else parts in
      Ok ("ALTER TABLE " +:+ table_name +:+ " " +:+ Py.join " " parts +:+ ";")
  | DROP_COLUMN =>
      Ok ("ALTER TABLE " +:+ table_name +:+ " DROP COLUMN "
            +:+ fmt object_name +:+ ";")
  | ALTER_COLUMN =>
      let old_col := MigrationOperation.old_definition operation in
      let new_col := MigrationOperation.new_definition operation in
      old_name ← attr_name old_col;
      old_type ← attr_type old_col;
      old_nullable ← attr_nullable old_col;
      new_name ← attr_name new_col;
      new_type ← attr_type new_col;
      new_nullable ← attr_nullable new_col;
      Ok (Py.join (String "010" "")
            (alter_column_comment operation old_name old_type old_nullable
               new_name new_type new_nullable))
  | CREATE_INDEX =>
      let idx_def := MigrationOperation.new_definition operation in
      unique ← attr_unique idx_def;
      let unique_clause := if (unique : bool) then "UNIQUE " else "" in
      items ← attr_columns idx_def;
      columns ← join_items ", " items;
      name ← attr_name idx_def;
      Ok ("CREATE " +:+ unique_clause +:+ "INDEX " +:+ fmt name +:+ " ON "
            +:+ table_name +:+ " (" +:+ columns +:+ ");")
  | DROP_INDEX => Ok ("DROP INDEX " +:+ fmt object_name +:+ ";")
  | ADD_FOREIGN_KEY =>
      let fk_def := MigrationOperation.new_definition operation in
      items ← attr_columns fk_def;
      columns ← join_items ", " items;
      referred_columns ← attr_referred_columns fk_def;
      let ref_columns := Py.join ", " referred_columns in
      name ← attr_name fk_def;
      let constraint_name :=
        if truthy name then "CONSTRAINT " +:+ fmt name +:+ " " else "" in
      referred_table ← attr_referred_table fk_def;
      let fk_clause :=
        constraint_name +:+ "FOREIGN KEY (" +:+ columns +:+ ") REFERENCES "
          +:+ referred_table +:+ " (" +:+ ref_columns +:+ ")" in
      ondelete ← attr_ondelete fk_def;
      let fk_clause :=
        if truthy ondelete then fk_clause +:+ " ON DELETE " +:+ fmt ondelete
        else fk_clause in
      onupdate ← attr_onupdate fk_def;
      let fk_clause :=
        if truthy onupdate then fk_clause +:+ " ON UPDATE " +:+ fmt onupdate
        else fk_clause in
      Ok ("ALTER TABLE " +:+ table_name +:+ " ADD " +:+ fk_clause +:+ ";")
  | DROP_FOREIGN_KEY =>
      if truthy object_name
      then Ok ("ALTER TABLE " +:+ table_name +:+ " DROP CONSTRAINT "
                 +:+ fmt object_name +:+ ";")
      else Ok ("-- DROP FOREIGN KEY on " +:+ table_name
                 +:+ " (no constraint name available)")
  | OTHER _ =>
      Ok ("-- Unsupported operation: "
            +:+ str_operation_type (MigrationOperation.operation_type operation))
  end.

(** The body of the loop of [generate_sql] on one operation: the value of
    [sql_statements] after it. *)
Definition append_operation (sql_statements : list string)
    (operation : MigrationOperation.t) : res (list string) :=
  try_except
    (sql ← _operation_to_sql operation;
     if Py.is_empty sql then Ok sql_statements
     else Ok (sql_statements
                ++ ["-- " +:+ str_operation operation; sql; ""]))
    any_exception
    (λ e, Ok (sql_statements
                ++ ["-- WARNING: Could not generate SQL for "
                      +:+ str_operation operation +:+ ": " +:+ exn_str e;
                    ""])).

Fixpoint for_operations (operations : list MigrationOperation.t)
    (sql_statements : list string) : res (list string) :=
  match operations with
  | [] => Ok sql_statements
  | operation :: rest =>
      sql_statements ← append_operation sql_statements operation;
      for_operations rest sql_statements
  end.

Definition generate_sql (operations : list MigrationOperation.t) : res string :=
  match operations with
  | [] => Ok ""
  | _ =>
      sql_statements ← for_operations operations [];
      Ok (Py.join (String "010" "") sql_statements)
  end.

End Generator.


End MigrationManager.

(** ** The migration applier ([synq/core/database.py]) *)

Definition timestamp : Set := Z.

(** A row of the [synq_migrations] table. *)
Module LedgerRow.
Record t : Set := Build {
  id : Z;
  filename : string;
  applied_at : timestamp
}.
End LedgerRow.

(** What the manager sends to the database: [text(sql)],
    [migrations_table.insert().values(filename=..., applied_at=...)] and
    [migrations_table.select()] with its [limit] and [order_by(filename)]. *)
Inductive statement : Set :=
| text (sql : string)
| insert_migration (filename : string) (applied_at : timestamp)
| select_migrations (limit : option nat) (order_by_filename : bool).

(** The database behind the engine, as the one connection of the manager
    drives it. [DB] is its state between two calls of the manager, when no
    transaction of the manager is open, and [Tx DB] its state inside one.
    [connect] opens a connection and [create_all] is
    [metadata.create_all(engine, tables=[migrations_table])]; [begin] opens
    a transaction, [execute] runs a statement in it and gives the rows,
    [commit] ends it, and [rollback] ends it too and gives the state the
    database is left in: what a statement leaves behind once it is rolled
    back is the affair of the database. A call that raises leaves the state
    as it was. *)
Class Database (DB : Type) : Type := {
  Tx : Type;
  connect : DB → res unit;
  create_all : DB → res DB;
  begin : DB → Tx;
  execute : Tx → statement → res (Tx * list LedgerRow.t);
  commit : Tx → res DB;
  rollback : Tx → DB
}.
Arguments Tx DB {_}.

(** A session, or a connection: idle, or inside a transaction. *)
Inductive session (DB : Type) `{Database DB} : Type :=
| Idle (db : DB)
| Open (tx : Tx DB).
Arguments Idle {DB _} db.
Arguments Open {DB _} tx.

(** Code running in a session. *)
Definition Sess (DB : Type) `{Database DB} (A : Type) : Type :=
  session DB → session DB * res A.

Global Instance Sess_ret {DB} `{Database DB} : MRet (Sess DB) :=
  λ A x s, (s, Ok x).
Global Instance Sess_bind {DB} `{Database DB} : MBind (Sess DB) :=
  λ A B k m s,
    match m s with
    | (s', Ok x) => k x s'
    | (s', Raise e) => (s', Raise e)
    end.

Module DatabaseManager.

Section Manager.

Context {DB : Type} `{Database DB}.

Definition is_sqlalchemy_error (c : exn_class) : bool :=
  bool_decide (c = SQLAlchemyError).

(** [session.begin()]; a session that has begun refuses to begin again
    ([InvalidRequestError], a [SQLAlchemyError]). *)
Definition session_begin : Sess DB unit :=
  λ s,
    match s with
    | Idle db => (Open (begin db), Ok tt)
    | Open _ =>
        (s, Raise (Exn SQLAlchemyError
                     "A transaction is already begun on this Session."))
    end.

(** [session.execute(stmt)] and [conn.execute(stmt)]: a statement outside a
    transaction begins one. *)
Definition session_execute (stmt : statement) : Sess DB (list LedgerRow.t) :=
  λ s,
    let tx := match s with Idle db => begin db | Open tx => tx end in
    match execute tx stmt with
    | Ok (tx', rows) => (Open tx', Ok rows)
    | Raise e => (Open tx, Raise e)
    end.

Definition session_commit : Sess DB unit :=
  λ s,
    match s with
    | Open tx =>
        match commit tx with
        | Ok db' => (Idle db', Ok tt)
        | Raise e => (s, Raise e)
        end
    | Idle _ => (s, Ok tt)
    end.

Definition session_rollback : Sess DB unit :=
  λ s,
    match s with
    | Open tx => (Idle (rollback tx), Ok tt)
    | Idle _ => (s, Ok tt)
    end.

(** Closing a session or a connection rolls back the transaction left
    open. *)
Definition session_close (s : session DB) : DB :=
  match s with
  | Idle db => db
  | Open tx => rollback tx
  end.

(** [with session.begin(): body]: commit when the body ends, roll back and
    raise again when the body or the commit raises. *)
Definition with_begin {A} (body : Sess DB A) : Sess DB A :=
  λ s,
    match (_ ← session_begin; body) s with
    | (s', Ok x) =>
        match session_commit s' with
        | (s'', Ok _) => (s'', Ok x)
        | (s'', Raise e) => (fst (session_rollback s''), Raise e)
        end
    | (s', Raise e) => (fst (session_rollback s'), Raise e)
    end.

(** [try: body except classes as e: handler(e)] in a session. *)
Definition session_try {A} (body : Sess DB A) (caught : exn_class → bool)
    (handler : exn → Sess DB A) : Sess DB A :=
  λ s,
    match body s with
    | (s', Ok x) => (s', Ok x)
    | (s', Raise e) =>
        if caught (exn_class_of e) then handler e s' else (s', Raise e)
    end.

Definition session_raise {A} (e : exn) : Sess DB A := λ s, (s, Raise e).

(** [with self.SessionClass() as session: body]: a fresh session on the
    database, closed when the body ends or raises. *)
Definition with_session {A} (body : Sess DB A) (db : DB) : DB * res A :=
  let '(s, r) := body (Idle db) in (session_close s, r).

(** [with self.engine.connect() as conn: body]: the connection is opened,
    which may raise, and closed when the body ends or raises. *)
Definition with_connect {A} (body : Sess DB A) (db : DB) : DB * res A :=
  match connect db with
  | Ok _ => with_session body db
  | Raise e => (db, Raise e)
  end.

Definition _ensure_migrations_table (db : DB) : DB * res unit :=
  match create_all db with
  | Ok db' => (db', Ok tt)
  | Raise e =>
      if is_sqlalchemy_error (exn_class_of e) then
        let '(db', verified) :=
          with_connect
            (session_execute (select_migrations (Some 1%nat) false)) db in
        (db',
         try_except
           (_ ← verified; Ok tt)
           is_sqlalchemy_error
           (λ _, Raise (Exn RuntimeError
                          ("Failed to create or access migrations table: "
                             +:+ exn_str e))))
      else (db, Raise e)
  end.

Definition ensure_migrations_table (db : DB) : DB * res unit :=
  _ensure_migrations_table db.

Definition ensure_migration_table (db : DB) : DB * res unit :=
  _ensure_migrations_table db.

Definition get_applied_migrations (db : DB) : DB * res (list string) :=
  with_session
    (session_try
       (rows ← session_execute (select_migrations None true);
        mret (map LedgerRow.filename rows))
       is_sqlalchemy_error
       (λ e, session_raise
               (Exn RuntimeError
                  ("Failed to query applied migrations: " +:+ exn_str e))))
    db.

(** The inner loop of [apply_migration]: the lines kept of one statement. *)
Fixpoint keep_sql_lines (lines sql_lines : list string) : list string :=
  match lines with
  | [] => sql_lines
  | line :: rest =>
      let line := Py.strip line in
      if negb (Py.is_empty line) && negb (Py.startswith line "--")
      then keep_sql_lines rest (sql_lines ++ [line])
      else keep_sql_lines rest sql_lines
  end.

Definition clean_statement (statement : string) : string :=
  Py.strip (Py.join (String "010" "")
              (keep_sql_lines (Py.split "010" statement) [])).

(** The outer loop of [apply_migration]. *)
Fixpoint execute_statements (statements : list string) : Sess DB unit :=
  match statements with
  | [] => mret tt
  | statement :: rest =>
      if Py.is_empty statement || Py.is_empty (Py.strip statement)
      then execute_statements rest
      else
        let clean := clean_statement statement in
        if Py.is_empty clean then execute_statements rest
        else
          _ ← session_execute (text clean);
          execute_statements rest
  end.

(** [now] is the value of [datetime.utcnow()] at the ledger insert. *)
Definition apply_migration (db : DB) (migration : PendingMigration.t)
    (now : timestamp) : DB * res unit :=
  with_session
    (session_try
       (with_begin
          (let statements :=
             map Py.strip
               (Py.split ";" (PendingMigration.sql_content migration)) in
           _ ← execute_statements statements;
           _ ← session_execute
                 (insert_migration (PendingMigration.filename migration) now);
           mret tt))
       is_sqlalchemy_error
       (λ e, session_raise
               (Exn RuntimeError
                  ("Failed to apply migration "
                     +:+ PendingMigration.filename migration
                     +:+ ": " +:+ exn_str e))))
    db.

Definition test_connection (db : DB) : DB * res bool :=
  let '(db', selected) :=
    with_connect (session_execute (text "SELECT 1")) db in
  (db',
   try_except
     (_ ← selected; Ok true)
     is_sqlalchemy_error
     (λ _, Ok false)).

End Manager.

End DatabaseManager.

(** ** A small database to run the applier on

    Its state is the SQL texts executed so far and the ledger rows. A text
    that starts with [FAIL] is refused with a database error, and so is a
    ledger row whose file name is already there (the unique constraint). *)
Module ToyDB.

Record t : Set := Build {
  up : bool;
  has_table : bool;
  executed : list string;
  ledger : list LedgerRow.t
}.

Definition db_error (msg : string) : exn := Exn SQLAlchemyError msg.

Definition toy_execute (db : t) (stmt : statement)
    : res (t * list LedgerRow.t) :=
  match stmt with
  | text sql =>
      if Py.startswith sql "FAIL" then Raise (db_error ("syntax error: " +:+ sql))
      else Ok (Build (up db) (has_table db) (executed db ++ [sql]) (ledger db), [])
  | insert_migration filename applied_at =>
      if negb (has_table db) then Raise (db_error "no such table: synq_migrations")
      else if bool_decide (filename ∈ map LedgerRow.filename (ledger db))
      then Raise (db_error ("UNIQUE constraint failed: " +:+ filename))
      else Ok (Build (up db) (has_table db) (executed db)
                 (ledger db
                    ++ [LedgerRow.Build (Z.of_nat (length (ledger db)) + 1)
                          filename applied_at]), [])
  | select_migrations limit _ =>
      if negb (has_table db) then Raise (db_error "no such table: synq_migrations")
      else Ok (db, match limit with Some n => take n (ledger db) | None => ledger db end)
  end.

(** A transaction: the state it began from and the state it has reached.
    A commit keeps the second, a rollback goes back to the first. *)
Record txn : Set := Transaction { began : t; reached : t }.

Definition toy_connect (db : t) : res unit :=
  if up db then Ok tt else Raise (db_error "connection refused").

Definition toy_create_all (db : t) : res t :=
  if up db then Ok (Build (up db) true (executed db) (ledger db))
  else Raise (db_error "connection refused").

Definition toy_execute_in (tx : txn) (stmt : statement)
    : res (txn * list LedgerRow.t) :=
  match toy_execute (reached tx) stmt with
  | Ok (db', rows) => Ok (Transaction (began tx) db', rows)
  | Raise e => Raise e
  end.

Global Instance toy_database : Database t := {|
  Tx := txn;
  connect := toy_connect;
  create_all := toy_create_all;
  begin db := Transaction db db;
  execute := toy_execute_in;
  commit tx := Ok (reached tx);
  rollback tx := began tx
|}.

Definition empty : t := Build true true [] [].
Definition down : t := Build false false [] [].

(** A migration of comments, blank lines and semicolons. *)
Definition comment_migration : PendingMigration.t :=
  PendingMigration.Build "0003_notes.sql"
    (Py.join (String "010" "")
       ["-- WARNING: Could not generate SQL for op: no type";
        "";
        "  -- completed by hand";
        " ; ;";
        ""]).

(** A migration of one comment line, with a semicolon in the comment. *)
Definition semicolon_comment_migration : PendingMigration.t :=
  PendingMigration.Build "0004_notes.sql"
    "-- was: DROP TABLE users; DROP TABLE roles".


End ToyDB.

(** ** A database that commits on its own

    The small database with the rule MySQL has for the statements that
    define data: [CREATE], [ALTER] and [DROP] commit the transaction,
    themselves included, so that a rollback goes back to the last of
    them. *)
Module ImplicitCommit.

Record t : Set := Build { state : ToyDB.t }.

Record txn : Set := Transaction { kept : ToyDB.t; reached : ToyDB.t }.

Definition defines_data (stmt : statement) : bool :=
  match stmt with
  | text sql =>
      Py.startswith sql "CREATE" || Py.startswith sql "ALTER"
      || Py.startswith sql "DROP"
  | _ => false
  end.

Definition execute_in (tx : txn) (stmt : statement)
    : res (txn * list LedgerRow.t) :=
  match ToyDB.toy_execute (reached tx) stmt with
  | Ok (db', rows) =>
      Ok (Transaction (if defines_data stmt then db' else kept tx) db', rows)
  | Raise e => Raise e
  end.

Global Instance database : Database t := {|
  Tx := txn;
  connect db := ToyDB.toy_connect (state db);
  create_all db :=
    match ToyDB.toy_create_all (state db) with
    | Ok db' => Ok (Build db')
    | Raise e => Raise e
    end;
  begin db := Transaction (state db) (state db);
  execute := execute_in;
  commit tx := Ok (Build (reached tx));
  rollback tx := Build (kept tx)
|}.

End ImplicitCommit.

(** ** A database that refuses to create a table twice

    The small database again, transactions and all, but for [create_all],
    which raises when the ledger table is there already. *)
Module CreateOnce.

Record t : Set := Build { state : ToyDB.t }.

Global Instance database : Database t := {|
  Tx := ToyDB.txn;
  connect db := ToyDB.toy_connect (state db);
  create_all db :=
    if ToyDB.has_table (state db)
    then Raise (ToyDB.db_error "table synq_migrations already exists")
    else
      match ToyDB.toy_create_all (state db) with
      | Ok db' => Ok (Build db')
      | Raise e => Raise e
      end;
  begin db := ToyDB.Transaction (state db) (state db);
  execute := ToyDB.toy_execute_in;
  commit tx := Ok (Build (ToyDB.reached tx));
  rollback tx := Build (ToyDB.began tx)
|}.

End CreateOnce.

(** ** The behaviour the specification describes

    Definitions that follow the wording of the specification, to be compared
    with the code above. *)

Module Described.

Import MigrationManager DatabaseManager.

(** *** Slugs *)

(** Every maximal run of characters that are not [safe] becomes one
    underscore. *)
Fixpoint collapse_runs (safe : ascii → bool) (s : string) : string :=
  match s with
  | EmptyString => EmptyString
  | String c s' =>
      if safe c then String c (collapse_runs safe s')
      else
        match s' with
        | String c' _ =>
            if safe c' then String "_" (collapse_runs safe s')
            else collapse_runs safe s'
        | EmptyString => String "_" EmptyString
        end
  end.

Definition or_placeholder (s : string) : string :=
  if Py.is_empty s then "migration" else s.

(** Lower-cased, runs outside [[a-z0-9_]] collapsed, underscores trimmed
    at both ends, cut to 50 characters, ["migration"] when empty. *)
Definition slug_as_worded (description : string) : string :=
  or_placeholder
    (Py.slice_to 50
       (Py.strip_chars "_" (collapse_runs slug_char (Py.lower description)))).

Definition alnum_char (c : ascii) : bool := Py.is_lower_az c || Py.isdigit c.

(** The same with underscores counted in the runs, and the underscores the
    cut leaves at the end trimmed. *)
Definition slug (description : string) : string :=
  or_placeholder
    (Py.rstrip_chars "_"
       (Py.slice_to 50
          (Py.strip_chars "_"
             (collapse_runs alnum_char (Py.lower description))))).

(** *** Migration artifacts *)

(** [s] is [[a-z0-9_]+] followed by [.sql]. *)
Fixpoint slug_then_sql (s : string) : bool :=
  match s with
  | EmptyString => false
  | String c s' => slug_char c && (String.eqb s' ".sql" || slug_then_sql s')
  end.

(** The whole of [s] matches [\d{4}_[a-z0-9_]+\.sql]. *)
Definition artifact_name (s : string) : bool :=
  match s with
  | String d1 (String d2 (String d3 (String d4 (String u rest)))) =>
      Py.isdigit d1 && Py.isdigit d2 && Py.isdigit d3 && Py.isdigit d4
      && Py.is_underscore u && slug_then_sql rest
  | _ => false
  end.

(** [s] is four decimal digits. *)
Definition four_digits (s : string) : bool :=
  match s with
  | String d1 (String d2 (String d3 (String d4 EmptyString))) =>
      Py.isdigit d1 && Py.isdigit d2 && Py.isdigit d3 && Py.isdigit d4
  | _ => false
  end.

(** *** Enumeration of the store *)

(** A path parses as [<number>_<name>] and its file can be read: the
    migration holds the text as it is read, line ends as line feeds. *)
Definition parse_name (fname : string) : option (Z * string) :=
  match Py.split1 "_" (stem fname) with
  | [part0; part1] => n ← Py.int part0; Some (n, part1)
  | _ => None
  end.

Definition stored (migrations_path : string) (dir : directory)
    (fname : string) : option MigrationFile.t :=
  '(n, name) ← parse_name fname;
  match dir !! fname with
  | Some (Text content) =>
      Some (MigrationFile.Build n name fname
              (path_of migrations_path fname)
              (Py.universal_newlines content))
  | _ => None
  end.

Definition to_pending (m : MigrationFile.t) : PendingMigration.t :=
  PendingMigration.Build (MigrationFile.filename m)
    (MigrationFile.sql_content m).

(** The store of the pending-computation scenario. *)
Definition scenario_store : directory :=
  <["0001_init.sql" := Text "CREATE TABLE users (id INTEGER);"]>
    (<["0002_add_email.sql" :=
         Text "ALTER TABLE users ADD COLUMN email VARCHAR(100);"]> ∅).

(** The store once the migrations 9999 and 10000 are saved. *)
Definition late_store : directory :=
  (save_migration "migrations"
     (save_migration "migrations" ∅ 9999 "add_email" "SELECT 1;").1
     10000 "drop_email" "SELECT 2;").1.

(** *** Generated scripts *)

Section Script.

Variable str_operation : MigrationOperation.t → string.
Variable str_operation_type : OperationType → string.
Variable create_table_ddl : option definition → res string.

Definition warning (operation : MigrationOperation.t) (e : exn) : string :=
  "-- WARNING: Could not generate SQL for " +:+ str_operation operation
    +:+ ": " +:+ exn_str e.

(** The lines one operation contributes to the script. *)
Definition emitted (operation : MigrationOperation.t) : list string :=
  match _operation_to_sql str_operation_type create_table_ddl operation with
  | Ok sql =>
      if Py.is_empty sql then []
      else ["-- " +:+ str_operation operation; sql; ""]
  | Raise e => [warning operation e; ""]
  end.

(** What is written of an altered column: the table and the column, the
    note on the syntax, then the old and the new name, type and
    nullability, each on a line of its own. *)
Definition column_change (operation : MigrationOperation.t)
    (old_col new_col : ColumnDefinition.t) : string :=
  Py.join (String "010" "")
    [ "-- ALTER COLUMN " +:+ MigrationOperation.table_name operation +:+ "."
        +:+ fmt (MigrationOperation.object_name operation);
      "-- Note: Column alteration may require database-specific syntax";
      "-- Old: " +:+ ColumnDefinition.name old_col +:+ " "
        +:+ ColumnDefinition.type old_col +:+ " "
        +:+ (if ColumnDefinition.nullable old_col then "NULL" else "NOT NULL");
      "-- New: " +:+ ColumnDefinition.name new_col +:+ " "
        +:+ ColumnDefinition.type new_col +:+ " "
        +:+ (if ColumnDefinition.nullable new_col then "NULL" else "NOT NULL") ].

End Script.

(** *** Statements of a migration *)

Definition is_sql_line (line : string) : bool :=
  negb (Py.is_empty line) && negb (Py.startswith line "--").

Definition is_blank (s : string) : bool := Py.is_empty (Py.strip s).

(** A line that is blank or a full-line comment once stripped. *)
Definition skipped_line (line : string) : bool :=
  negb (is_sql_line (Py.strip line)).

(** A statement without its blank lines and full-line comments. *)
Definition without_comment_lines (statement : string) : string :=
  Py.strip
    (Py.join (String "010" "")
       (filter (λ l, is_sql_line l) (map Py.strip (Py.split "010" statement)))).

(** The statements of a migration, in file order: split on [;], blank
    statements and comment lines discarded. *)
Definition statements_of (sql_content : string) : list string :=
  filter (λ s, negb (Py.is_empty s))
    (map without_comment_lines
       (filter (λ s, negb (is_blank s))
          (map Py.strip (Py.split ";" sql_content)))).

(** *** One transaction *)

Section Transaction.

Context {DB : Type} `{Database DB}.

(** The statements one after the other, up to the first that raises: the
    state the transaction has reached, and the error if any. *)
Fixpoint execute_each (tx : Tx DB) (statements : list string)
    : Tx DB * res unit :=
  match statements with
  | [] => (tx, Ok tt)
  | sql :: rest =>
      match execute tx (text sql) with
      | Ok (tx', _) => execute_each tx' rest
      | Raise e => (tx, Raise e)
      end
  end.

(** One transaction on [db]: the statements in order, then the ledger row,
    then the commit. The state the transaction has reached when it ends, and
    the state the commit leaves or the first error. *)
Definition run_transaction (db : DB) (statements : list string)
    (filename : string) (now : timestamp) : Tx DB * res DB :=
  match execute_each (begin db) statements with
  | (tx, Ok _) =>
      match execute tx (insert_migration filename now) with
      | Ok (tx', _) => (tx', commit tx')
      | Raise e => (tx, Raise e)
      end
  | (tx, Raise e) => (tx, Raise e)
  end.

Definition transaction (db : DB) (migration : PendingMigration.t)
    (now : timestamp) : Tx DB * res DB :=
  run_transaction db
    (statements_of (PendingMigration.sql_content migration))
    (PendingMigration.filename migration) now.

(** A rollback undoes every statement of the transaction: it gives back
    the state the transaction began from. *)
Definition undoes_every_statement : Prop :=
  (∀ db : DB, rollback (begin db) = db)
  ∧ (∀ (tx tx' : Tx DB) stmt rows,
       execute tx stmt = Ok (tx', rows) → rollback tx' = rollback tx).

(** The error [apply_migration] surfaces for an error of the transaction. *)
Definition surfaced (migration : PendingMigration.t) (e : exn) : exn :=
  if is_sqlalchemy_error (exn_class_of e)
  then Exn RuntimeError
         ("Failed to apply migration "
            +:+ PendingMigration.filename migration +:+ ": " +:+ exn_str e)
  else e.

(** The outcome is a value or a database error. *)
Definition database_errors_only {A} (r : res A) : bool :=
  match r with
  | Ok _ => true
  | Raise e => is_sqlalchemy_error (exn_class_of e)
  end.

End Transaction.

(** *** Comment-only migrations *)

Definition blank_or_semicolon (c : ascii) : bool :=
  Py.isspace c || bool_decide (c = ";"%char).

(** Every line is a [--] comment, or holds blanks and semicolons only. *)
Definition only_comments_as_worded (sql_content : string) : bool :=
  forallb
    (λ line, Py.startswith (Py.strip line) "--"
             || Py.all_chars blank_or_semicolon line)
    (Py.split "010" sql_content).

(** The same, with no semicolon inside a comment line. *)
Definition only_comments (sql_content : string) : bool :=
  forallb
    (λ line, Py.startswith (Py.strip line) "--" && negb (Py.has_char ";" line)
             || Py.all_chars blank_or_semicolon line)
    (Py.split "010" sql_content).

End Described.

(** ** Shapes of texts

    Predicates on the texts the store and the generator produce. *)

Module Shape.

Import MigrationManager.

(** The last character of [s] satisfies [p]. *)
Fixpoint last_is (p : ascii → bool) (s : string) : bool :=
  match s with
  | EmptyString => false
  | String c EmptyString => p c
  | String _ s' => last_is p s'
  end.

(** No two underscores in a row. *)
Fixpoint no_double_underscore (s : string) : bool :=
  match s with
  | EmptyString => true
  | String c s' =>
      negb (Py.is_underscore c && Py.head_is Py.is_underscore s')
      && no_double_underscore s'
  end.

(** A [--] comment with no semicolon in it, or blanks and semicolons. *)
Definition comment_or_blank_line (line : string) : bool :=
  Py.startswith (Py.strip line) "--" && negb (Py.has_char ";" line)
  || Py.all_chars Described.blank_or_semicolon line.

(** A text on one line. *)
Definition one_line (s : string) : bool := negb (Py.has_char "010" s).

(** Every line of the text is blank or starts with [--]. *)
Definition comment_block (text : string) : bool :=
  forallb (λ l, Py.is_empty l || Py.startswith l "--") (Py.split "010" text).

(** A text of one line, with no semicolon in it. *)
Definition plain (s : string) : bool :=
  negb (Py.has_char ";" s) && negb (Py.has_char "010" s).

Definition plain_column (c : ColumnDefinition.t) : bool :=
  plain (ColumnDefinition.name c) && plain (ColumnDefinition.type c).

(** An [ALTER_COLUMN] operation with both column definitions, whose names
    and rendering are plain. *)
Definition plain_alter_column (str_operation : MigrationOperation.t → string)
    (operation : MigrationOperation.t) : bool :=
  match MigrationOperation.operation_type operation,
        MigrationOperation.old_definition operation,
        MigrationOperation.new_definition operation with
  | ALTER_COLUMN, Some (ColumnDef old_col), Some (ColumnDef new_col) =>
      plain (str_operation operation)
      && plain (MigrationOperation.table_name operation)
      && plain (fmt (MigrationOperation.object_name operation))
      && plain_column old_col && plain_column new_col
  | _, _, _ => false
  end.

(** An operation translated to the one-line statement [body] and its
    terminator, rendered on one line. *)
Definition one_line_statement
    (str_operation : MigrationOperation.t → string)
    (str_operation_type : OperationType → string)
    (create_table_ddl : option definition → res string)
    (operation : MigrationOperation.t) (body : string) : Prop :=
  _operation_to_sql str_operation_type create_table_ddl operation
  = Ok (body +:+ ";")
  ∧ plain body = true
  ∧ Described.is_sql_line (Py.strip body) = true
  ∧ plain (str_operation operation) = true.

End Shape.

(** ** Sample operations and a sample rendering *)

Module Sample.

Definition email : ColumnDefinition.t :=
  ColumnDefinition.Build "email" "VARCHAR(100)" true false false false None.

Definition email_not_null : ColumnDefinition.t :=
  ColumnDefinition.Build "email" "VARCHAR(200)" false false false false None.

Definition drop_users : MigrationOperation.t :=
  MigrationOperation.Build DROP_TABLE "users" None None None.

Definition add_email : MigrationOperation.t :=
  MigrationOperation.Build ADD_COLUMN "users" (Some "email") None
    (Some (ColumnDef email)).

Definition alter_email : MigrationOperation.t :=
  MigrationOperation.Build ALTER_COLUMN "users" (Some "email")
    (Some (ColumnDef email)) (Some (ColumnDef email_not_null)).

(** A column whose type is written on two lines, and the operation that
    alters it. *)
Definition email_two_lines : ColumnDefinition.t :=
  ColumnDefinition.Build "email" ("TEXT" +:+ String "010" "DROP TABLE users;")
    true false false false None.

Definition alter_two_lines : MigrationOperation.t :=
  MigrationOperation.Build ALTER_COLUMN "users" (Some "email")
    (Some (ColumnDef email_two_lines)) (Some (ColumnDef email)).

(** An added column whose definition is missing. *)
Definition add_nothing : MigrationOperation.t :=
  MigrationOperation.Build ADD_COLUMN "users" (Some "email") None None.

Definition create_users : MigrationOperation.t :=
  MigrationOperation.Build CREATE_TABLE "users" None None
    (Some (TableDef (TableSnapshot.Build "users" [email] [] []))).

(** A rendering of operations and kinds, and a compiler that gives up. *)
Definition str_operation (operation : MigrationOperation.t) : string :=
  "operation on " +:+ MigrationOperation.table_name operation.

Definition str_operation_type (_ : OperationType) : string := "OperationType".

Definition create_table_ddl (_ : option definition) : res string :=
  Raise (Exn ValueError "no compiler").

(** A compiler that gives up with an error written on two lines. *)
Definition two_line_error (_ : option definition) : res string :=
  Raise (Exn SQLAlchemyError
           ("cannot compile the table" +:+ String "010" "DROP TABLE users;")).

(** A migration with comments between and inside its statements. *)
Definition commented_migration : PendingMigration.t :=
  PendingMigration.Build "0001_init.sql"
    (Py.join (String "010" "")
       ["-- operation on users";
        "CREATE TABLE users (";
        "    -- the key";
        "    id INTEGER";
        ");";
        "";
        "-- operation on users";
        "INSERT INTO users VALUES (1);";
        ""]).

End Sample.

(** * Properties *)

Import MigrationManager DatabaseManager Described.

(** Case analysis on a boolean test that guards a [filter]. *)
Ltac filter_case b :=
  let E := fresh "E" in
  destruct b eqn:E; simpl;
  try first [ rewrite decide_True by (simpl; exact I)
            | rewrite decide_False by (simpl; intros []) ].

(** ** Strings *)

Section StringFacts.

Implicit Types (s t : string) (p q : ascii → bool) (c : ascii).

Lemma all_chars_map_chars (f : ascii → ascii) p s :
  (∀ c, p (f c) = true) → Py.all_chars p (Py.map_chars f s) = true.
Proof.
  intros Hf. induction s as [|c s IH]; simpl; [done|].
  by rewrite Hf, IH.
Qed.

Lemma all_chars_lstrip_by p q s :
  Py.all_chars p s = true → Py.all_chars p (Py.lstrip_by q s) = true.
Proof.
  induction s as [|c s IH]; simpl; [done|].
  intros Hs. destruct (q c); [|done].
  apply andb_true_iff in Hs as [_ Hs]. by apply IH.
Qed.

Lemma all_chars_rstrip_by p q s :
  Py.all_chars p s = true → Py.all_chars p (Py.rstrip_by q s) = true.
Proof.
  induction s as [|c s IH]; simpl; [done|].
  intros [Hc Hs]%andb_true_iff. specialize (IH Hs).
  destruct (Py.rstrip_by q s) as [|c' r].
  - destruct (q c); simpl; [done|]. by rewrite Hc.
  - simpl in *. by rewrite Hc, IH.
Qed.

Lemma all_chars_strip_by p q s :
  Py.all_chars p s = true → Py.all_chars p (Py.strip_by q s) = true.
Proof.
  intros Hs. by apply all_chars_rstrip_by, all_chars_lstrip_by.
Qed.

Lemma all_chars_slice_to p (n : nat) s :
  Py.all_chars p s = true → Py.all_chars p (Py.slice_to n s) = true.
Proof.
  revert s. induction n as [|n IH]; intros [|c s]; simpl; try done.
  intros [Hc Hs]%andb_true_iff. by rewrite Hc, IH.
Qed.

Lemma squeeze_underscores_cons c s :
  squeeze_underscores (String c s)
  = if Py.is_underscore c && Py.head_is Py.is_underscore s
    then squeeze_underscores s
    else String c (squeeze_underscores s).
Proof.
  simpl. destruct (Py.is_underscore c); [|done].
  destruct s as [|c' s']; [done|]. simpl.
  by destruct (Py.is_underscore c').
Qed.

Lemma all_chars_squeeze_underscores p s :
  Py.all_chars p s = true → Py.all_chars p (squeeze_underscores s) = true.
Proof.
  induction s as [|c s IH]; [done|].
  intros [Hc Hs]%andb_true_iff. specialize (IH Hs).
  rewrite squeeze_underscores_cons.
  destruct (_ && _); [done|]. simpl. by rewrite Hc, IH.
Qed.

Lemma all_chars_append p s t :
  Py.all_chars p (s +:+ t) = Py.all_chars p s && Py.all_chars p t.
Proof.
  induction s as [|c s IH]; simpl; [done|].
  by rewrite IH, andb_assoc.
Qed.

Lemma rstrip_by_cons p c s :
  Py.rstrip_by p (String c s)
  = if Py.is_empty (Py.rstrip_by p s) && p c then EmptyString
    else String c (Py.rstrip_by p s).
Proof. simpl. by destruct (Py.rstrip_by p s), (p c). Qed.

Lemma rstrip_by_empty p s :
  Py.is_empty (Py.rstrip_by p s) = Py.all_chars p s.
Proof.
  induction s as [|c s IH]; [done|].
  rewrite rstrip_by_cons. simpl. rewrite <- IH.
  by destruct (Py.is_empty (Py.rstrip_by p s)), (p c).
Qed.

Lemma rstrip_by_head p q s :
  Py.is_empty (Py.rstrip_by p s) = false →
  Py.head_is q (Py.rstrip_by p s) = Py.head_is q s.
Proof.
  destruct s as [|c s]; [done|].
  rewrite rstrip_by_cons. by destruct (_ && _).
Qed.

Lemma rstrip_by_idemp p s :
  Py.rstrip_by p (Py.rstrip_by p s) = Py.rstrip_by p s.
Proof.
  induction s as [|c s IH]; [done|].
  rewrite rstrip_by_cons.
  destruct (Py.is_empty (Py.rstrip_by p s)) eqn:Ee, (p c) eqn:Ep;
    cbn [andb]; try done; by rewrite rstrip_by_cons, IH, Ee, ?Ep.
Qed.

Lemma lstrip_by_cons p c s :
  Py.lstrip_by p (String c s) = if p c then Py.lstrip_by p s else String c s.
Proof. done. Qed.

Lemma lstrip_rstrip_by p s :
  Py.lstrip_by p (Py.rstrip_by p s) = Py.rstrip_by p (Py.lstrip_by p s).
Proof.
  induction s as [|c s IH]; [done|].
  rewrite rstrip_by_cons, (lstrip_by_cons p c s).
  destruct (p c) eqn:Ep.
  - rewrite andb_true_r.
    destruct (Py.is_empty (Py.rstrip_by p s)) eqn:Ee.
    + rewrite <- IH. by destruct (Py.rstrip_by p s).
    + by rewrite lstrip_by_cons, Ep.
  - by rewrite andb_false_r, lstrip_by_cons, Ep, rstrip_by_cons, Ep,
      andb_false_r.
Qed.

Lemma slice_to_all (n : nat) s :
  (String.length s ≤ n)%nat → Py.slice_to n s = s.
Proof.
  revert s. induction n as [|n IH]; intros [|c s]; simpl; try done; [lia|].
  intros Hlen. rewrite IH; [done|lia].
Qed.

Lemma slice_to_length (n : nat) s :
  (String.length (Py.slice_to n s) ≤ n)%nat.
Proof.
  revert s. induction n as [|n IH]; intros [|c s]; simpl; try lia.
  specialize (IH s). lia.
Qed.

Lemma rstrip_by_length p s :
  (String.length (Py.rstrip_by p s) ≤ String.length s)%nat.
Proof.
  induction s as [|c s IH]; [done|].
  rewrite rstrip_by_cons. destruct (_ && _); simpl; lia.
Qed.

(** Characters. *)
Lemma is_underscore_eq c : Py.is_underscore c = true → c = "_"%char.
Proof. by destruct c as [[] [] [] [] [] [] [] []]. Qed.

Lemma isspace_not_alnum c : Py.isspace c = true → alnum_char c = false.
Proof. by destruct c as [[] [] [] [] [] [] [] []]. Qed.

Lemma alnum_not_underscore c :
  alnum_char c = true → Py.has_char c "_" = false.
Proof. by destruct c as [[] [] [] [] [] [] [] []]. Qed.

Lemma slug_char_alnum c :
  slug_char c = alnum_char c || Py.is_underscore c.
Proof. done. Qed.

Lemma alnum_is_underscore c :
  alnum_char c = true → Py.is_underscore c = false.
Proof. by destruct c as [[] [] [] [] [] [] [] []]. Qed.

(** Runs. *)
Lemma collapse_runs_cons (safe : ascii → bool) c s :
  collapse_runs safe (String c s)
  = if safe c then String c (collapse_runs safe s)
    else if Py.head_is (λ x, negb (safe x)) s then collapse_runs safe s
    else String "_" (collapse_runs safe s).
Proof.
  simpl. destruct (safe c); [done|].
  destruct s as [|c' s']; [done|]. simpl. by destruct (safe c').
Qed.

Lemma collapse_runs_all_unsafe (safe : ascii → bool) s :
  Py.all_chars (λ x, negb (safe x)) s = true → Py.is_empty s = false →
  collapse_runs safe s = "_".
Proof.
  induction s as [|c s IH]; [done|].
  intros [Hc Hs]%andb_true_iff _.
  rewrite collapse_runs_cons. apply negb_true_iff in Hc. rewrite Hc.
  destruct s as [|c' s']; [done|].
  rewrite <- IH by done.
  apply andb_true_iff in Hs as [Hc' _]. simpl. by rewrite Hc'.
Qed.

(** Replacing every unsafe character and squeezing the underscores is
    collapsing the runs of characters outside [[a-z0-9]]. *)
Lemma squeeze_replace_collapse s :
  squeeze_underscores (replace_unsafe s) = collapse_runs alnum_char s.
Proof.
  induction s as [|c s IH]; [done|].
  unfold replace_unsafe in *. simpl Py.map_chars.
  rewrite squeeze_underscores_cons, collapse_runs_cons, IH.
  assert (Py.head_is Py.is_underscore
            (Py.map_chars (λ c, if slug_char c then c else "_"%char) s)
          = Py.head_is (λ x, negb (alnum_char x)) s) as ->.
  { destruct s as [|c' s']; [done|]. simpl.
    rewrite slug_char_alnum.
    destruct (alnum_char c') eqn:Ea; simpl.
    - by apply alnum_is_underscore.
    - by destruct (Py.is_underscore c') eqn:Eu; simpl; rewrite ?Eu. }
  rewrite slug_char_alnum.
  destruct (alnum_char c) eqn:Ea; simpl.
  - by rewrite (alnum_is_underscore c Ea).
  - destruct (Py.is_underscore c) eqn:Eu; simpl.
    + rewrite Eu. simpl. by rewrite (is_underscore_eq c Eu).
    + done.
Qed.

(** Stripping blanks before collapsing is invisible once the underscores
    are trimmed. *)
Section StripBeforeCollapse.

Variables safe ws us : ascii → bool.
Hypothesis ws_unsafe : ∀ c, ws c = true → safe c = false.
Hypothesis us_underscore : us "_" = true.
Hypothesis safe_kept : ∀ c, safe c = true → us c = false.

Lemma lstrip_collapse_unsafe c s :
  safe c = false →
  Py.lstrip_by us (collapse_runs safe (String c s))
  = Py.lstrip_by us (collapse_runs safe s).
Proof.
  intros Hc. rewrite collapse_runs_cons, Hc.
  destruct (Py.head_is _ s); [done|]. simpl. by rewrite us_underscore.
Qed.

Lemma lstrip_collapse_lstrip s :
  Py.lstrip_by us (collapse_runs safe (Py.lstrip_by ws s))
  = Py.lstrip_by us (collapse_runs safe s).
Proof.
  induction s as [|c s IH]; [done|]. simpl Py.lstrip_by at 2.
  destruct (ws c) eqn:Ew; [|done].
  by rewrite IH, lstrip_collapse_unsafe by auto.
Qed.

Lemma rstrip_collapse_cons c s t :
  Py.rstrip_by us (collapse_runs safe s)
  = Py.rstrip_by us (collapse_runs safe t) →
  Py.head_is (λ x, negb (safe x)) s = Py.head_is (λ x, negb (safe x)) t →
  Py.rstrip_by us (collapse_runs safe (String c s))
  = Py.rstrip_by us (collapse_runs safe (String c t)).
Proof.
  intros Hr Hh. rewrite !collapse_runs_cons, Hh.
  destruct (safe c); [by rewrite !rstrip_by_cons, Hr|].
  destruct (Py.head_is _ t); [done|].
  by rewrite !rstrip_by_cons, Hr.
Qed.

Lemma ws_all_unsafe s :
  Py.all_chars ws s = true → Py.all_chars (λ x, negb (safe x)) s = true.
Proof.
  induction s as [|c s IH]; [done|]. simpl.
  intros [Hc Hs]%andb_true_iff. by rewrite (ws_unsafe c Hc), IH.
Qed.

Lemma rstrip_underscore : Py.rstrip_by us "_" = EmptyString.
Proof. simpl. by rewrite us_underscore. Qed.

Lemma rstrip_collapse_rstrip s :
  Py.rstrip_by us (collapse_runs safe (Py.rstrip_by ws s))
  = Py.rstrip_by us (collapse_runs safe s).
Proof.
  induction s as [|c s IH]; [done|].
  rewrite (rstrip_by_cons ws).
  destruct (Py.is_empty (Py.rstrip_by ws s)) eqn:Ee; cbn [andb].
  - assert (Py.all_chars (λ x, negb (safe x)) s = true) as Hall
      by (apply ws_all_unsafe; by rewrite <- rstrip_by_empty).
    destruct (ws c) eqn:Ew.
    + rewrite (collapse_runs_all_unsafe safe (String c s)); [|simpl|done].
      * by rewrite rstrip_underscore.
      * by rewrite (ws_unsafe c Ew), Hall.
    + destruct (Py.rstrip_by ws s) as [|? ?]; [|done].
      destruct s as [|c' s']; [done|].
      rewrite !(collapse_runs_cons safe c).
      rewrite (collapse_runs_all_unsafe safe (String c' s')) by done.
      simpl in Hall. apply andb_true_iff in Hall as [Hc' _].
      cbn [Py.head_is collapse_runs]. rewrite Hc'.
      destruct (safe c) eqn:Es; [|done].
      rewrite !(rstrip_by_cons us c), rstrip_underscore.
      by rewrite (safe_kept c Es).
  - apply rstrip_collapse_cons; [done|]. by apply rstrip_by_head.
Qed.

Lemma strip_collapse_strip s :
  Py.strip_by us (collapse_runs safe (Py.strip_by ws s))
  = Py.strip_by us (collapse_runs safe s).
Proof.
  unfold Py.strip_by.
  rewrite <- (lstrip_rstrip_by us), rstrip_collapse_rstrip.
  by rewrite (lstrip_rstrip_by us), lstrip_collapse_lstrip.
Qed.

End StripBeforeCollapse.

(** Decimal digits. *)
Lemma isdigit_range c :
  Py.isdigit c = true → (48 ≤ N_of_ascii c ≤ 57)%N.
Proof. unfold Py.isdigit. intros [?%N.leb_le ?%N.leb_le]%andb_true_iff. lia. Qed.

Lemma isdigit_plain c :
  Py.isdigit c = true →
  c ≠ "_"%char ∧ c ≠ "+"%char ∧ c ≠ "-"%char ∧ Py.int_space c = false.
Proof.
  intros Hc. repeat split; try (intros ->; done).
  apply isdigit_range in Hc. unfold Py.int_space.
  repeat (apply orb_false_iff; split);
    rewrite ?andb_false_iff, ?N.leb_gt, ?N.eqb_neq; lia.
Qed.

Lemma digits_value_acc (acc : Z) s :
  Py.digits_value acc s
  = acc * 10 ^ Z.of_nat (String.length s) + Py.digits_value 0 s.
Proof.
  revert acc. induction s as [|c s IH]; intros acc.
  - simpl. lia.
  - cbn [Py.digits_value String.length].
    rewrite (IH (10 * acc + _)), (IH (10 * 0 + _)).
    rewrite Nat2Z.inj_succ, Z.pow_succ_r by lia. lia.
Qed.

Lemma digits_value_bound s :
  Py.all_chars Py.isdigit s = true →
  0 ≤ Py.digits_value 0 s < 10 ^ Z.of_nat (String.length s).
Proof.
  induction s as [|c s IH]; [simpl; lia|].
  intros [Hc%isdigit_range Hs]%andb_true_iff. specialize (IH Hs).
  cbn [Py.digits_value String.length].
  rewrite digits_value_acc, Nat2Z.inj_succ, Z.pow_succ_r by lia.
  nia.
Qed.

Lemma append_cons c s t : String c s +:+ t = String c (s +:+ t).
Proof. done. Qed.

(** Among digit strings of one length, the order of the strings is the
    order of the numbers. *)
Lemma digits_leb (a b ra rb : string) :
  String.length a = String.length b →
  Py.all_chars Py.isdigit a = true → Py.all_chars Py.isdigit b = true →
  String.leb (a +:+ ra) (b +:+ rb) = true →
  Py.digits_value 0 a ≤ Py.digits_value 0 b.
Proof.
  revert b. induction a as [|c1 a IH]; intros [|c2 b]; try done.
  intros [= Hlen] [Hc1 Ha]%andb_true_iff [Hc2 Hb]%andb_true_iff.
  rewrite !append_cons. unfold String.leb.
  cbn [String.compare]. unfold Ascii.compare.
  cbn [Py.digits_value].
  rewrite (digits_value_acc _ a), (digits_value_acc _ b), Hlen.
  pose proof (digits_value_bound a Ha) as Hba.
  pose proof (digits_value_bound b Hb) as Hbb.
  rewrite Hlen in Hba.
  apply isdigit_range in Hc1, Hc2.
  destruct (N.compare_spec (N_of_ascii c1) (N_of_ascii c2)) as [Heq|Hlt|Hgt].
  - intros Hle. specialize (IH b Hlen Ha Hb Hle). rewrite Heq. nia.
  - intros _. nia.
  - done.
Qed.

Lemma strip_by_plain p s :
  Py.all_chars (λ c, negb (p c)) s = true → Py.strip_by p s = s.
Proof.
  intros Hs. unfold Py.strip_by.
  assert (Py.lstrip_by p s = s) as ->.
  { destruct s as [|c s]; [done|]. simpl in *.
    by destruct (p c). }
  induction s as [|c s IH]; [done|].
  apply andb_true_iff in Hs as [Hc Hs].
  rewrite rstrip_by_cons, IH by done.
  apply negb_true_iff in Hc. by rewrite Hc, andb_false_r.
Qed.

Lemma int_digits s :
  Py.all_chars Py.isdigit s = true → Py.is_empty s = false →
  Py.int s = Some (Py.digits_value 0 s).
Proof.
  intros Hs Hne. unfold Py.int.
  rewrite strip_by_plain.
  - destruct s as [|c d]; [done|].
    pose proof Hs as [Hc _]%andb_true_iff.
    apply isdigit_plain in Hc as (_ & Hplus & Hminus & _).
    rewrite !bool_decide_eq_false_2 by done.
    unfold Py.unsigned_int. by rewrite Hs.
  - clear Hne. induction s as [|c s IH]; [done|].
    apply andb_true_iff in Hs as [Hc Hs]. simpl.
    apply isdigit_plain in Hc as (_ & _ & _ & ->). by apply IH.
Qed.

Lemma split1_digits (num body : string) :
  Py.all_chars Py.isdigit num = true →
  Py.split1 "_" (num +:+ "_" +:+ body) = [num; body].
Proof.
  induction num as [|c num IH]; [done|].
  intros [Hc Hnum]%andb_true_iff.
  rewrite append_cons. cbn [Py.split1].
  apply isdigit_plain in Hc as (Hc & _).
  by rewrite bool_decide_eq_false_2, IH.
Qed.

(** Paths. *)
Lemma rfind_sql s :
  rfind "." (s +:+ ".sql") = Some (String.length s).
Proof.
  induction s as [|c s IH]; [done|].
  rewrite append_cons. cbn [rfind String.length]. by rewrite IH.
Qed.

Lemma slice_to_append s t : Py.slice_to (String.length s) (s +:+ t) = s.
Proof.
  induction s as [|c s IH]; [by destruct t|].
  rewrite append_cons. cbn [String.length Py.slice_to]. by rewrite IH.
Qed.

Lemma length_append s t :
  String.length (s +:+ t) = (String.length s + String.length t)%nat.
Proof.
  induction s as [|c s IH]; [done|].
  rewrite append_cons. cbn [String.length]. by rewrite IH.
Qed.

Lemma has_char_append (x : ascii) s t :
  Py.has_char x (s +:+ t) = Py.has_char x s || Py.has_char x t.
Proof.
  induction s as [|c s IH]; [done|].
  rewrite append_cons. simpl. by rewrite IH, orb_assoc.
Qed.

Lemma has_char_all_chars (x : ascii) p s :
  Py.all_chars p s = true → p x = false → Py.has_char x s = false.
Proof.
  intros Hall Hx. induction s as [|c s IH]; [done|].
  simpl in *. apply andb_true_iff in Hall as [Hc Hs].
  rewrite IH by done. rewrite orb_false_r. apply bool_decide_eq_false.
  intros ->. congruence.
Qed.

Lemma utf8_length_append s t :
  Py.utf8_length (s +:+ t) = (Py.utf8_length s + Py.utf8_length t)%nat.
Proof.
  induction s as [|c s IH]; [done|].
  rewrite append_cons. cbn [Py.utf8_length]. rewrite IH. lia.
Qed.

(** A text of characters below 128 has one byte for each. *)
Lemma utf8_length_ascii s :
  Py.all_chars (λ c, (N_of_ascii c <? 128)%N) s = true →
  Py.utf8_length s = String.length s.
Proof.
  induction s as [|c s IH]; [done|].
  simpl. intros [-> Hs]%andb_true_iff. by rewrite IH.
Qed.

Lemma utf8_length_ge s : (String.length s ≤ Py.utf8_length s)%nat.
Proof.
  induction s as [|c s IH]; [done|]. simpl.
  destruct (N_of_ascii c <? 128)%N; lia.
Qed.

Lemma stem_sql s :
  Py.is_empty s = false → stem (s +:+ ".sql") = s.
Proof.
  intros Hne. unfold stem. rewrite rfind_sql, length_append.
  destruct s as [|c s]; [done|].
  destruct (_ && _) eqn:E.
  - apply (slice_to_append (String c s)).
  - apply andb_false_iff in E as [E|E]; apply Nat.ltb_ge in E;
      simpl in E; lia.
Qed.

Lemma append_assoc s t u : (s +:+ t) +:+ u = s +:+ t +:+ u.
Proof.
  induction s as [|c s IH]; [done|]. by rewrite !append_cons, IH.
Qed.

(** Artifact names. *)
Lemma slug_then_sql_inv s :
  slug_then_sql s = true →
  ∃ body, s = body +:+ ".sql" ∧ Py.is_empty body = false.
Proof.
  induction s as [|c s IH]; [done|].
  cbn [slug_then_sql].
  intros [_ [Hsql%String.eqb_eq|Hrest]%orb_true_iff]%andb_true_iff.
  - exists (String c ""). by rewrite Hsql.
  - destruct (IH Hrest) as (body & -> & _). by exists (String c body).
Qed.

Lemma artifact_name_inv (fname : string) :
  artifact_name fname = true →
  ∃ num body,
    fname = (num +:+ "_" +:+ body) +:+ ".sql"
    ∧ String.length num = 4%nat
    ∧ Py.all_chars Py.isdigit num = true.
Proof.
  destruct fname as [|d1 [|d2 [|d3 [|d4 [|u rest]]]]]; try done.
  cbn [artifact_name]. intros Hart.
  apply andb_true_iff in Hart as [Hart Hslug].
  apply andb_true_iff in Hart as [Hdigits Hu].
  apply is_underscore_eq in Hu as ->.
  destruct (slug_then_sql_inv rest Hslug) as (body & -> & _).
  exists (String d1 (String d2 (String d3 (String d4 "")))), body.
  split; [by rewrite !append_assoc|]. split; [done|]. simpl.
  by destruct (Py.isdigit d1), (Py.isdigit d2), (Py.isdigit d3),
    (Py.isdigit d4).
Qed.

(** An artifact name parses, and its number is the value of its four
    digits. *)
Lemma parse_name_artifact (fname : string) :
  artifact_name fname = true →
  ∃ num body rest,
    fname = num +:+ rest
    ∧ String.length num = 4%nat
    ∧ Py.all_chars Py.isdigit num = true
    ∧ parse_name fname = Some (Py.digits_value 0 num, body).
Proof.
  intros (num & body & -> & Hlen & Hdigits)%artifact_name_inv.
  exists num, body, ("_" +:+ body +:+ ".sql").
  split; [by rewrite !append_assoc|]. split; [done|]. split; [done|].
  unfold parse_name.
  rewrite stem_sql by (by destruct num).
  rewrite split1_digits by done.
  rewrite int_digits; [done..|by destruct num].
Qed.

(** Splitting. *)
Lemma split_nonempty (a : ascii) s : Py.split a s ≠ [].
Proof.
  destruct s as [|c s]; [done|]. simpl.
  destruct (bool_decide (c = a)); [done|]. by destruct (Py.split a s).
Qed.

Lemma split_cons (a c : ascii) s :
  Py.split a (String c s)
  = if bool_decide (c = a) then EmptyString :: Py.split a s
    else match Py.split a s with
         | h :: t => String c h :: t
         | [] => []
         end.
Proof.
  simpl. destruct (bool_decide (c = a)); [done|].
  pose proof (split_nonempty a s). by destruct (Py.split a s).
Qed.

(** Splitting on one separator and then on another gives the same pieces,
    in the same order, as splitting the other way round. *)
Lemma split_split_comm (a b : ascii) s :
  concat (map (Py.split b) (Py.split a s))
  = concat (map (Py.split a) (Py.split b s)).
Proof.
  induction s as [|c s IH]; [done|].
  rewrite !split_cons.
  pose proof (split_nonempty a s) as Ha.
  pose proof (split_nonempty b s) as Hb.
  destruct (Py.split a s) as [|h t]; [done|].
  destruct (Py.split b s) as [|g u]; [done|].
  cbn [map concat] in IH.
  pose proof (split_nonempty b h) as Hbh.
  pose proof (split_nonempty a g) as Hag.
  destruct (bool_decide (c = a)) eqn:Ea, (bool_decide (c = b)) eqn:Eb;
    cbn [map concat]; rewrite ?split_cons, ?Ea, ?Eb; cbn [map concat app].
  all: change (Py.split a "") with [""]; change (Py.split b "") with [""];
    cbn [app].
  - by rewrite IH.
  - by rewrite IH.
  - by rewrite <- IH.
  - destruct (Py.split b h) as [|h1 t1]; [done|].
    destruct (Py.split a g) as [|g1 u1]; [done|].
    cbn [app] in *. by injection IH as -> ->.
Qed.

Lemma split_no_separator (a : ascii) s :
  Py.has_char a s = false → Py.split a s = [s].
Proof.
  induction s as [|c s IH]; [done|]. simpl.
  intros [Hc Hs]%orb_false_iff. by rewrite Hc, IH.
Qed.

Lemma split_all_chars (a : ascii) p s :
  Py.all_chars (λ c, p c || bool_decide (c = a)) s = true →
  Forall (λ l, Py.all_chars p l = true) (Py.split a s).
Proof.
  induction s as [|c s IH]; [by constructor|].
  intros [Hc Hs]%andb_true_iff. specialize (IH Hs).
  rewrite split_cons.
  destruct (bool_decide (c = a)); [by constructor|].
  destruct (Py.split a s) as [|h t]; [done|].
  apply Forall_cons in IH as [Hh Ht].
  constructor; [|done]. simpl. rewrite orb_false_r in Hc. by rewrite Hc.
Qed.

(** Stripping and blanks. *)
Lemma rstrip_by_append_blank p s w :
  Py.all_chars p w = true → Py.rstrip_by p (s +:+ w) = Py.rstrip_by p s.
Proof.
  intros Hw. induction s as [|c s IH].
  - change ("" +:+ w) with w.
    rewrite <- rstrip_by_empty in Hw. by destruct (Py.rstrip_by p w).
  - by rewrite append_cons, !rstrip_by_cons, IH.
Qed.

Lemma strip_by_append_blank p s w :
  Py.all_chars p w = true → Py.strip_by p (s +:+ w) = Py.strip_by p s.
Proof.
  intros Hw. unfold Py.strip_by.
  by rewrite <- !lstrip_rstrip_by, rstrip_by_append_blank.
Qed.

Lemma strip_by_cons_blank p c s :
  p c = true → Py.strip_by p (String c s) = Py.strip_by p s.
Proof. intros Hc. unfold Py.strip_by. by rewrite lstrip_by_cons, Hc. Qed.

Lemma strip_by_blank p s :
  Py.all_chars p s = true → Py.strip_by p s = EmptyString.
Proof.
  intros Hs. unfold Py.strip_by. rewrite <- lstrip_rstrip_by.
  rewrite <- rstrip_by_empty in Hs. by destruct (Py.rstrip_by p s).
Qed.

Lemma skipped_line_cons_blank c l :
  Py.isspace c = true → skipped_line (String c l) = skipped_line l.
Proof.
  intros Hc. unfold skipped_line, Py.strip.
  by rewrite strip_by_cons_blank.
Qed.

Lemma skipped_line_append_blank l w :
  Py.all_chars Py.isspace w = true → skipped_line (l +:+ w) = skipped_line l.
Proof.
  intros Hw. unfold skipped_line, Py.strip.
  by rewrite strip_by_append_blank.
Qed.

Lemma skipped_line_blank l :
  Py.all_chars Py.isspace l = true → skipped_line l = true.
Proof.
  intros Hl. unfold skipped_line, Py.strip. by rewrite strip_by_blank.
Qed.

(** The lines of a stripped statement are skipped when the lines of the
    statement are. *)
Lemma lines_lstrip s :
  Forall (λ l, skipped_line l = true) (Py.split "010" s) →
  Forall (λ l, skipped_line l = true)
    (Py.split "010" (Py.lstrip_by Py.isspace s)).
Proof.
  induction s as [|c s IH]; [done|].
  rewrite lstrip_by_cons. destruct (Py.isspace c) eqn:Ec; [|done].
  rewrite split_cons. intros Hall. apply IH.
  destruct (bool_decide (c = "010"%char)); [by apply Forall_cons in Hall as [_ ?]|].
  destruct (Py.split "010" s) as [|h t]; [done|].
  apply Forall_cons in Hall as [Hh Ht]. constructor; [|done].
  by rewrite skipped_line_cons_blank in Hh.
Qed.

Lemma lines_rstrip_head s :
  ∃ h ls h' ls' w,
    Py.split "010" s = h :: ls
    ∧ Py.split "010" (Py.rstrip_by Py.isspace s) = h' :: ls'
    ∧ Py.all_chars Py.isspace w = true ∧ h = h' +:+ w
    ∧ (Forall (λ l, skipped_line l = true) ls →
       Forall (λ l, skipped_line l = true) ls').
Proof.
  induction s as [|c s IH].
  - by exists "", [], "", [], "".
  - destruct IH as (h0 & t0 & h0' & t0' & w & E & E' & Hw & -> & Ht).
    rewrite rstrip_by_cons.
    destruct (Py.is_empty (Py.rstrip_by Py.isspace s) && Py.isspace c) eqn:Eb.
    + apply andb_true_iff in Eb as [Hs Hc]. rewrite rstrip_by_empty in Hs.
      pose proof (split_all_chars "010" Py.isspace (String c s)) as Hall.
      destruct (Py.split "010" (String c s)) as [|h t] eqn:Es.
      { by apply split_nonempty in Es. }
      exists h, t, "", [], h. repeat split; [|done].
      assert (Forall (λ l, Py.all_chars Py.isspace l = true) (h :: t)) as Hh.
      { apply Hall. simpl. rewrite Hc. simpl. clear -Hs.
        induction s as [|c' s IH]; [done|]. simpl in *.
        apply andb_true_iff in Hs as [-> Hs]. by apply IH. }
      by apply Forall_cons in Hh as [Hh _].
    + rewrite !split_cons, E, E'.
      destruct (bool_decide (c = "010"%char)).
      * exists "", ((h0' +:+ w) :: t0), "", (h0' :: t0'), "".
        repeat split; try done.
        intros [Hh Ht0]%Forall_cons. constructor; [|by apply Ht].
        by rewrite skipped_line_append_blank in Hh.
      * exists (String c (h0' +:+ w)), t0, (String c h0'), t0', w.
        by repeat split.
Qed.

Lemma lines_rstrip s :
  Forall (λ l, skipped_line l = true) (Py.split "010" s) →
  Forall (λ l, skipped_line l = true)
    (Py.split "010" (Py.rstrip_by Py.isspace s)).
Proof.
  destruct (lines_rstrip_head s)
    as (h & t & h' & t' & w & -> & -> & Hw & -> & Ht).
  intros [Hh Htail]%Forall_cons. constructor; [|by apply Ht].
  by rewrite skipped_line_append_blank in Hh.
Qed.

Lemma lines_strip s :
  Forall (λ l, skipped_line l = true) (Py.split "010" s) →
  Forall (λ l, skipped_line l = true) (Py.split "010" (Py.strip s)).
Proof. intros Hs. by apply lines_rstrip, lines_lstrip. Qed.

(** A statement whose lines are all skipped is discarded. *)
Lemma without_comment_lines_skipped s :
  Forall (λ l, skipped_line l = true) (Py.split "010" s) →
  without_comment_lines s = EmptyString.
Proof.
  intros Hs. unfold without_comment_lines.
  assert (filter (λ l, is_sql_line l) (map Py.strip (Py.split "010" s)) = [])
    as ->; [|done].
  induction Hs as [|l ls Hl _ IH]; [done|].
  cbn [map]. rewrite filter_cons, IH.
  unfold skipped_line in Hl. apply negb_true_iff in Hl.
  by filter_case (is_sql_line (Py.strip l)).
Qed.

(** The pieces of a line of comments, blanks and semicolons. *)
Lemma comment_line_pieces (line : string) :
  Py.startswith (Py.strip line) "--" && negb (Py.has_char ";" line)
  || Py.all_chars blank_or_semicolon line = true →
  Forall (λ l, skipped_line l = true) (Py.split ";" line).
Proof.
  intros [[Hcomment Hsemi%negb_true_iff]%andb_true_iff|Hblank]%orb_true_iff.
  - rewrite split_no_separator by done. constructor; [|done].
    unfold skipped_line, is_sql_line. by rewrite Hcomment, andb_false_r.
  - eapply Forall_impl; [by apply split_all_chars|].
    intros l Hl. by apply skipped_line_blank.
Qed.

(** A migration of comments, blanks and semicolons has no statement. *)
Lemma only_comments_no_statement (sql_content : string) :
  only_comments sql_content = true → statements_of sql_content = [].
Proof.
  unfold only_comments. rewrite forallb_forall. intros Hlines.
  assert (Forall (λ l, skipped_line l = true)
            (concat (map (Py.split "010") (Py.split ";" sql_content))))
    as Hsegments.
  { rewrite split_split_comm. apply Forall_forall.
    intros l (ls & Hls & Hl)%list_elem_of_In%in_concat.
    apply in_map_iff in Hls as (line & <- & Hline).
    pose proof (comment_line_pieces line (Hlines line Hline)) as Hline'.
    rewrite Forall_forall in Hline'. by apply Hline', list_elem_of_In. }
  assert (Forall (λ piece, Forall (λ l, skipped_line l = true)
                             (Py.split "010" piece))
            (Py.split ";" sql_content)) as Hpieces.
  { apply Forall_forall. intros piece Hpiece. apply Forall_forall.
    intros l Hl. rewrite Forall_forall in Hsegments.
    apply Hsegments, list_elem_of_In, in_concat.
    exists (Py.split "010" piece).
    split; [apply in_map|]; by apply list_elem_of_In. }
  clear Hsegments Hlines.
  unfold statements_of.
  induction Hpieces as [|piece pieces Hpiece _ IH]; [done|].
  cbn [map]. rewrite filter_cons.
  assert (without_comment_lines (Py.strip piece) = "") as Hgone
    by (by apply without_comment_lines_skipped, lines_strip).
  filter_case (is_blank (Py.strip piece)); [done|].
  by rewrite filter_cons, Hgone.
Qed.

End StringFacts.

(** ** The applier *)

Section ApplierFacts.

Context {DB : Type} `{Database DB}.

Lemma keep_sql_lines_filter (lines sql_lines : list string) :
  keep_sql_lines lines sql_lines
  = sql_lines ++ filter (λ l, is_sql_line l) (map Py.strip lines).
Proof.
  revert sql_lines.
  induction lines as [|line rest IH]; intros acc; simpl.
  - by rewrite app_nil_r.
  - rewrite filter_cons. fold (is_sql_line (Py.strip line)).
    filter_case (is_sql_line (Py.strip line)); rewrite IH.
    + by rewrite <- app_assoc.
    + done.
Qed.

Lemma clean_statement_without_comment_lines (statement : string) :
  clean_statement statement = without_comment_lines statement.
Proof.
  unfold clean_statement, without_comment_lines.
  by rewrite keep_sql_lines_filter.
Qed.

Lemma is_empty_strip (s : string) :
  Py.is_empty s || Py.is_empty (Py.strip s) = is_blank s.
Proof. unfold is_blank. by destruct s. Qed.

Lemma sess_bind_eq {A B} (m : Sess DB A) (k : A → Sess DB B)
    (s : session DB) :
  (m ≫= k) s
  = match m s with
    | (s', Ok x) => k x s'
    | (s', Raise e) => (s', Raise e)
    end.
Proof. reflexivity. Qed.

Lemma res_bind_eq {A B} (m : res A) (k : A → res B) :
  (m ≫= k) = match m with Ok x => k x | Raise e => Raise e end.
Proof. reflexivity. Qed.

Lemma session_execute_open (stmt : statement) (tx : Tx DB) :
  session_execute stmt (Open tx)
  = match execute tx stmt with
    | Ok (tx', rows) => (Open tx', Ok rows)
    | Raise e => (Open tx, Raise e)
    end.
Proof. reflexivity. Qed.

Lemma session_execute_idle (stmt : statement) (db : DB) :
  session_execute stmt (Idle db) = session_execute stmt (Open (begin db)).
Proof. reflexivity. Qed.

(** The loop over the statements runs, inside the open transaction, the
    statements the specification describes, in order, and stops at the
    first that raises. *)
Lemma execute_statements_each (statements : list string) (tx : Tx DB) :
  execute_statements statements (Open tx)
  = let '(tx', r) :=
      execute_each tx
        (filter (λ s, negb (Py.is_empty s))
           (map without_comment_lines
              (filter (λ s, negb (is_blank s)) statements))) in
    (Open tx', r).
Proof.
  revert tx.
  induction statements as [|statement rest IH]; intros tx; simpl; [done|].
  rewrite is_empty_strip, filter_cons.
  filter_case (is_blank statement); simpl; [apply IH|].
  rewrite clean_statement_without_comment_lines, filter_cons.
  filter_case (Py.is_empty (without_comment_lines statement)); simpl;
    [apply IH|].
  rewrite sess_bind_eq, session_execute_open.
  destruct (execute tx (text (without_comment_lines statement)))
    as [[tx1 rows]|e]; [apply IH|done].
Qed.

Lemma surfaced_eq (migration : PendingMigration.t) (e : exn) (s : session DB) :
  (if is_sqlalchemy_error (exn_class_of e)
   then session_raise
          (Exn RuntimeError
             ("Failed to apply migration "
                +:+ PendingMigration.filename migration
                +:+ ": " +:+ exn_str e)) s
   else (s, Raise e))
  = (s, Raise (surfaced migration e) : res unit).
Proof. unfold surfaced. by destruct (is_sqlalchemy_error _). Qed.

(** What [apply_migration] does, in terms of the transaction. *)
Lemma apply_migration_transaction (db : DB) (migration : PendingMigration.t)
    (now : timestamp) :
  apply_migration db migration now
  = match transaction db migration now with
    | (_, Ok db') => (db', Ok tt)
    | (tx, Raise e) => (rollback tx, Raise (surfaced migration e))
    end.
Proof.
  unfold apply_migration, transaction, run_transaction, statements_of,
    with_session, session_try, with_begin.
  rewrite !sess_bind_eq. unfold session_begin.
  rewrite sess_bind_eq, execute_statements_each.
  destruct (execute_each (begin db) _) as [tx [[]|e]].
  - rewrite sess_bind_eq, session_execute_open.
    destruct (execute tx (insert_migration _ now)) as [[tx1 rows]|e]; simpl.
    + destruct (commit tx1) as [db'|e]; simpl; [done|].
      by rewrite surfaced_eq.
    + by rewrite surfaced_eq.
  - simpl. by rewrite surfaced_eq.
Qed.

(** A transaction that fails on a database whose rollback undoes every
    statement rolls back to the state it began from. *)
Lemma execute_each_rollback (statements : list string) (tx tx' : Tx DB)
    (r : res unit) :
  undoes_every_statement →
  execute_each tx statements = (tx', r) → rollback tx' = rollback tx.
Proof.
  intros [_ Hundo]. revert tx.
  induction statements as [|sql rest IH]; intros tx; simpl.
  - by intros [= <- _].
  - destruct (execute tx (text sql)) as [[tx1 rows]|e] eqn:Hexec.
    + intros Hrest. rewrite (IH _ Hrest). by eapply Hundo.
    + by intros [= <- _].
Qed.

Lemma run_transaction_rollback (db : DB) (statements : list string)
    (filename : string) (now : timestamp) (tx : Tx DB) (r : res DB) :
  undoes_every_statement →
  run_transaction db statements filename now = (tx, r) → rollback tx = db.
Proof.
  intros Hundo. unfold run_transaction.
  destruct (execute_each (begin db) statements) as [tx1 [[]|e]] eqn:Heach;
    apply (execute_each_rollback _ _ _ _ Hundo) in Heach;
    destruct Hundo as [Hbegin Hundo].
  - destruct (execute tx1 _) as [[tx2 rows]|e] eqn:Hinsert.
    + intros [= <- _]. by rewrite (Hundo _ _ _ _ Hinsert), Heach.
    + intros [= <- _]. by rewrite Heach.
  - intros [= <- _]. by rewrite Heach.
Qed.


Lemma with_connect_execute (stmt : statement) (db : DB) :
  with_connect (session_execute stmt) db
  = match connect db with
    | Ok _ =>
        match execute (begin db) stmt with
        | Ok (tx, rows) => (rollback tx, Ok rows)
        | Raise e => (rollback (begin db), Raise e)
        end
    | Raise e => (db, Raise e)
    end.
Proof.
  unfold with_connect, with_session.
  destruct (connect db) as [[]|e]; [|done].
  rewrite session_execute_idle, session_execute_open.
  by destruct (execute (begin db) stmt) as [[tx rows]|e].
Qed.

(** C8: when creating the ledger table succeeds nothing else is done; when
    it raises a database error, the manager opens a connection and reads at
    most one row of the ledger table, and the creation error is dropped when
    that read succeeds; when the connection or the read raises a database
    error too, it raises a [RuntimeError] that carries the text of the
    creation error. It raises only when both the creation and the read have
    failed. *)
Theorem ensure_migrations_table_fallback (db : DB) :
  let bounded_read := select_migrations (Some 1%nat) false in
  let failed (cause : exn) : res unit :=
    Raise (Exn RuntimeError
             ("Failed to create or access migrations table: "
                +:+ exn_str cause)) in
  (∀ db', create_all db = Ok db' → _ensure_migrations_table db = (db', Ok tt))
  ∧ (∀ cause,
       create_all db = Raise cause →
       exn_class_of cause = SQLAlchemyError →
       (∀ tx rows,
          connect db = Ok tt →
          execute (begin db) bounded_read = Ok (tx, rows) →
          _ensure_migrations_table db = (rollback tx, Ok tt))
       ∧ (∀ e,
            connect db = Raise e → exn_class_of e = SQLAlchemyError →
            _ensure_migrations_table db = (db, failed cause))
       ∧ (∀ e,
            connect db = Ok tt →
            execute (begin db) bounded_read = Raise e →
            exn_class_of e = SQLAlchemyError →
            _ensure_migrations_table db
            = (rollback (begin db), failed cause)))
  ∧ (∀ err,
       database_errors_only (create_all db) = true →
       database_errors_only (connect db) = true →
       database_errors_only (execute (begin db) bounded_read) = true →
       (_ensure_migrations_table db).2 = Raise err →
       is_ok (create_all db) = false
       ∧ is_ok (connect db) && is_ok (execute (begin db) bounded_read) = false
       ∧ exn_class_of err = RuntimeError).
Proof.
  intros bounded_read failed.
  unfold _ensure_migrations_table. rewrite with_connect_execute.
  fold bounded_read.
  split; [by intros db' ->|]. split.
  - intros cause -> Hcause. unfold is_sqlalchemy_error.
    rewrite Hcause, bool_decide_eq_true_2 by done.
    split; [|split].
    + by intros tx rows -> ->.
    + intros e -> He. unfold try_except. simpl.
      by rewrite He, bool_decide_eq_true_2.
    + intros e -> -> He. unfold try_except. simpl.
      by rewrite He, bool_decide_eq_true_2.
  - intros err. unfold database_errors_only, try_except.
    destruct (create_all db) as [db'|cause]; [done|].
    intros ->.
    destruct (connect db) as [[]|e]; simpl.
    + destruct (execute (begin db) bounded_read) as [[tx rows]|e]; [done|].
      simpl. intros _ He. rewrite He. by intros [= <-].
    + intros He _. rewrite He. by intros [= <-].
Qed.

(** C10: [test_connection] returns [True] when a connection opens and
    [SELECT 1] runs on it, and only then; it returns [False] when the
    connection or the statement raises a database error; it raises nothing
    as long as the database raises database errors only. *)
Theorem test_connection_never_raises (db : DB) :
  let select_one := text "SELECT 1" in
  (∀ tx rows,
     connect db = Ok tt → execute (begin db) select_one = Ok (tx, rows) →
     test_connection db = (rollback tx, Ok true))
  ∧ (∀ e,
       connect db = Raise e → exn_class_of e = SQLAlchemyError →
       test_connection db = (db, Ok false))
  ∧ (∀ e,
       connect db = Ok tt → execute (begin db) select_one = Raise e →
       exn_class_of e = SQLAlchemyError →
       test_connection db = (rollback (begin db), Ok false))
  ∧ ((test_connection db).2 = Ok true →
     connect db = Ok tt ∧ is_ok (execute (begin db) select_one) = true)
  ∧ (database_errors_only (connect db) = true →
     database_errors_only (execute (begin db) select_one) = true →
     is_ok (test_connection db).2 = true).
Proof.
  intros select_one.
  unfold test_connection. rewrite with_connect_execute. fold select_one.
  unfold database_errors_only, try_except, is_sqlalchemy_error.
  split; [|split; [|split; [|split]]].
  - by intros tx rows -> ->.
  - intros e -> He. simpl. by rewrite He, bool_decide_eq_true_2.
  - intros e -> -> He. simpl. by rewrite He, bool_decide_eq_true_2.
  - destruct (connect db) as [[]|e]; simpl.
    + destruct (execute (begin db) select_one) as [[tx rows]|e]; [done|].
      simpl. by destruct (bool_decide _).
    + by destruct (bool_decide _).
  - destruct (connect db) as [[]|e]; simpl.
    + destruct (execute (begin db) select_one) as [[tx rows]|e]; [done|].
      simpl. by intros _ ->.
    + by intros ->.
Qed.

End ApplierFacts.

(** On the small database the statements executed are appended to the log
    and nothing else changes; the state the transaction began from is
    kept. *)
Lemma toy_execute_each (tx tx' : ToyDB.txn) (statements : list string)
    (r : res unit) :
  execute_each tx statements = (tx', r) →
  ToyDB.began tx' = ToyDB.began tx
  ∧ (r = Ok tt →
     ToyDB.executed (ToyDB.reached tx')
     = ToyDB.executed (ToyDB.reached tx) ++ statements
     ∧ ToyDB.ledger (ToyDB.reached tx') = ToyDB.ledger (ToyDB.reached tx)
     ∧ ToyDB.has_table (ToyDB.reached tx')
       = ToyDB.has_table (ToyDB.reached tx)
     ∧ ToyDB.up (ToyDB.reached tx') = ToyDB.up (ToyDB.reached tx)).
Proof.
  revert tx.
  induction statements as [|sql rest IH]; intros tx; simpl.
  - intros [= <- <-]. by rewrite app_nil_r.
  - unfold ToyDB.toy_execute_in. simpl.
    destruct (Py.startswith sql "FAIL"); [by intros [= <- <-]|].
    intros Hrest. apply IH in Hrest as [Hbegan Hrest]. simpl in *.
    split; [done|]. intros Hok.
    destruct (Hrest Hok) as (-> & -> & -> & ->). simpl.
    by rewrite <- app_assoc.
Qed.

(** The small database undoes every statement of a transaction that is
    rolled back. *)
Lemma toy_undoes_every_statement : undoes_every_statement (DB := ToyDB.t).
Proof.
  split; [done|].
  intros tx tx' stmt rows. simpl. unfold ToyDB.toy_execute_in.
  destruct (ToyDB.toy_execute (ToyDB.reached tx) stmt) as [[db' rows']|e];
    [|done].
  by intros [= <- _].
Qed.

(** C2: [apply_migration] runs one transaction made of the statements of
    the file (split on [;], blank statements and comment lines discarded) in
    file order, then the ledger row with the file name and the current time,
    then the commit; on the small database that logs what it executes, a
    successful run appends exactly those statements to the log and exactly
    that row to the ledger. *)
Theorem apply_migration_runs_statements :
  (∀ (DB : Type) (H : Database DB) (db : DB) (migration : PendingMigration.t)
     (now : timestamp),
     apply_migration db migration now
     = match transaction db migration now with
       | (_, Ok db') => (db', Ok tt)
       | (tx, Raise e) => (rollback tx, Raise (surfaced migration e))
       end)
  ∧ (∀ (db : ToyDB.t) (migration : PendingMigration.t) (now : timestamp),
       match apply_migration db migration now with
       | (db', Ok _) =>
           ToyDB.executed db'
           = ToyDB.executed db
               ++ statements_of (PendingMigration.sql_content migration)
           ∧ ToyDB.ledger db'
             = ToyDB.ledger db
                 ++ [LedgerRow.Build (Z.of_nat (length (ToyDB.ledger db)) + 1)
                       (PendingMigration.filename migration) now]
       | (db', Raise _) => db' = db
       end).
Proof.
  split; [intros; apply apply_migration_transaction|].
  intros db migration now.
  rewrite apply_migration_transaction.
  destruct (transaction db migration now) as [tx [db'|e]] eqn:Hrun.
  - revert Hrun. unfold transaction, run_transaction.
    destruct (execute_each (begin db) _) as [tx1 [[]|e]] eqn:Heach; [|done].
    apply toy_execute_each in Heach as [_ Heach].
    destruct (Heach eq_refl) as (He & Hl & Ht & Hu). clear Heach.
    simpl. unfold ToyDB.toy_execute_in, ToyDB.toy_execute.
    destruct (ToyDB.has_table (ToyDB.reached tx1)); [|done]. simpl.
    case_bool_decide; [done|]. simpl.
    intros [= <- <-]. simpl. by rewrite He, Hl.
  - by apply (run_transaction_rollback _ _ _ _ _ _ toy_undoes_every_statement)
      in Hrun.
Qed.



Lemma ensure_migrations_table_fallback_witness :
  _ensure_migrations_table (CreateOnce.Build (ToyDB.Build true false [] []))
  = (CreateOnce.Build ToyDB.empty, Ok tt)
  ∧ _ensure_migrations_table (CreateOnce.Build ToyDB.empty)
    = (CreateOnce.Build ToyDB.empty, Ok tt)
  ∧ _ensure_migrations_table ToyDB.down
    = (ToyDB.down,
       Raise (Exn RuntimeError
                "Failed to create or access migrations table: connection refused")).
Proof.
  split; [|split].
  - destruct (ensure_migrations_table_fallback (H := CreateOnce.database)
                (CreateOnce.Build (ToyDB.Build true false [] [])))
      as (Hcreated & _).
    exact (Hcreated (CreateOnce.Build ToyDB.empty) eq_refl).
  - destruct (ensure_migrations_table_fallback (H := CreateOnce.database)
                (CreateOnce.Build ToyDB.empty)) as (_ & Hfallback & _).
    destruct (Hfallback (ToyDB.db_error "table synq_migrations already exists")
                eq_refl eq_refl) as (Hread & _).
    exact (Hread (ToyDB.Transaction ToyDB.empty ToyDB.empty) [] eq_refl eq_refl).
  - destruct (ensure_migrations_table_fallback (H := ToyDB.toy_database)
                ToyDB.down) as (_ & Hfallback & _).
    destruct (Hfallback (ToyDB.db_error "connection refused")
                eq_refl eq_refl) as (_ & Hrefused & _).
    exact (Hrefused (ToyDB.db_error "connection refused") eq_refl eq_refl).
Defined.

Lemma test_connection_never_raises_witness :
  test_connection ToyDB.empty = (ToyDB.empty, Ok true)
  ∧ test_connection ToyDB.down = (ToyDB.down, Ok false).
Proof.
  split.
  - destruct (test_connection_never_raises (H := ToyDB.toy_database)
                ToyDB.empty) as (Htrue & _).
    exact (Htrue (ToyDB.Transaction ToyDB.empty
                    (ToyDB.Build true true ["SELECT 1"] [])) []
             eq_refl eq_refl).
  - destruct (test_connection_never_raises (H := ToyDB.toy_database)
                ToyDB.down) as (_ & Hfalse & _).
    exact (Hfalse (ToyDB.db_error "connection refused") eq_refl eq_refl).
Defined.

(** ** The SQL generator *)

Section GeneratorFacts.

Variable str_operation : MigrationOperation.t → string.
Variable str_operation_type : OperationType → string.
Variable create_table_ddl : option definition → res string.

Let emitted := emitted str_operation str_operation_type create_table_ddl.

Lemma append_operation_emitted (sql_statements : list string)
    (operation : MigrationOperation.t) :
  append_operation str_operation str_operation_type create_table_ddl
    sql_statements operation
  = Ok (sql_statements ++ emitted operation).
Proof.
  unfold append_operation, emitted, Described.emitted, try_except, warning.
  rewrite res_bind_eq.
  destruct (_operation_to_sql _ _ operation) as [sql|e]; simpl; [|done].
  destruct (Py.is_empty sql); simpl; [|done].
  by rewrite app_nil_r.
Qed.

Lemma for_operations_emitted (operations : list MigrationOperation.t)
    (sql_statements : list string) :
  for_operations str_operation str_operation_type create_table_ddl
    operations sql_statements
  = Ok (sql_statements ++ concat (map emitted operations)).
Proof.
  revert sql_statements.
  induction operations as [|operation rest IH]; intros acc; simpl.
  - by rewrite app_nil_r.
  - rewrite res_bind_eq, append_operation_emitted, IH.
    by rewrite <- app_assoc.
Qed.

End GeneratorFacts.

(** C3, where a text of the operation holds a line break: the block written
    for an altered column whose old type is on two lines is no comment
    block, its fifth line is the second line of the type; applied, the
    script drops the table. The text of an error is copied in the same way:
    the second line of the error of the compiler is a line of the script. *)
Theorem generate_sql_comment_spills :
  let script :=
    Py.join (String "010" "")
      ["-- operation on users";
       "-- ALTER COLUMN users.email";
       "-- Note: Column alteration may require database-specific syntax";
       "-- Old: email TEXT";
       "DROP TABLE users; NULL";
       "-- New: email VARCHAR(100) NULL";
       ""] in
  generate_sql Sample.str_operation Sample.str_operation_type
    Sample.create_table_ddl [Sample.alter_two_lines]
  = Ok script
  ∧ apply_migration ToyDB.empty
      (PendingMigration.Build "0002_alter_email.sql" script) 9
    = (ToyDB.Build true true ["DROP TABLE users"; "NULL"]
         [LedgerRow.Build 1 "0002_alter_email.sql" 9], Ok tt)
  ∧ generate_sql Sample.str_operation Sample.str_operation_type
      Sample.two_line_error [Sample.create_users]
    = Ok (Py.join (String "010" "")
            ["-- WARNING: Could not generate SQL for operation on users: cannot compile the table";
             "DROP TABLE users;";
             ""]).
Proof. by vm_compute. Qed.

(** ** The migration store *)

Section StoreFacts.

Variable migrations_path : string.

Lemma load_migration_stored (dir : directory) (fname : string) :
  load_migration migrations_path dir fname
  = Ok (stored migrations_path dir fname).
Proof.
  unfold load_migration, stored, parse_name, try_except, int_or_raise,
    read_file.
  destruct (Py.split1 "_" (stem fname)) as [|part0 [|part1 [|? ?]]]; try done.
  rewrite res_bind_eq.
  destruct (Py.int part0) as [n|]; simpl; [|done].
  destruct (dir !! fname) as [[content|[]]|]; done.
Qed.

Lemma load_all_stored (dir : directory) (paths : list string)
    (migration_files : list MigrationFile.t) :
  load_all migrations_path dir paths migration_files
  = Ok (migration_files ++ omap (stored migrations_path dir) paths).
Proof.
  revert migration_files.
  induction paths as [|fname rest IH]; intros acc; simpl.
  - by rewrite app_nil_r.
  - rewrite res_bind_eq, load_migration_stored.
    destruct (stored migrations_path dir fname) as [m|]; rewrite IH; [|done].
    by rewrite <- app_assoc.
Qed.

Lemma get_all_migrations_stored (dir : directory) :
  get_all_migrations migrations_path dir
  = Ok (omap (stored migrations_path dir)
          (merge_sort String.le (glob_sql dir))).
Proof. unfold get_all_migrations. by rewrite load_all_stored. Qed.

Lemma stored_inv (dir : directory) (fname : string) (m : MigrationFile.t) :
  stored migrations_path dir fname = Some m →
  ∃ n name content,
    parse_name fname = Some (n, name)
    ∧ dir !! fname = Some (Text content)
    ∧ m = MigrationFile.Build n name fname
            (path_of migrations_path fname) (Py.universal_newlines content).
Proof.
  unfold stored.
  destruct (parse_name fname) as [[n name]|]; [|done]. simpl.
  destruct (dir !! fname) as [[content|]|]; try done.
  intros [= <-]. by exists n, name, content.
Qed.

Lemma elem_of_glob_sql (dir : directory) (fname : string) :
  fname ∈ glob_sql dir
  ↔ Py.endswith fname ".sql" = true ∧ is_Some (dir !! fname).
Proof.
  unfold glob_sql. rewrite list_elem_of_filter, list_elem_of_fmap.
  split.
  - intros [? ([f x] & -> & Hin%elem_of_map_to_list)]. eauto.
  - intros [? [x Hx]]. split; [done|].
    exists (fname, x). split; [done|]. by apply elem_of_map_to_list.
Qed.

(** Keeping the elements on which [f] is defined keeps a list sorted. *)
Lemma StronglySorted_omap {A B} (R : relation A) (R' : relation B)
    (f : A → option B) (l : list A) :
  (∀ x y b b', x ∈ l → y ∈ l → R x y → f x = Some b → f y = Some b' →
               R' b b') →
  StronglySorted R l → StronglySorted R' (omap f l).
Proof.
  intros Hmono Hsorted. induction Hsorted as [|x l Hl IH Hx]; [constructor|].
  simpl. specialize (IH (λ a b c d Ha Hb, Hmono a b c d
                           (list_elem_of_further _ _ _ Ha)
                           (list_elem_of_further _ _ _ Hb))).
  destruct (f x) as [b|] eqn:Efx; [|done].
  constructor; [done|].
  apply Forall_forall. intros b' (y & Hy & Efy)%list_elem_of_omap.
  rewrite Forall_forall in Hx.
  eapply (Hmono x y); eauto using list_elem_of_here, list_elem_of_further.
Qed.

Lemma artifact_order (dir : directory) (f g : string)
    (m m' : MigrationFile.t) :
  artifact_name f = true → artifact_name g = true → String.le f g →
  stored migrations_path dir f = Some m →
  stored migrations_path dir g = Some m' →
  MigrationFile.number m ≤ MigrationFile.number m'.
Proof.
  intros (nf & bf & rf & -> & Hlf & Hdf & Hpf)%parse_name_artifact
         (ng & bg & rg & -> & Hlg & Hdg & Hpg)%parse_name_artifact
         Hle
         (? & ? & ? & Hpf' & _ & ->)%stored_inv
         (? & ? & ? & Hpg' & _ & ->)%stored_inv.
  rewrite Hpf in Hpf'. rewrite Hpg in Hpg'.
  injection Hpf' as <- <-. injection Hpg' as <- <-. simpl.
  apply (digits_leb nf ng rf rg); [congruence|done..|].
  unfold String.le in Hle. by apply Is_true_true.
Qed.

(** C5, with the order the code has: [get_all_migrations] raises nothing
    and returns the [*.sql] files of the store that parse as
    [<number>_<name>] and can be read, in ascending order of file name; a
    name that does not parse is left out; when every [*.sql] name of the
    store has the four-digit form of a migration artifact, the numbers are
    ascending too. *)
Theorem get_all_migrations_ordered (dir : directory) :
  ∃ migration_files,
    get_all_migrations migrations_path dir = Ok migration_files
    ∧ (∀ m, m ∈ migration_files
            ↔ ∃ fname, Py.endswith fname ".sql" = true
                       ∧ stored migrations_path dir fname = Some m)
    ∧ StronglySorted String.le (MigrationFile.filename <$> migration_files)
    ∧ (∀ fname, parse_name fname = None →
                fname ∉ MigrationFile.filename <$> migration_files)
    ∧ (forallb artifact_name (glob_sql dir) = true →
       StronglySorted Z.le (MigrationFile.number <$> migration_files)).
Proof.
  eexists. split; [apply get_all_migrations_stored|].
  set (paths := merge_sort String.le (glob_sql dir)).
  assert (∀ fname, fname ∈ paths ↔ fname ∈ glob_sql dir) as Hpaths.
  { intros fname. unfold paths. by rewrite merge_sort_Permutation. }
  assert (StronglySorted String.le paths) as Hsorted
    by apply (StronglySorted_merge_sort _).
  repeat split.
  - intros (fname & Hin & Hst)%list_elem_of_omap.
    apply Hpaths, elem_of_glob_sql in Hin as [Hsql _]. eauto.
  - intros (fname & Hsql & Hst). apply list_elem_of_omap.
    exists fname. split; [|done].
    apply Hpaths, elem_of_glob_sql. split; [done|].
    apply stored_inv in Hst as (? & ? & ? & _ & -> & _). eauto.
  - apply (StronglySorted_fmap _
             (λ m m', String.le (MigrationFile.filename m)
                        (MigrationFile.filename m'))); [done|].
    apply (StronglySorted_omap String.le); [|done].
    intros f g m m' _ _ Hle (? & ? & ? & _ & _ & ->)%stored_inv
      (? & ? & ? & _ & _ & ->)%stored_inv. done.
  - intros fname Hnone (m & -> & (f & _ & Hst)%list_elem_of_omap)%list_elem_of_fmap.
    apply stored_inv in Hst as (? & ? & ? & Hparse & _ & ->). simpl in Hnone.
    congruence.
  - intros Hall.
    apply (StronglySorted_fmap _
             (λ m m', MigrationFile.number m ≤ MigrationFile.number m'));
      [done|].
    apply (StronglySorted_omap String.le); [|done].
    rewrite forallb_forall in Hall.
    intros f g m m' Hf Hg Hle Hsf Hsg.
    apply (artifact_order dir f g); try done;
      apply Hall, list_elem_of_In, Hpaths; done.
Qed.

(** A name in one piece is the one part of its path. *)
Lemma path_parts_plain (filename : string) :
  Py.has_char "/" filename = false →
  (2 ≤ String.length filename)%nat →
  Py.path_parts filename = [filename].
Proof.
  intros Hslash Hlen. unfold Py.path_parts.
  rewrite split_no_separator by done.
  rewrite filter_cons, decide_True; [done|].
  split; intros ->; simpl in Hlen; lia.
Qed.

(** A file name in one piece, without a null character and within the
    length of a name, is opened for writing. *)
Lemma open_for_writing_plain (dir : directory) (filename : string) :
  Py.has_char "000" filename = false →
  Py.has_char "/" filename = false →
  (2 ≤ String.length filename)%nat →
  (Py.utf8_length filename ≤ 255)%nat →
  open_for_writing migrations_path dir filename = Ok tt.
Proof.
  intros Hnull Hslash Hlen Hbytes. unfold open_for_writing.
  rewrite Hnull, path_parts_plain by done.
  unfold name_max.
  by destruct (Nat.ltb_spec 255 (Py.utf8_length filename)); [lia|].
Qed.

Lemma save_migration_written (dir : directory) (n : Z)
    (name sql_content : string) :
  (Py.digits n ≤ Py.int_max_str_digits)%nat →
  open_for_writing migrations_path dir (migration_filename n name) = Ok tt →
  save_migration migrations_path dir n name sql_content
  = (<[migration_filename n name := Text sql_content]> dir,
     Ok (path_of migrations_path (migration_filename n name))).
Proof.
  intros Hdigits Hopen. unfold save_migration.
  destruct (Nat.ltb_spec Py.int_max_str_digits (Py.digits n)); [lia|].
  by rewrite Hopen.
Qed.

Lemma select_pending_filter (applied : list string)
    (all_migrations : list MigrationFile.t)
    (pending : list PendingMigration.t) :
  select_pending (list_to_set applied) all_migrations pending
  = pending
    ++ (to_pending <$>
          filter (λ m, MigrationFile.filename m ∉ applied) all_migrations).
Proof.
  revert pending.
  induction all_migrations as [|m rest IH]; intros acc; simpl.
  - by rewrite app_nil_r.
  - rewrite filter_cons.
    destruct (decide (MigrationFile.filename m ∉ applied)) as [Hout|Hin].
    + rewrite bool_decide_eq_true_2 by (by rewrite elem_of_list_to_set).
      rewrite IH. simpl. by rewrite <- app_assoc.
    + rewrite bool_decide_eq_false_2 by (by rewrite elem_of_list_to_set).
      apply IH.
Qed.

Lemma create_migration_name_slug_chars (description : string) :
  Py.all_chars slug_char (create_migration_name description) = true
  ∧ Py.is_empty (create_migration_name description) = false.
Proof.
  unfold create_migration_name.
  set (name := Py.strip_chars "_" _).
  assert (Py.all_chars slug_char name = true) as Hname.
  { apply all_chars_strip_by, all_chars_squeeze_underscores,
      all_chars_map_chars.
    intros c. by destruct (slug_char c) eqn:E. }
  set (cut := if (50 <? String.length name)%nat then _ else name).
  assert (Py.all_chars slug_char cut = true) as Hcut.
  { unfold cut. destruct (50 <? String.length name)%nat; [|done].
    by apply all_chars_rstrip_by, all_chars_slice_to. }
  by destruct cut.
Qed.

(** The name before the placeholder is put in. *)
Lemma trimmed_name (description : string) :
  Py.strip_chars "_"
    (squeeze_underscores (replace_unsafe (Py.strip (Py.lower description))))
  = Py.strip_chars "_" (collapse_runs alnum_char (Py.lower description)).
Proof.
  rewrite squeeze_replace_collapse. unfold Py.strip_chars, Py.strip.
  apply strip_collapse_strip.
  - apply isspace_not_alnum.
  - done.
  - apply alnum_not_underscore.
Qed.

(** C6, with the underscores counted in the runs: [create_migration_name]
    returns the description lower-cased, every run of underscores and of
    other characters outside [[a-z0-9]] collapsed to one underscore, the
    underscores at both ends trimmed, cut to 50 characters with the
    underscores the cut leaves at the end trimmed, and ["migration"] when
    nothing is left; it is at most 50 characters long, and
    ["Add Email Column!!"] gives [add_email_column]. *)
Theorem create_migration_name_slug (description : string) :
  create_migration_name description = slug description
  ∧ (String.length (create_migration_name description) ≤ 50)%nat
  ∧ create_migration_name "Add Email Column!!" = "add_email_column".
Proof.
  assert (create_migration_name description = slug description) as Heq.
  { unfold create_migration_name, slug, or_placeholder.
    rewrite trimmed_name.
    set (name := Py.strip_chars "_" _).
    destruct (50 <? String.length name)%nat eqn:Elen; [done|].
    apply Nat.ltb_ge in Elen.
    rewrite slice_to_all by done.
    unfold Py.rstrip_chars, name, Py.strip_chars, Py.strip_by.
    by rewrite rstrip_by_idemp. }
  split; [done|]. split; [|done].
  rewrite Heq. unfold slug, or_placeholder.
  set (cut := Py.rstrip_chars "_" _).
  assert (String.length cut ≤ 50)%nat.
  { unfold cut, Py.rstrip_chars.
    etrans; [apply rstrip_by_length|apply slice_to_length]. }
  destruct cut; simpl in *; lia.
Qed.

Lemma format_04d_four_digits (n : Z) :
  0 ≤ n ≤ 9999 → four_digits (Py.format_04d n) = true.
Proof.
  intros Hn.
  assert (forallb (λ k, four_digits (Py.format_04d (Z.of_nat k)))
            (seq 0 (Z.to_nat 10000)) = true) as Hall
    by (vm_compute; reflexivity).
  rewrite forallb_forall in Hall.
  rewrite <- (Z2Nat.id n) by lia.
  apply Hall, in_seq. lia.
Qed.

Lemma slug_then_sql_append (name : string) :
  Py.all_chars slug_char name = true → Py.is_empty name = false →
  slug_then_sql (name +:+ ".sql") = true.
Proof.
  induction name as [|c name IH]; [done|].
  intros [Hc Hname]%andb_true_iff _.
  change (slug_char c
          && (String.eqb (name +:+ ".sql") ".sql"
              || slug_then_sql (name +:+ ".sql")) = true).
  rewrite Hc. destruct name as [|c' name']; [done|].
  rewrite IH by done. by rewrite orb_true_r.
Qed.

Lemma artifact_name_intro (number name : string) :
  four_digits number = true →
  Py.all_chars slug_char name = true → Py.is_empty name = false →
  artifact_name (number +:+ "_" +:+ name +:+ ".sql") = true.
Proof.
  intros Hnumber Hname Hne.
  destruct number as [|d1 [|d2 [|d3 [|d4 [|? ?]]]]]; try done.
  change (Py.isdigit d1 && Py.isdigit d2 && Py.isdigit d3 && Py.isdigit d4
          && Py.is_underscore "_" && slug_then_sql (name +:+ ".sql") = true).
  simpl in Hnumber. rewrite Hnumber. simpl.
  by apply slug_then_sql_append.
Qed.

Lemma create_migration_name_length (description : string) :
  (String.length (create_migration_name description) ≤ 50)%nat.
Proof.
  unfold create_migration_name.
  set (name := Py.strip_chars "_" _).
  destruct (50 <? String.length name)%nat eqn:Elen.
  - set (cut := Py.rstrip_chars "_" _).
    assert (String.length cut ≤ 50)%nat.
    { unfold cut, Py.rstrip_chars.
      etrans; [apply rstrip_by_length|apply slice_to_length]. }
    destruct cut; simpl in *; lia.
  - apply Nat.ltb_ge in Elen. destruct name; simpl in *; lia.
Qed.

(** A number from 0 to 9999 is written with four digits. *)
Lemma format_04d_plain (n : Z) :
  0 ≤ n ≤ 9999 →
  (Py.digits n ≤ 4)%nat
  ∧ Py.has_char "000" (Py.format_04d n) = false
  ∧ Py.has_char "/" (Py.format_04d n) = false
  ∧ String.length (Py.format_04d n) = 4%nat
  ∧ Py.utf8_length (Py.format_04d n) = 4%nat.
Proof.
  intros Hn.
  assert (forallb
            (λ k, let number := Py.format_04d (Z.of_nat k) in
                  (Py.digits (Z.of_nat k) <=? 4)%nat
                  && negb (Py.has_char "000" number)
                  && negb (Py.has_char "/" number)
                  && (String.length number =? 4)%nat
                  && (Py.utf8_length number =? 4)%nat)
            (seq 0 (Z.to_nat 10000)) = true) as Hall
    by (vm_compute; reflexivity).
  rewrite forallb_forall in Hall.
  specialize (Hall (Z.to_nat n)). rewrite Z2Nat.id in Hall by lia.
  cbv zeta in Hall.
  apply andb_true_iff in Hall as [Hall Hbytes]; [|apply in_seq; lia].
  apply andb_true_iff in Hall as [Hall Hlen].
  apply andb_true_iff in Hall as [Hall Hslash].
  apply andb_true_iff in Hall as [Hdigits Hnull].
  apply Nat.leb_le in Hdigits. apply Nat.eqb_eq in Hlen, Hbytes.
  apply negb_true_iff in Hnull, Hslash. done.
Qed.

Lemma slug_char_ascii (c : ascii) :
  slug_char c = true → (N_of_ascii c <? 128)%N = true.
Proof. by destruct c as [[] [] [] [] [] [] [] []]. Qed.

Lemma utf8_length_slug (name : string) :
  Py.all_chars slug_char name = true →
  Py.utf8_length name = String.length name.
Proof.
  induction name as [|c name IH]; [done|].
  simpl. intros [Hc%slug_char_ascii Hname]%andb_true_iff.
  by rewrite Hc, IH.
Qed.

(** The file of a migration numbered from 0 to 9999 and named by
    [create_migration_name] is written. *)
Lemma save_migration_slug (dir : directory) (n : Z)
    (description sql_content : string) :
  0 ≤ n ≤ 9999 →
  let filename := migration_filename n (create_migration_name description) in
  save_migration migrations_path dir n (create_migration_name description)
    sql_content
  = (<[filename := Text sql_content]> dir,
     Ok (path_of migrations_path filename)).
Proof.
  intros Hn filename.
  destruct (create_migration_name_slug_chars description) as [Hchars _].
  pose proof (create_migration_name_length description) as Hshort.
  destruct (format_04d_plain n Hn) as (Hdigits & Hnull & Hslash & Hlen & Hbytes).
  apply save_migration_written; [unfold Py.int_max_str_digits; lia|].
  apply open_for_writing_plain; unfold migration_filename.
  - rewrite !has_char_append, Hnull.
    by rewrite (has_char_all_chars _ slug_char _ Hchars).
  - rewrite !has_char_append, Hslash.
    by rewrite (has_char_all_chars _ slug_char _ Hchars).
  - rewrite !length_append. simpl. lia.
  - rewrite !utf8_length_append, Hbytes, (utf8_length_slug _ Hchars).
    simpl. lia.
Qed.

(** C7, with the number bounded: for a migration number from 1 to 9999 and
    a name made by [create_migration_name], [save_migration] stores the SQL
    under a name that matches [\d{4}_[a-z0-9_]+\.sql] and returns its path. *)
Theorem save_migration_artifact_name (dir : directory) (n : Z)
    (description sql_content : string) :
  1 ≤ n ≤ 9999 →
  let name := create_migration_name description in
  let filename := migration_filename n name in
  artifact_name filename = true
  ∧ (save_migration migrations_path dir n name sql_content).1 !! filename
    = Some (Text sql_content)
  ∧ (save_migration migrations_path dir n name sql_content).2
    = Ok (path_of migrations_path filename).
Proof.
  intros Hn name filename.
  destruct (create_migration_name_slug_chars description) as [Hchars Hne].
  pose proof (save_migration_slug dir n description sql_content) as Hsave.
  cbv zeta in Hsave. fold name filename in Hsave.
  rewrite Hsave by lia.
  split; [|split].
  - apply artifact_name_intro; [apply format_04d_four_digits; lia|done..].
  - apply lookup_insert_eq.
  - done.
Qed.

(** C4: [get_pending_migrations] returns, in the order of
    [get_all_migrations], exactly the stored migrations whose file name is
    not in the applied list; with [0001_init.sql] and [0002_add_email.sql]
    stored and [0001_init.sql] applied it returns [0002_add_email.sql]
    alone. *)
Theorem get_pending_migrations_unapplied (dir : directory)
    (applied : list string) :
  (∃ all_migrations,
     get_all_migrations migrations_path dir = Ok all_migrations
     ∧ get_pending_migrations migrations_path dir (Ok applied)
       = Ok (to_pending <$>
               filter (λ m, MigrationFile.filename m ∉ applied)
                 all_migrations))
  ∧ get_pending_migrations migrations_path scenario_store
      (Ok ["0001_init.sql"])
    = Ok [PendingMigration.Build "0002_add_email.sql"
            "ALTER TABLE users ADD COLUMN email VARCHAR(100);"].
Proof.
  split.
  - eexists. split; [apply get_all_migrations_stored|].
    unfold get_pending_migrations.
    rewrite get_all_migrations_stored, !res_bind_eq.
    by rewrite select_pending_filter.
  - vm_compute. reflexivity.
Qed.

End StoreFacts.

Lemma save_migration_artifact_name_witness :
  1 ≤ 2 ≤ 9999
  ∧ artifact_name "0002_add_email_column.sql" = true
  ∧ (save_migration "migrations" ∅ 2
       (create_migration_name "Add Email Column!!") "SELECT 1;").1
      !! "0002_add_email_column.sql"
    = Some (Text "SELECT 1;").
Proof.
  split; [lia|].
  pose proof (save_migration_artifact_name "migrations" ∅ 2
                "Add Email Column!!" "SELECT 1;" ltac:(lia)) as (Hm & Hl & _).
  split; [exact Hm | exact Hl].
Defined.

(** The 10000th migration is stored under a five-digit number, which
    [\d{4}_[a-z0-9_]+\.sql] does not match. *)
Lemma save_migration_five_digits :
  1 ≤ 10000
  ∧ migration_filename 10000 (create_migration_name "Add Email Column!!")
    = "10000_add_email_column.sql"
  ∧ artifact_name "10000_add_email_column.sql" = false
  ∧ (save_migration "migrations" ∅ 10000
       (create_migration_name "Add Email Column!!") "SELECT 1;").1
      !! "10000_add_email_column.sql"
    = Some (Text "SELECT 1;").
Proof. split; [lia|]. by vm_compute. Qed.

(** Underscores of the description are squeezed too: two of them in a row
    give one, where the wording keeps both. *)
Lemma create_migration_name_squeezes :
  create_migration_name "a__b" = "a_b"
  ∧ slug_as_worded "a__b" = "a__b"
  ∧ create_migration_name "a__b" ≠ slug_as_worded "a__b".
Proof. by vm_compute. Qed.

Lemma get_all_migrations_ordered_witness :
  forallb artifact_name (glob_sql scenario_store) = true
  ∧ ∃ migration_files,
      get_all_migrations "migrations" scenario_store = Ok migration_files
      ∧ StronglySorted Z.le (MigrationFile.number <$> migration_files).
Proof.
  split; [by vm_compute|].
  destruct (get_all_migrations_ordered "migrations" scenario_store)
    as (migration_files & Hall & _ & _ & _ & Hnumbers).
  exists migration_files. split; [exact Hall|].
  apply Hnumbers. by vm_compute.
Defined.

(** With the migrations 9999 and 10000 in the store, the 10000th comes
    first: the order is the order of the names, not of the numbers. *)
Lemma get_all_migrations_by_name :
  get_all_migrations "migrations" late_store
  = Ok [MigrationFile.Build 10000 "drop_email" "10000_drop_email.sql"
          "migrations/10000_drop_email.sql" "SELECT 2;";
        MigrationFile.Build 9999 "add_email" "9999_add_email.sql"
          "migrations/9999_add_email.sql" "SELECT 1;"]
  ∧ ¬ StronglySorted Z.le [10000; 9999].
Proof.
  split; [by vm_compute|].
  intros [_ Hle%Forall_inv]%StronglySorted_inv. lia.
Qed.

(** C9, at a comment line that holds a semicolon: the migration is made of
    one comment line, and [apply_migration] executes the end of that line
    as a statement; the text is cut at every semicolon before the comment
    lines are looked for. *)
Theorem apply_migration_comment_with_semicolon :
  only_comments_as_worded
    (PendingMigration.sql_content ToyDB.semicolon_comment_migration) = true
  ∧ apply_migration ToyDB.empty ToyDB.semicolon_comment_migration 7
    = (ToyDB.Build true true ["DROP TABLE roles"]
         [LedgerRow.Build 1 "0004_notes.sql" 7], Ok tt).
Proof. by vm_compute. Qed.

(** * Further properties *)

Import Shape.

(** ** More on strings *)

Section MoreStringFacts.

Implicit Types (s t : string) (p : ascii → bool) (c : ascii).

Lemma endswith_refl s : Py.endswith s s = true.
Proof. destruct s; simpl; by rewrite ?Ascii.eqb_refl, ?String.eqb_refl. Qed.

Lemma endswith_append s t u :
  Py.endswith t u = true → Py.endswith (s +:+ t) u = true.
Proof.
  intros Ht. induction s as [|c s IH]; [done|].
  rewrite append_cons. cbn [Py.endswith]. by rewrite IH, orb_true_r.
Qed.

Lemma is_empty_append s t :
  Py.is_empty (s +:+ t) = Py.is_empty s && Py.is_empty t.
Proof. by destruct s. Qed.

Lemma join_app (sep : string) (xs ys : list string) :
  xs ≠ [] → ys ≠ [] →
  Py.join sep (xs ++ ys) = Py.join sep xs +:+ sep +:+ Py.join sep ys.
Proof.
  intros Hx Hy. induction xs as [|x xs IH]; [done|].
  destruct xs as [|x' xs].
  - destruct ys; [done|]. done.
  - change (x +:+ sep +:+ Py.join sep ((x' :: xs) ++ ys)
            = (x +:+ sep +:+ Py.join sep (x' :: xs)) +:+ sep +:+ Py.join sep ys).
    rewrite IH by done. by rewrite !append_assoc.
Qed.

Lemma plain_append s t : plain (s +:+ t) = plain s && plain t.
Proof.
  unfold plain. rewrite !has_char_append.
  by destruct (Py.has_char ";" s), (Py.has_char ";" t),
    (Py.has_char "010" s), (Py.has_char "010" t).
Qed.

Lemma split_append_separator (a : ascii) s t :
  Py.split a (s +:+ String a t) = Py.split a s ++ Py.split a t.
Proof.
  induction s as [|c s IH].
  - change ("" +:+ String a t) with (String a t).
    rewrite split_cons. by rewrite bool_decide_eq_true_2.
  - rewrite append_cons, !split_cons, IH.
    destruct (bool_decide (c = a)); [done|].
    pose proof (split_nonempty a s). by destruct (Py.split a s).
Qed.

(** The lines of lines joined. *)
Lemma split_join (a : ascii) (xs : list string) :
  xs ≠ [] →
  Py.split a (Py.join (String a "") xs) = concat (map (Py.split a) xs).
Proof.
  intros Hx. induction xs as [|x xs IH]; [done|].
  destruct xs as [|x' xs].
  - simpl. by rewrite app_nil_r.
  - change (Py.split a (x +:+ String a "" +:+ Py.join (String a "") (x' :: xs))
            = Py.split a x ++ concat (map (Py.split a) (x' :: xs))).
    change (String a "" +:+ ?u) with (String a u).
    by rewrite split_append_separator, IH.
Qed.

(** A comment line stays a comment line when stripped. *)
Lemma strip_dashes s :
  Py.startswith (Py.strip (String "-" (String "-" s))) "--" = true.
Proof.
  unfold Py.strip, Py.strip_by.
  change (Py.lstrip_by Py.isspace (String "-" (String "-" s)))
    with (String "-" (String "-" s)).
  rewrite !rstrip_by_cons.
  change (Py.isspace "-"%char) with false. rewrite !andb_false_r.
  unfold Py.startswith. simpl. by destruct (Py.rstrip_by Py.isspace s).
Qed.

Lemma only_comments_join (xs : list string) :
  Forall (λ x, forallb comment_or_blank_line (Py.split "010" x) = true) xs →
  only_comments (Py.join (String "010" "") xs) = true.
Proof.
  intros Hxs. unfold only_comments.
  destruct (decide (xs = [])) as [->|Hne]; [done|].
  rewrite split_join by done.
  apply forallb_forall. intros l (ls & Hls & Hl)%in_concat.
  apply in_map_iff in Hls as (x & <- & Hx%list_elem_of_In).
  rewrite Forall_forall in Hxs. specialize (Hxs x Hx).
  rewrite forallb_forall in Hxs. by apply Hxs.
Qed.

Lemma plain_comment_lines s :
  plain (String "-" (String "-" s)) = true →
  forallb comment_or_blank_line (Py.split "010" (String "-" (String "-" s)))
  = true.
Proof.
  unfold plain. intros [Hsemi%negb_true_iff Hnl%negb_true_iff]%andb_true_iff.
  rewrite split_no_separator by done. simpl. unfold comment_or_blank_line.
  by rewrite strip_dashes, Hsemi.
Qed.

End MoreStringFacts.

(** ** More on the generator *)

Section MoreGeneratorFacts.

Variable str_operation : MigrationOperation.t → string.
Variable str_operation_type : OperationType → string.
Variable create_table_ddl : option definition → res string.

Let emitted := emitted str_operation str_operation_type create_table_ddl.
Let generate_sql :=
  generate_sql str_operation str_operation_type create_table_ddl.

Lemma operation_sql_shape (operation : MigrationOperation.t) (sql : string) :
  _operation_to_sql str_operation_type create_table_ddl operation = Ok sql →
  Py.is_empty sql = false
  ∧ (Py.startswith sql "--" = true ∨ Py.endswith sql ";" = true).
Proof.
  unfold _operation_to_sql.
  destruct operation as [ty table obj old new]; simpl.
  destruct ty, new as [[t | c | i | f]|], old as [[t' | c' | i' | f']|];
    simpl; rewrite ?res_bind_eq; simpl;
    repeat match goal with
      | |- context [create_table_ddl ?d] => destruct (create_table_ddl d); simpl
      | |- context [truthy ?o] => destruct (truthy o); simpl
      | |- context [join_items _ (inr ?l)] => destruct l; simpl
      | |- context [if ?b then _ else _] => destruct b; simpl
      end;
    try done; intros [= <-];
    (split; [by rewrite ?is_empty_append, ?andb_false_r|]);
    try (by left); right; repeat (apply endswith_append); reflexivity.
Qed.

Lemma emitted_nonempty (operation : MigrationOperation.t) :
  emitted operation ≠ [].
Proof.
  unfold emitted, Described.emitted.
  destruct (_operation_to_sql _ _ operation) as [sql|e] eqn:E; [|done].
  apply operation_sql_shape in E as [-> _]. done.
Qed.

Lemma generate_sql_emitted (operations : list MigrationOperation.t) :
  generate_sql operations
  = Ok (Py.join (String "010" "") (concat (map emitted operations))).
Proof.
  destruct operations as [|operation rest]; [done|].
  unfold generate_sql, MigrationManager.generate_sql.
  by rewrite res_bind_eq, for_operations_emitted.
Qed.

(** The script of a list of operations around one of them. *)
Lemma generate_sql_around (before after : list MigrationOperation.t)
    (operation : MigrationOperation.t) :
  generate_sql (before ++ operation :: after)
  = Ok (Py.join (String "010" "")
          (concat (map emitted before) ++ emitted operation
             ++ concat (map emitted after))).
Proof. by rewrite generate_sql_emitted, map_app, concat_app. Qed.

(** X1: the SQL of an operation is never empty; it is a [--] comment or
    ends with a semicolon, and wherever the operation stands in the list,
    the script has it between a comment line that names the operation and a
    blank line, after the lines of the operations before it and before the
    lines of those after it. *)
Theorem operation_block_shape (before after : list MigrationOperation.t)
    (operation : MigrationOperation.t) (sql : string) :
  _operation_to_sql str_operation_type create_table_ddl operation = Ok sql →
  Py.is_empty sql = false
  ∧ (Py.startswith sql "--" = true ∨ Py.endswith sql ";" = true)
  ∧ generate_sql (before ++ operation :: after)
    = Ok (Py.join (String "010" "")
            (concat (map emitted before)
               ++ ["-- " +:+ str_operation operation; sql; ""]
               ++ concat (map emitted after))).
Proof.
  intros Hsql. destruct (operation_sql_shape operation sql Hsql) as [Hne Hshape].
  repeat split; [done..|].
  rewrite generate_sql_around. do 3 f_equal.
  unfold emitted, Described.emitted. by rewrite Hsql, Hne.
Qed.

(** X2: the script of two non-empty lists of operations put end to end is
    the script of the first, a newline, and the script of the second. *)
Theorem generate_sql_app (operations1 operations2 : list MigrationOperation.t) :
  operations1 ≠ [] → operations2 ≠ [] →
  ∃ script1 script2,
    generate_sql operations1 = Ok script1
    ∧ generate_sql operations2 = Ok script2
    ∧ generate_sql (operations1 ++ operations2)
      = Ok (script1 +:+ String "010" "" +:+ script2).
Proof.
  intros H1 H2. eexists _, _.
  split; [apply generate_sql_emitted|].
  split; [apply generate_sql_emitted|].
  rewrite generate_sql_emitted, map_app, concat_app.
  rewrite join_app; [done|..].
  - destruct operations1 as [|op rest]; [done|]. simpl.
    pose proof (emitted_nonempty op). by destruct (emitted op).
  - destruct operations2 as [|op rest]; [done|]. simpl.
    pose proof (emitted_nonempty op). by destruct (emitted op).
Qed.

Lemma emitted_head (operation : MigrationOperation.t) :
  ∃ comment rest,
    emitted operation = String "-" (String "-" comment) :: rest.
Proof.
  unfold emitted, Described.emitted.
  destruct (_operation_to_sql _ _ operation) as [sql|e] eqn:E.
  - apply operation_sql_shape in E as [-> _]. by eexists _, _.
  - by eexists _, _.
Qed.

(** X13: the script is empty exactly when there is no operation: the script
    of a list that is not empty starts with a [--] comment line. *)
Theorem generate_sql_empty_iff (operations : list MigrationOperation.t) :
  ∃ script,
    generate_sql operations = Ok script
    ∧ (Py.is_empty script = true ↔ operations = [])
    ∧ (operations ≠ [] → Py.startswith script "--" = true).
Proof.
  eexists. split; [apply generate_sql_emitted|].
  destruct operations as [|operation rest]; [done|].
  cbn [map concat].
  destruct (emitted_head operation) as (comment & block & ->).
  cbn [app].
  assert (∃ tail, Py.join (String "010" "")
                    (String "-" (String "-" comment)
                       :: block ++ concat (map emitted rest))
                  = String "-" (String "-" tail)) as [tail ->].
  { destruct (block ++ concat (map emitted rest)); by eexists. }
  split; [done|]. intros _. unfold Py.startswith. simpl. by destruct tail.
Qed.

(** The translation of an altered column that has both its definitions. *)
Lemma alter_column_sql (operation : MigrationOperation.t)
    (old_col new_col : ColumnDefinition.t) :
  MigrationOperation.operation_type operation = ALTER_COLUMN →
  MigrationOperation.old_definition operation = Some (ColumnDef old_col) →
  MigrationOperation.new_definition operation = Some (ColumnDef new_col) →
  _operation_to_sql str_operation_type create_table_ddl operation
  = Ok (column_change operation old_col new_col).
Proof.
  unfold _operation_to_sql. by intros -> -> ->.
Qed.

Lemma one_line_lines s : one_line s = true → Py.split "010" s = [s].
Proof. intros Hs%negb_true_iff. by apply split_no_separator. Qed.

Lemma one_line_append s t : one_line (s +:+ t) = one_line s && one_line t.
Proof.
  unfold one_line. rewrite has_char_append.
  by destruct (Py.has_char "010" s), (Py.has_char "010" t).
Qed.

(** A comment on one line, followed by a blank line, is a comment block. *)
Lemma comment_block_line (comment : string) :
  one_line comment = true →
  comment_block
    (Py.join (String "010" "") [String "-" (String "-" comment); ""])
  = true.
Proof.
  intros Hline. unfold comment_block.
  rewrite split_join by done. cbn [map concat].
  rewrite (one_line_lines (String "-" (String "-" comment))) by done.
  simpl. unfold Py.startswith. simpl. by destruct comment.
Qed.

Lemma comment_block_lines (comment comment' : string) :
  one_line comment = true → one_line comment' = true →
  comment_block
    (Py.join (String "010" "")
       [String "-" (String "-" comment); String "-" (String "-" comment'); ""])
  = true.
Proof.
  intros Hline Hline'. unfold comment_block.
  rewrite split_join by done. cbn [map concat].
  rewrite (one_line_lines (String "-" (String "-" comment))) by done.
  rewrite (one_line_lines (String "-" (String "-" comment'))) by done.
  simpl. unfold Py.startswith. simpl. by destruct comment, comment'.
Qed.

(** X16: an operation that is not expressed as SQL is written into the
    script as a fixed block, wherever it stands in the list: a failure of
    the translation as one warning line with the operation and the text of
    the error; a kind that is not recognised as the operation and one line
    with the kind; an altered column as the operation and the lines that
    give the table, the column, the note on the syntax, and the old and the
    new name, type and nullability. A missing definition fails with the
    text of the [AttributeError]. When the operation, the error and the kind
    are rendered on one line each, every line of the first two blocks is a
    comment or blank. *)
Theorem generate_sql_fallback_blocks (before after : list MigrationOperation.t)
    (operation : MigrationOperation.t) :
  let script_with (block : list string) : res string :=
    Ok (Py.join (String "010" "")
          (concat (map emitted before) ++ block
             ++ concat (map emitted after))) in
  let warned (e : exn) : list string :=
    ["-- WARNING: Could not generate SQL for " +:+ str_operation operation
       +:+ ": " +:+ exn_str e;
     ""] in
  let unsupported (member : string) : list string :=
    ["-- " +:+ str_operation operation;
     "-- Unsupported operation: " +:+ str_operation_type (OTHER member);
     ""] in
  (∀ e,
     _operation_to_sql str_operation_type create_table_ddl operation
     = Raise e →
     generate_sql (before ++ operation :: after) = script_with (warned e)
     ∧ (one_line (str_operation operation) = true →
        one_line (exn_str e) = true →
        comment_block (Py.join (String "010" "") (warned e)) = true))
  ∧ (∀ member,
       MigrationOperation.operation_type operation = OTHER member →
       generate_sql (before ++ operation :: after)
       = script_with (unsupported member)
       ∧ (one_line (str_operation operation) = true →
          one_line (str_operation_type (OTHER member)) = true →
          comment_block (Py.join (String "010" "") (unsupported member))
          = true))
  ∧ (∀ old_col new_col,
       MigrationOperation.operation_type operation = ALTER_COLUMN →
       MigrationOperation.old_definition operation
       = Some (ColumnDef old_col) →
       MigrationOperation.new_definition operation
       = Some (ColumnDef new_col) →
       generate_sql (before ++ operation :: after)
       = script_with
           ["-- " +:+ str_operation operation;
            column_change operation old_col new_col;
            ""])
  ∧ (MigrationOperation.new_definition operation = None →
     (MigrationOperation.operation_type operation = ADD_COLUMN →
      _operation_to_sql str_operation_type create_table_ddl operation
      = Raise (Exn AttributeError
                 "'NoneType' object has no attribute 'type'"))
     ∧ (MigrationOperation.operation_type operation = CREATE_INDEX →
        _operation_to_sql str_operation_type create_table_ddl operation
        = Raise (Exn AttributeError
                   "'NoneType' object has no attribute 'unique'"))
     ∧ (MigrationOperation.operation_type operation = ADD_FOREIGN_KEY →
        _operation_to_sql str_operation_type create_table_ddl operation
        = Raise (Exn AttributeError
                   "'NoneType' object has no attribute 'columns'")))
  ∧ (MigrationOperation.operation_type operation = ALTER_COLUMN →
     MigrationOperation.old_definition operation = None →
     _operation_to_sql str_operation_type create_table_ddl operation
     = Raise (Exn AttributeError "'NoneType' object has no attribute 'name'")).
Proof.
  intros script_with warned unsupported.
  unfold script_with. rewrite generate_sql_around.
  split; [|split; [|split; [|split]]].
  - intros e Hfail. split.
    + unfold emitted at 2, Described.emitted. by rewrite Hfail.
    + intros Hop He.
      apply (comment_block_line
               (" WARNING: Could not generate SQL for "
                  +:+ str_operation operation +:+ ": " +:+ exn_str e)).
      by rewrite !one_line_append, Hop, He.
  - intros member Hkind. split.
    + unfold emitted at 2, Described.emitted, _operation_to_sql.
      by rewrite Hkind.
    + intros Hop Hty.
      apply (comment_block_lines (" " +:+ str_operation operation)
               (" Unsupported operation: "
                  +:+ str_operation_type (OTHER member))).
      * by rewrite one_line_append, Hop.
      * by rewrite one_line_append, Hty.
  - intros old_col new_col Hkind Hold Hnew.
    unfold emitted at 2, Described.emitted.
    by rewrite (alter_column_sql _ _ _ Hkind Hold Hnew).
  - unfold _operation_to_sql. intros ->. by repeat split; intros ->.
  - unfold _operation_to_sql. by intros -> ->.
Qed.

(** The block of an altered column is made of comment lines. *)
Lemma plain_alter_block (operation : MigrationOperation.t) :
  plain_alter_column str_operation operation = true →
  Forall (λ x, forallb comment_or_blank_line (Py.split "010" x) = true)
    (emitted operation).
Proof.
  unfold plain_alter_column, emitted, Described.emitted, plain_column.
  destruct operation as [ty table obj old new]; simpl.
  destruct ty; try done.
  destruct old as [[| old_col | |]|]; try done.
  destruct new as [[| new_col | |]|]; try done.
  rewrite (alter_column_sql _ old_col new_col) by done.
  intros Hplain.
  apply andb_true_iff in Hplain as [Hplain [Hnn Hnt]%andb_true_iff].
  apply andb_true_iff in Hplain as [Hplain [Hon Hot]%andb_true_iff].
  apply andb_true_iff in Hplain as [[Hstr Htable]%andb_true_iff Hobj].
  assert (∀ b : bool, plain (if b then "NULL" else "NOT NULL") = true)
    as Hnull by (by intros []).
  unfold column_change.
  cbn [MigrationOperation.table_name MigrationOperation.object_name].
  set (op := MigrationOperation.Build ALTER_COLUMN table obj
               (Some (ColumnDef old_col)) (Some (ColumnDef new_col))) in *.
  assert (Py.is_empty (Py.join (String "010" "")
            ["-- ALTER COLUMN " +:+ table +:+ "." +:+ fmt obj;
             "-- Note: Column alteration may require database-specific syntax";
             "-- Old: " +:+ ColumnDefinition.name old_col +:+ " "
               +:+ ColumnDefinition.type old_col +:+ " "
               +:+ (if ColumnDefinition.nullable old_col
                    then "NULL" else "NOT NULL");
             "-- New: " +:+ ColumnDefinition.name new_col +:+ " "
               +:+ ColumnDefinition.type new_col +:+ " "
               +:+ (if ColumnDefinition.nullable new_col
                    then "NULL" else "NOT NULL")]) = false) as -> by done.
  repeat constructor.
  - apply (plain_comment_lines (" " +:+ str_operation op)).
    change (plain ("-- " +:+ str_operation op) = true).
    by rewrite plain_append, Hstr.
  - rewrite split_join by done.
    cbn [map concat].
    rewrite !forallb_app.
    repeat (apply andb_true_iff; split); try done.
    + apply (plain_comment_lines (" ALTER COLUMN " +:+ table +:+ "." +:+ fmt obj)).
      change (plain ("-- ALTER COLUMN " +:+ table +:+ "." +:+ fmt obj) = true).
      by rewrite !plain_append, ?Htable, ?Hobj, ?Hon, ?Hot, ?Hnn, ?Hnt, ?Hnull.
    + apply (plain_comment_lines
               (" Old: " +:+ ColumnDefinition.name old_col +:+ " "
                  +:+ ColumnDefinition.type old_col +:+ " "
                  +:+ (if ColumnDefinition.nullable old_col
                       then "NULL" else "NOT NULL"))).
      change (plain ("-- Old: " +:+ ColumnDefinition.name old_col +:+ " "
                       +:+ ColumnDefinition.type old_col +:+ " "
                       +:+ (if ColumnDefinition.nullable old_col
                            then "NULL" else "NOT NULL")) = true).
      by rewrite !plain_append, ?Htable, ?Hobj, ?Hon, ?Hot, ?Hnn, ?Hnt, ?Hnull.
    + apply (plain_comment_lines
               (" New: " +:+ ColumnDefinition.name new_col +:+ " "
                  +:+ ColumnDefinition.type new_col +:+ " "
                  +:+ (if ColumnDefinition.nullable new_col
                       then "NULL" else "NOT NULL"))).
      change (plain ("-- New: " +:+ ColumnDefinition.name new_col +:+ " "
                       +:+ ColumnDefinition.type new_col +:+ " "
                       +:+ (if ColumnDefinition.nullable new_col
                            then "NULL" else "NOT NULL")) = true).
      by rewrite !plain_append, ?Htable, ?Hobj, ?Hon, ?Hot, ?Hnn, ?Hnt, ?Hnull.
Qed.

Lemma plain_alter_script (operations : list MigrationOperation.t)
    (script : string) :
  forallb (plain_alter_column str_operation) operations = true →
  generate_sql operations = Ok script →
  only_comments script = true.
Proof.
  rewrite generate_sql_emitted. intros Hops [= <-].
  apply only_comments_join, Forall_concat, Forall_fmap, Forall_forall.
  intros op Hop. apply plain_alter_block.
  rewrite forallb_forall in Hops. by apply Hops, list_elem_of_In.
Qed.

End MoreGeneratorFacts.

(** ** Generated scripts, applied *)

Section ScriptsApplied.

Context {DB : Type} `{Database DB}.

Variable str_operation : MigrationOperation.t → string.
Variable str_operation_type : OperationType → string.
Variable create_table_ddl : option definition → res string.

Lemma apply_migration_no_statement (db : DB) (migration : PendingMigration.t)
    (now : timestamp) :
  statements_of (PendingMigration.sql_content migration) = [] →
  apply_migration db migration now
  = match execute (begin db)
            (insert_migration (PendingMigration.filename migration) now) with
    | Ok (tx, _) =>
        match commit tx with
        | Ok db' => (db', Ok tt)
        | Raise e => (rollback tx, Raise (surfaced migration e))
        end
    | Raise e => (rollback (begin db), Raise (surfaced migration e))
    end.
Proof.
  intros Hnone.
  rewrite apply_migration_transaction. unfold transaction, run_transaction.
  rewrite Hnone. cbn [execute_each].
  destruct (execute (begin db) _) as [[tx rows]|e]; [|done].
  by destruct (commit tx) as [db'|e].
Qed.

(** X3: a script generated from altered columns alone, their names and
    rendering free of semicolons and newlines, holds comment lines only;
    applying it executes no statement and sends the ledger insert alone, so
    the migration is recorded while the schema is left as it was. *)
Theorem alter_only_script_applies (operations : list MigrationOperation.t)
    (script filename : string) (db : DB) (now : timestamp) :
  forallb (plain_alter_column str_operation) operations = true →
  generate_sql str_operation str_operation_type create_table_ddl operations
  = Ok script →
  only_comments script = true
  ∧ apply_migration db (PendingMigration.Build filename script) now
    = match execute (begin db) (insert_migration filename now) with
      | Ok (tx, _) =>
          match commit tx with
          | Ok db' => (db', Ok tt)
          | Raise e =>
              (rollback tx,
               Raise (surfaced (PendingMigration.Build filename script) e))
          end
      | Raise e =>
          (rollback (begin db),
           Raise (surfaced (PendingMigration.Build filename script) e))
      end.
Proof.
  intros Hplain Hscript.
  pose proof (plain_alter_script _ _ _ _ _ Hplain Hscript) as Hcomments.
  split; [done|].
  apply (apply_migration_no_statement db
           (PendingMigration.Build filename script)).
  by apply only_comments_no_statement.
Qed.

(** X17: on a migration whose lines are blanks, semicolons and [--]
    comments that hold no semicolon, [apply_migration] executes no statement
    of the file; it sends the ledger insert alone, then commits, and the
    migration is recorded when both succeed. *)
Theorem apply_migration_comments_only (db : DB)
    (migration : PendingMigration.t) (now : timestamp) :
  only_comments (PendingMigration.sql_content migration) = true →
  statements_of (PendingMigration.sql_content migration) = []
  ∧ apply_migration db migration now
    = match execute (begin db)
              (insert_migration (PendingMigration.filename migration) now) with
      | Ok (tx, _) =>
          match commit tx with
          | Ok db' => (db', Ok tt)
          | Raise e => (rollback tx, Raise (surfaced migration e))
          end
      | Raise e => (rollback (begin db), Raise (surfaced migration e))
      end.
Proof.
  intros Hcomments%only_comments_no_statement. split; [done|].
  by apply apply_migration_no_statement.
Qed.

End ScriptsApplied.

(** ** More on names *)

Section MoreNameFacts.

Implicit Types (s t : string) (p q : ascii → bool) (c : ascii).

Lemma underscore_has_char c : Py.has_char c "_" = Py.is_underscore c.
Proof. by destruct c as [[] [] [] [] [] [] [] []]. Qed.

Lemma slug_char_lower c : slug_char c = true → Py.lower_char c = c.
Proof. by destruct c as [[] [] [] [] [] [] [] []]. Qed.

Lemma slug_char_not_space c : slug_char c = true → Py.isspace c = false.
Proof. by destruct c as [[] [] [] [] [] [] [] []]. Qed.

Lemma lstrip_by_ext p q s :
  (∀ c, p c = q c) → Py.lstrip_by p s = Py.lstrip_by q s.
Proof.
  intros Hpq. induction s as [|c s IH]; [done|].
  by rewrite !lstrip_by_cons, Hpq, IH.
Qed.

Lemma rstrip_by_ext p q s :
  (∀ c, p c = q c) → Py.rstrip_by p s = Py.rstrip_by q s.
Proof.
  intros Hpq. induction s as [|c s IH]; [done|].
  by rewrite !rstrip_by_cons, Hpq, IH.
Qed.

Lemma strip_chars_underscore s :
  Py.strip_chars "_" s = Py.strip_by Py.is_underscore s.
Proof.
  unfold Py.strip_chars, Py.strip_by.
  rewrite (lstrip_by_ext _ Py.is_underscore) by apply underscore_has_char.
  apply rstrip_by_ext, underscore_has_char.
Qed.

Lemma rstrip_chars_underscore s :
  Py.rstrip_chars "_" s = Py.rstrip_by Py.is_underscore s.
Proof. apply rstrip_by_ext, underscore_has_char. Qed.

(** Heads and ends. *)
Lemma lstrip_by_head p s : Py.head_is p (Py.lstrip_by p s) = false.
Proof.
  induction s as [|c s IH]; [done|].
  rewrite lstrip_by_cons. destruct (p c) eqn:Ec; [done|]. simpl. done.
Qed.

Lemma rstrip_by_head_false q p s :
  Py.head_is q s = false → Py.head_is q (Py.rstrip_by p s) = false.
Proof.
  intros Hs. destruct (Py.is_empty (Py.rstrip_by p s)) eqn:Ee.
  - by destruct (Py.rstrip_by p s).
  - by rewrite rstrip_by_head.
Qed.

Lemma slice_to_head_false q (n : nat) s :
  Py.head_is q s = false → Py.head_is q (Py.slice_to n s) = false.
Proof. by destruct n, s. Qed.

Lemma rstrip_by_last p s : last_is p (Py.rstrip_by p s) = false.
Proof.
  induction s as [|c s IH]; [done|].
  rewrite rstrip_by_cons.
  destruct (Py.rstrip_by p s) as [|c' r] eqn:Er; simpl.
  - by destruct (p c) eqn:Ec; simpl.
  - done.
Qed.

Lemma rstrip_by_fixed p s : last_is p s = false → Py.rstrip_by p s = s.
Proof.
  induction s as [|c s IH]; [done|].
  rewrite rstrip_by_cons. destruct s as [|c' s'].
  - simpl. by intros ->.
  - intros Hlast. rewrite IH by done. done.
Qed.

Lemma lstrip_by_fixed p s : Py.head_is p s = false → Py.lstrip_by p s = s.
Proof. destruct s as [|c s]; [done|]. simpl. by intros ->. Qed.

(** Runs of underscores. *)
Lemma squeeze_underscores_head s :
  Py.head_is Py.is_underscore (squeeze_underscores s)
  = Py.head_is Py.is_underscore s.
Proof.
  induction s as [|c s IH]; [done|].
  rewrite squeeze_underscores_cons.
  destruct (Py.is_underscore c) eqn:Ec; simpl; [|done].
  destruct (Py.head_is Py.is_underscore s) eqn:Eh; simpl; [|done].
  by rewrite IH.
Qed.

Lemma squeeze_underscores_no_double s :
  no_double_underscore (squeeze_underscores s) = true.
Proof.
  induction s as [|c s IH]; [done|].
  rewrite squeeze_underscores_cons.
  destruct (Py.is_underscore c && Py.head_is Py.is_underscore s) eqn:E;
    [done|].
  cbn [no_double_underscore]. by rewrite squeeze_underscores_head, E, IH.
Qed.

Lemma squeeze_underscores_fixed s :
  no_double_underscore s = true → squeeze_underscores s = s.
Proof.
  induction s as [|c s IH]; [done|].
  cbn [no_double_underscore].
  intros [Hc%negb_true_iff Hs]%andb_true_iff.
  by rewrite squeeze_underscores_cons, Hc, IH.
Qed.

Lemma no_double_lstrip_by p s :
  no_double_underscore s = true →
  no_double_underscore (Py.lstrip_by p s) = true.
Proof.
  induction s as [|c s IH]; [done|].
  rewrite lstrip_by_cons. destruct (p c); [|done].
  cbn [no_double_underscore]. intros [_ Hs]%andb_true_iff. by apply IH.
Qed.

Lemma no_double_rstrip_by p s :
  no_double_underscore s = true →
  no_double_underscore (Py.rstrip_by p s) = true.
Proof.
  induction s as [|c s IH]; [done|].
  cbn [no_double_underscore].
  intros [Hc%negb_true_iff Hs]%andb_true_iff.
  rewrite rstrip_by_cons. destruct (_ && p c); [done|].
  cbn [no_double_underscore]. rewrite IH by done.
  destruct (Py.is_underscore c); [|done]. simpl in *.
  by rewrite rstrip_by_head_false.
Qed.

Lemma no_double_slice_to (n : nat) s :
  no_double_underscore s = true →
  no_double_underscore (Py.slice_to n s) = true.
Proof.
  revert s. induction n as [|n IH]; intros [|c s]; try done.
  cbn [no_double_underscore Py.slice_to].
  intros [Hc%negb_true_iff Hs]%andb_true_iff.
  rewrite IH by done.
  destruct (Py.is_underscore c); [|done]. simpl in *.
  by rewrite slice_to_head_false.
Qed.

Lemma map_chars_fixed (f : ascii → ascii) p s :
  (∀ c, p c = true → f c = c) → Py.all_chars p s = true →
  Py.map_chars f s = s.
Proof.
  intros Hf. induction s as [|c s IH]; [done|]. simpl.
  intros [Hc Hs]%andb_true_iff. by rewrite Hf, IH.
Qed.

Lemma all_chars_impl p q s :
  (∀ c, p c = true → q c = true) → Py.all_chars p s = true →
  Py.all_chars q s = true.
Proof.
  intros Hpq. induction s as [|c s IH]; [done|]. simpl.
  intros [Hc Hs]%andb_true_iff. by rewrite Hpq, IH.
Qed.

(** The name is trimmed and squeezed. *)
Lemma create_migration_name_trimmed (description : string) :
  Py.head_is Py.is_underscore (create_migration_name description) = false
  ∧ last_is Py.is_underscore (create_migration_name description) = false
  ∧ no_double_underscore (create_migration_name description) = true.
Proof.
  unfold create_migration_name.
  rewrite strip_chars_underscore, rstrip_chars_underscore.
  set (x := squeeze_underscores _).
  set (name := Py.strip_by Py.is_underscore x).
  assert (Py.head_is Py.is_underscore name = false) as Hhead
    by apply rstrip_by_head_false, lstrip_by_head.
  assert (last_is Py.is_underscore name = false) as Hlast
    by apply rstrip_by_last.
  assert (no_double_underscore name = true) as Hdouble
    by apply no_double_rstrip_by, no_double_lstrip_by,
         squeeze_underscores_no_double.
  set (cut := if (50 <? String.length name)%nat then _ else name).
  assert (Py.head_is Py.is_underscore cut = false
          ∧ last_is Py.is_underscore cut = false
          ∧ no_double_underscore cut = true) as (Hh & Hl & Hd).
  { unfold cut. destruct (50 <? String.length name)%nat; [|done].
    split; [by apply rstrip_by_head_false, slice_to_head_false|].
    split; [apply rstrip_by_last|].
    by apply no_double_rstrip_by, no_double_slice_to. }
  by destruct cut.
Qed.

(** A name that is already clean is returned as it is. *)
Lemma create_migration_name_fixed s :
  Py.all_chars slug_char s = true → Py.is_empty s = false →
  Py.head_is Py.is_underscore s = false →
  last_is Py.is_underscore s = false →
  no_double_underscore s = true →
  (String.length s ≤ 50)%nat →
  create_migration_name s = s.
Proof.
  intros Hchars Hne Hhead Hlast Hdouble Hlen.
  unfold create_migration_name, Py.lower.
  rewrite (map_chars_fixed Py.lower_char slug_char)
    by (done || apply slug_char_lower).
  unfold Py.strip.
  rewrite strip_by_plain
    by (apply (all_chars_impl slug_char); [|done];
        intros c Hc; by rewrite slug_char_not_space).
  unfold replace_unsafe.
  rewrite (map_chars_fixed _ slug_char)
    by (done || (intros c Hc; by rewrite Hc)).
  rewrite squeeze_underscores_fixed by done.
  rewrite strip_chars_underscore. unfold Py.strip_by.
  rewrite lstrip_by_fixed, rstrip_by_fixed by done.
  apply Nat.ltb_ge in Hlen. rewrite Hlen. by rewrite Hne.
Qed.

(** X4: the name [create_migration_name] returns is never empty, is made
    of the characters [a-z0-9_] only, neither starts nor ends with an
    underscore and has no two underscores in a row. *)
Theorem create_migration_name_clean (description : string) :
  Py.is_empty (create_migration_name description) = false
  ∧ Py.all_chars slug_char (create_migration_name description) = true
  ∧ Py.head_is Py.is_underscore (create_migration_name description) = false
  ∧ last_is Py.is_underscore (create_migration_name description) = false
  ∧ no_double_underscore (create_migration_name description) = true.
Proof.
  destruct (create_migration_name_slug_chars description) as [Hchars Hne].
  destruct (create_migration_name_trimmed description) as (Hh & Hl & Hd).
  done.
Qed.

(** X5: a name that is made of [a-z0-9_], not empty, at most 50 characters
    long, without an underscore at either end and without two underscores in
    a row is returned by [create_migration_name] as it is. *)
Theorem create_migration_name_keeps_clean s :
  Py.all_chars slug_char s = true → Py.is_empty s = false →
  Py.head_is Py.is_underscore s = false →
  last_is Py.is_underscore s = false →
  no_double_underscore s = true →
  (String.length s ≤ 50)%nat →
  create_migration_name s = s.
Proof. apply create_migration_name_fixed. Qed.

(** X6: [create_migration_name] is idempotent: a name it has made is
    returned unchanged. *)
Theorem create_migration_name_idempotent (description : string) :
  create_migration_name (create_migration_name description)
  = create_migration_name description.
Proof.
  destruct (create_migration_name_slug_chars description) as [Hchars Hne].
  destruct (create_migration_name_trimmed description) as (Hh & Hl & Hd).
  apply create_migration_name_fixed; try done.
  apply create_migration_name_length.
Qed.

End MoreNameFacts.

(** ** Numbers in file names *)

Section NumberFacts.

Lemma string_of_uint_digits (u : Decimal.uint) :
  Py.all_chars Py.isdigit (NilEmpty.string_of_uint u) = true.
Proof. induction u; simpl; done. Qed.

Lemma digits_value_string_of_uint (a : N) (u : Decimal.uint) :
  Py.digits_value (Z.of_N a) (NilEmpty.string_of_uint u)
  = Z.of_N (a * 10 ^ DecimalPos.Unsigned.usize u
            + DecimalPos.Unsigned.of_lu (Decimal.rev u)).
Proof.
  revert a. unfold Decimal.rev.
  induction u as [|u IH|u IH|u IH|u IH|u IH|u IH|u IH|u IH|u IH|u IH];
    intros a;
    [simpl; f_equal; lia|
     cbn [NilEmpty.string_of_uint Py.digits_value Decimal.revapp
            DecimalPos.Unsigned.usize];
     rewrite DecimalPos.Unsigned.of_lu_revapp; fold (Decimal.rev u);
     cbn [DecimalPos.Unsigned.of_lu];
     rewrite N.pow_succ_r';
     match goal with
     | |- Py.digits_value (10 * Z.of_N a + ?d) _ = _ =>
         let k := eval vm_compute in (Z.to_N d) in
         change (10 * Z.of_N a + d) with (10 * Z.of_N a + Z.of_N k);
         replace (10 * Z.of_N a + Z.of_N k) with (Z.of_N (10 * a + k))
           by lia
     end;
     rewrite IH; unfold Decimal.rev; f_equal;
     generalize (10 ^ DecimalPos.Unsigned.usize u)%N;
     generalize (DecimalPos.Unsigned.of_lu (Decimal.revapp u Decimal.Nil));
     intros; lia ..].
Qed.

Lemma decimal_value (n : N) :
  Py.all_chars Py.isdigit (Py.decimal n) = true
  ∧ Py.is_empty (Py.decimal n) = false
  ∧ Py.digits_value 0 (Py.decimal n) = Z.of_N n.
Proof.
  unfold Py.decimal.
  assert (N.to_uint n ≠ Decimal.Nil) as Hnil.
  { destruct n; [done|]. apply DecimalPos.Unsigned.to_uint_nonnil. }
  assert (NilZero.string_of_uint (N.to_uint n)
          = NilEmpty.string_of_uint (N.to_uint n)) as ->
    by (by destruct (N.to_uint n)).
  split; [apply string_of_uint_digits|].
  split; [by destruct (N.to_uint n)|].
  rewrite (digits_value_string_of_uint 0).
  rewrite N.mul_0_l, N.add_0_l, <- DecimalPos.Unsigned.of_uint_alt.
  f_equal. apply (DecimalN.Unsigned.of_to n).
Qed.

Lemma zero_pad_value (width : nat) (s : string) :
  Py.all_chars Py.isdigit s = true →
  Py.all_chars Py.isdigit (Py.zero_pad width s) = true
  ∧ Py.digits_value 0 (Py.zero_pad width s) = Py.digits_value 0 s.
Proof.
  intros Hs. unfold Py.zero_pad.
  induction (width - String.length s)%nat as [|k [IHd IHv]]; [done|].
  split; [done|]. exact IHv.
Qed.

(** The number written in a file name reads back as itself. *)
Lemma int_format_04d (n : Z) : Py.int (Py.format_04d n) = Some n.
Proof.
  unfold Py.format_04d. destruct (n <? 0) eqn:En.
  - apply Z.ltb_lt in En.
    destruct (decimal_value (Z.to_N (- n))) as (Hd & Hne & Hv).
    destruct (zero_pad_value 3 _ Hd) as [Hd' Hv'].
    unfold Py.int. rewrite strip_by_plain.
    + rewrite bool_decide_eq_false_2, bool_decide_eq_true_2 by done.
      unfold Py.unsigned_int. rewrite Hd', Hv', Hv.
      assert (Py.is_empty (Py.zero_pad 3 (Py.decimal (Z.to_N (- n)))) = false)
        as ->.
      { unfold Py.zero_pad. rewrite is_empty_append, Hne. apply andb_false_r. }
      simpl. f_equal. lia.
    + simpl. apply (all_chars_impl Py.isdigit); [|done].
      intros c Hc. by apply isdigit_plain in Hc as (_ & _ & _ & ->).
  - apply Z.ltb_ge in En.
    destruct (decimal_value (Z.to_N n)) as (Hd & Hne & Hv).
    destruct (zero_pad_value 4 _ Hd) as [Hd' Hv'].
    rewrite int_digits; [|done|].
    + rewrite Hv', Hv. f_equal. lia.
    + unfold Py.zero_pad. rewrite is_empty_append, Hne. apply andb_false_r.
Qed.

Lemma format_04d_no_underscore (n : Z) :
  Py.has_char "_" (Py.format_04d n) = false
  ∧ Py.is_empty (Py.format_04d n) = false.
Proof.
  assert (∀ s, Py.all_chars Py.isdigit s = true → Py.has_char "_" s = false)
    as Hdigits.
  { induction s as [|c s IH]; [done|]. simpl.
    intros [Hc Hs]%andb_true_iff.
    apply isdigit_plain in Hc as (Hc & _).
    by rewrite bool_decide_eq_false_2, IH. }
  unfold Py.format_04d. destruct (n <? 0).
  - destruct (decimal_value (Z.to_N (- n))) as (Hd & _ & _).
    destruct (zero_pad_value 3 _ Hd) as [Hd' _].
    split; [|done]. simpl. by apply Hdigits.
  - destruct (decimal_value (Z.to_N n)) as (Hd & Hne & _).
    destruct (zero_pad_value 4 _ Hd) as [Hd' _].
    split; [by apply Hdigits|].
    unfold Py.zero_pad. rewrite is_empty_append, Hne. apply andb_false_r.
Qed.

Lemma split1_first (a : ascii) (s t : string) :
  Py.has_char a s = false →
  Py.split1 a (s +:+ String a t) = [s; t].
Proof.
  induction s as [|c s IH].
  - intros _. change ("" +:+ String a t) with (String a t).
    cbn [Py.split1]. by rewrite bool_decide_eq_true_2.
  - cbn [Py.has_char]. intros [Hc Hs]%orb_false_iff.
    rewrite append_cons. cbn [Py.split1]. by rewrite Hc, IH.
Qed.

(** A file name made by [save_migration] parses back to its number and
    name. *)
Lemma parse_name_migration_filename (n : Z) (name : string) :
  parse_name (migration_filename n name) = Some (n, name)
  ∧ Py.endswith (migration_filename n name) ".sql" = true.
Proof.
  destruct (format_04d_no_underscore n) as [Hnone Hne].
  assert (migration_filename n name
          = (Py.format_04d n +:+ String "_" name) +:+ ".sql") as ->
    by (unfold migration_filename; by rewrite !append_assoc).
  split; [|apply endswith_append, endswith_refl].
  unfold parse_name.
  rewrite stem_sql by (by rewrite is_empty_append, Hne).
  rewrite split1_first by done.
  by rewrite int_format_04d.
Qed.

Lemma zeros_length (k : nat) : String.length (Py.zeros k) = k.
Proof. induction k as [|k IH]; [done|]. simpl. by rewrite IH. Qed.

(** The number is written with all its digits. *)
Lemma format_04d_length (n : Z) :
  (Py.digits n ≤ String.length (Py.format_04d n))%nat.
Proof.
  unfold Py.digits, Py.format_04d, Py.zero_pad.
  destruct (Z.ltb_spec n 0).
  - rewrite Z.abs_neq by lia. cbn [String.length].
    rewrite length_append. lia.
  - rewrite Z.abs_eq by lia. rewrite length_append. lia.
Qed.

(** It is made of digits, after a minus sign if it is negative. *)
Lemma format_04d_has_char (x : ascii) (n : Z) :
  Py.isdigit x = false → x ≠ "-"%char →
  Py.has_char x (Py.format_04d n) = false.
Proof.
  intros Hx Hminus.
  unfold Py.format_04d. destruct (n <? 0).
  - destruct (decimal_value (Z.to_N (- n))) as (Hd & _ & _).
    destruct (zero_pad_value 3 _ Hd) as [Hd' _].
    cbn [Py.has_char]. rewrite bool_decide_eq_false_2 by congruence.
    by apply (has_char_all_chars _ Py.isdigit).
  - destruct (decimal_value (Z.to_N n)) as (Hd & _ & _).
    destruct (zero_pad_value 4 _ Hd) as [Hd' _].
    by apply (has_char_all_chars _ Py.isdigit).
Qed.

End NumberFacts.

(** ** More on the store *)

Section MoreStoreFacts.

Variable migrations_path : string.

Lemma elem_of_stored_migrations (dir : directory) (m : MigrationFile.t) :
  m ∈ omap (stored migrations_path dir) (merge_sort String.le (glob_sql dir))
  ↔ ∃ fname, Py.endswith fname ".sql" = true
             ∧ stored migrations_path dir fname = Some m.
Proof.
  rewrite list_elem_of_omap. split.
  - intros (fname & Hin & Hst).
    rewrite merge_sort_Permutation in Hin.
    apply elem_of_glob_sql in Hin as [Hsql _]. eauto.
  - intros (fname & Hsql & Hst). exists fname. split; [|done].
    rewrite merge_sort_Permutation. apply elem_of_glob_sql. split; [done|].
    apply stored_inv in Hst as (? & ? & ? & _ & -> & _). eauto.
Qed.

Lemma stored_saved (dir : directory) (n : Z) (name sql_content : string) :
  stored migrations_path
    (<[migration_filename n name := Text sql_content]> dir)
    (migration_filename n name)
  = Some (MigrationFile.Build n name (migration_filename n name)
            (path_of migrations_path (migration_filename n name))
            (Py.universal_newlines sql_content)).
Proof.
  unfold stored.
  destruct (parse_name_migration_filename n name) as [-> _]. simpl.
  by rewrite lookup_insert_eq.
Qed.

Lemma stored_other (dir : directory) (fname other : string) (f : file) :
  other ≠ fname →
  stored migrations_path (<[fname := f]> dir) other
  = stored migrations_path dir other.
Proof. intros Hne. unfold stored. by rewrite lookup_insert_ne. Qed.

(** What a call of [save_migration] that returns has done. *)
Lemma save_migration_returned (dir dir' : directory) (n : Z)
    (name sql_content path : string) :
  save_migration migrations_path dir n name sql_content = (dir', Ok path) →
  dir' = <[migration_filename n name := Text sql_content]> dir
  ∧ path = path_of migrations_path (migration_filename n name).
Proof.
  unfold save_migration.
  destruct (Py.int_max_str_digits <? Py.digits n)%nat; [done|].
  destruct (open_for_writing _ _ _) as [[]|e]; [|done].
  by intros [= <- <-].
Qed.

(** A text without a carriage return is read as it was written. *)
Lemma universal_newlines_plain (s : string) :
  Py.has_char "013" s = false → Py.universal_newlines s = s.
Proof.
  induction s as [|c s IH]; [done|].
  cbn [Py.has_char Py.universal_newlines].
  intros [Hc Hs]%orb_false_iff. by rewrite Hc, IH.
Qed.

(** The file of a name in one piece, without a null character, is written
    when the file name is within the length of a name. *)
Lemma save_migration_plain (dir : directory) (n : Z)
    (name sql_content : string) :
  Py.has_char "000" name = false →
  Py.has_char "/" name = false →
  (Py.utf8_length (migration_filename n name) ≤ 255)%nat →
  save_migration migrations_path dir n name sql_content
  = (<[migration_filename n name := Text sql_content]> dir,
     Ok (path_of migrations_path (migration_filename n name))).
Proof.
  intros Hnull Hslash Hbytes.
  pose proof (utf8_length_ge (migration_filename n name)) as Hlen.
  pose proof (format_04d_length n) as Hdigits.
  assert (String.length (migration_filename n name)
          = (String.length (Py.format_04d n)
             + (1 + (String.length name + 4)))%nat) as Hfile
    by (unfold migration_filename; by rewrite !length_append).
  apply save_migration_written; [unfold Py.int_max_str_digits; lia|].
  apply open_for_writing_plain; [| |lia|done].
  - unfold migration_filename.
    rewrite !has_char_append, Hnull, format_04d_has_char by done. done.
  - unfold migration_filename.
    rewrite !has_char_append, Hslash, format_04d_has_char by done. done.
Qed.

(** X7: [save_migration] writes the file of a name in one piece, without a
    null character, whose file name fits the length of a name, and returns
    its path; a call that raises writes nothing. A migration that was saved
    is read back by [get_all_migrations] with the number, the name and the
    path it was saved with and the text as it is read, line ends as line
    feeds, which is the text saved when it holds no carriage return; the
    migrations stored under other file names are enumerated as before. *)
Theorem save_then_get_all (dir : directory) (n : Z)
    (name sql_content : string) :
  let filename := migration_filename n name in
  let saved := save_migration migrations_path dir n name sql_content in
  (Py.has_char "000" name = false →
   Py.has_char "/" name = false →
   (Py.utf8_length filename ≤ 255)%nat →
   saved.2 = Ok (path_of migrations_path filename))
  ∧ (∀ e, saved.2 = Raise e → saved.1 = dir)
  ∧ (∀ path,
       saved.2 = Ok path →
       path = path_of migrations_path filename
       ∧ ∃ before after,
           get_all_migrations migrations_path dir = Ok before
           ∧ get_all_migrations migrations_path saved.1 = Ok after
           ∧ MigrationFile.Build n name filename path
               (Py.universal_newlines sql_content) ∈ after
           ∧ (Py.has_char "013" sql_content = false →
              MigrationFile.Build n name filename path sql_content ∈ after)
           ∧ (∀ m, MigrationFile.filename m ≠ filename →
                   m ∈ after ↔ m ∈ before)).
Proof.
  intros filename saved. split; [|split].
  - intros Hnull Hslash Hbytes. unfold saved.
    by rewrite save_migration_plain.
  - intros e. unfold saved, save_migration.
    destruct (Py.int_max_str_digits <? Py.digits n)%nat; [done|].
    by destruct (open_for_writing _ _ _) as [[]|e'].
  - intros path Hpath.
    destruct (save_migration_returned dir saved.1 n name sql_content path)
      as [Hdir ->]; [rewrite <- Hpath; apply surjective_pairing|].
    split; [done|]. rewrite Hdir. fold filename.
    assert (MigrationFile.Build n name filename
              (path_of migrations_path filename)
              (Py.universal_newlines sql_content)
            ∈ omap (stored migrations_path
                      (<[filename := Text sql_content]> dir))
                (merge_sort String.le
                   (glob_sql (<[filename := Text sql_content]> dir))))
      as Hsaved.
    { apply elem_of_stored_migrations. exists filename.
      split; [apply parse_name_migration_filename|apply stored_saved]. }
    eexists _, _.
    split; [apply get_all_migrations_stored|].
    split; [apply get_all_migrations_stored|].
    split; [done|]. split.
    + intros Hplain. by rewrite universal_newlines_plain in Hsaved.
    + intros m Hm. rewrite !elem_of_stored_migrations.
      split; intros (fname & Hsql & Hst); exists fname; (split; [done|]).
      * pose proof Hst as (? & ? & ? & _ & _ & ->)%stored_inv.
        by rewrite stored_other in Hst.
      * pose proof Hst as (? & ? & ? & _ & _ & ->)%stored_inv.
        by rewrite stored_other.
Qed.

(** X8: a migration just saved is pending as long as its file name is not
    in the ledger, with the text as it is read from the file. *)
Theorem save_then_pending (dir dir' : directory) (n : Z)
    (name sql_content path : string) (applied : list string) :
  save_migration migrations_path dir n name sql_content = (dir', Ok path) →
  migration_filename n name ∉ applied →
  ∃ pending,
    get_pending_migrations migrations_path dir' (Ok applied) = Ok pending
    ∧ PendingMigration.Build (migration_filename n name)
        (Py.universal_newlines sql_content)
      ∈ pending.
Proof.
  intros [-> ->]%save_migration_returned Hfresh. eexists. split.
  - unfold get_pending_migrations.
    rewrite get_all_migrations_stored, !res_bind_eq.
    by rewrite select_pending_filter.
  - cbn [app]. apply list_elem_of_fmap.
    exists (MigrationFile.Build n name (migration_filename n name)
              (path_of migrations_path (migration_filename n name))
              (Py.universal_newlines sql_content)).
    split; [done|]. apply list_elem_of_filter. split; [done|].
    apply elem_of_stored_migrations. exists (migration_filename n name).
    split; [apply parse_name_migration_filename|apply stored_saved].
Qed.

Lemma stored_filenames (dir : directory) (paths : list string) :
  MigrationFile.filename <$> omap (stored migrations_path dir) paths
  = filter (λ f, is_Some (stored migrations_path dir f)) paths.
Proof.
  induction paths as [|f paths IH]; [done|].
  cbn [omap list_omap]. rewrite filter_cons.
  destruct (stored migrations_path dir f) as [m|] eqn:Est.
  - rewrite decide_True by eauto. cbn [fmap list_fmap]. rewrite <- IH.
    apply stored_inv in Est as (? & ? & ? & _ & _ & ->). done.
  - rewrite decide_False by (by intros [? ?]). done.
Qed.

(** X9: no file name comes twice in what [get_all_migrations] returns, nor
    in what [get_pending_migrations] returns. *)
Theorem migrations_listed_once (dir : directory) (applied : list string) :
  ∃ all_migrations pending,
    get_all_migrations migrations_path dir = Ok all_migrations
    ∧ get_pending_migrations migrations_path dir (Ok applied) = Ok pending
    ∧ NoDup (MigrationFile.filename <$> all_migrations)
    ∧ NoDup (PendingMigration.filename <$> pending).
Proof.
  eexists _, _.
  split; [apply get_all_migrations_stored|].
  split.
  { unfold get_pending_migrations.
    rewrite get_all_migrations_stored, !res_bind_eq.
    by rewrite select_pending_filter. }
  assert (NoDup (MigrationFile.filename <$>
                   omap (stored migrations_path dir)
                     (merge_sort String.le (glob_sql dir)))) as Hnodup.
  { rewrite stored_filenames. apply NoDup_filter.
    rewrite merge_sort_Permutation. unfold glob_sql.
    apply NoDup_filter, NoDup_fst_map_to_list. }
  split; [done|]. cbn [app].
  rewrite <- list_fmap_compose.
  eapply sublist_NoDup; [exact Hnodup|].
  change (PendingMigration.filename ∘ to_pending)
    with MigrationFile.filename.
  apply (fmap_sublist MigrationFile.filename), sublist_filter.
Qed.

(** X10: when the ledger cannot be read, [get_pending_migrations] raises
    the error of that read, whatever the store holds; with an empty ledger
    every stored migration is pending, in the order of the store. *)
Theorem get_pending_migrations_edges (dir : directory) (e : exn) :
  get_pending_migrations migrations_path dir (Raise e) = Raise e
  ∧ ∃ all_migrations,
      get_all_migrations migrations_path dir = Ok all_migrations
      ∧ get_pending_migrations migrations_path dir (Ok [])
        = Ok (to_pending <$> all_migrations).
Proof.
  unfold get_pending_migrations.
  rewrite get_all_migrations_stored, !res_bind_eq.
  split; [done|]. eexists. split; [done|].
  rewrite select_pending_filter. cbn [app]. do 2 f_equal.
  induction (omap _ _) as [|m l IH]; [done|].
  rewrite filter_cons, decide_True by apply not_elem_of_nil.
  by rewrite IH.
Qed.

(** The enumeration depends only on the files that load. *)
Lemma get_all_migrations_ext (dir dir' : directory) :
  (∀ fname, Py.endswith fname ".sql" = true →
            stored migrations_path dir fname
            = stored migrations_path dir' fname) →
  get_all_migrations migrations_path dir
  = get_all_migrations migrations_path dir'.
Proof.
  intros Hsame. rewrite !get_all_migrations_stored. f_equal.
  assert (∀ d, StronglySorted
                 (λ m m', String.le (MigrationFile.filename m)
                            (MigrationFile.filename m'))
                 (omap (stored migrations_path d)
                    (merge_sort String.le (glob_sql d)))) as Hsorted.
  { intros d. apply (StronglySorted_omap String.le).
    - intros f g m m' _ _ Hle (? & ? & ? & _ & _ & ->)%stored_inv
        (? & ? & ? & _ & _ & ->)%stored_inv. done.
    - apply (StronglySorted_merge_sort _). }
  assert (∀ d, NoDup (omap (stored migrations_path d)
                        (merge_sort String.le (glob_sql d)))) as Hnodup.
  { intros d. apply (NoDup_fmap_1 MigrationFile.filename).
    rewrite stored_filenames. apply NoDup_filter.
    rewrite merge_sort_Permutation. unfold glob_sql.
    apply NoDup_filter, NoDup_fst_map_to_list. }
  assert (∀ m, m ∈ omap (stored migrations_path dir)
                     (merge_sort String.le (glob_sql dir))
               ↔ m ∈ omap (stored migrations_path dir')
                       (merge_sort String.le (glob_sql dir'))) as Hmem.
  { intros m. rewrite !elem_of_stored_migrations.
    split; intros (f & Hsql & Hst); exists f; (split; [done|]).
    - by rewrite <- Hsame.
    - by rewrite Hsame. }
  eapply StronglySorted_unique_strong; [|apply Hsorted..|].
  - intros m m' Hm Hm' Hle Hge.
    apply elem_of_stored_migrations in Hm as (f & Hf & Hst).
    apply elem_of_stored_migrations in Hm' as (f' & Hf' & Hst').
    pose proof Hst as (? & ? & ? & _ & _ & Em)%stored_inv.
    pose proof Hst' as (? & ? & ? & _ & _ & Em')%stored_inv.
    assert (f = f') as <-.
    { rewrite Em, Em' in Hle, Hge. simpl in Hle, Hge.
      by apply (anti_symm String.le). }
    rewrite Hsame in Hst by done. congruence.
  - by apply NoDup_Permutation.
Qed.

(** X15: a file that is not a migration does not change the enumeration:
    after a file is added whose name does not end in [.sql], or does not
    parse as [<number>_<name>], or that cannot be read, [get_all_migrations]
    returns what it returned before. *)
Theorem get_all_migrations_ignores (dir : directory) (fname : string)
    (f : file) :
  dir !! fname = None →
  Py.endswith fname ".sql" = false ∨ parse_name fname = None
    ∨ (∃ why, f = Unreadable why) →
  get_all_migrations migrations_path (<[fname := f]> dir)
  = get_all_migrations migrations_path dir.
Proof.
  intros Hnew Hnot. apply get_all_migrations_ext. intros other Hsql.
  destruct (decide (other = fname)) as [->|Hne]; [|by apply stored_other].
  unfold stored. rewrite lookup_insert_eq, Hnew.
  destruct Hnot as [Hnot|[->|[why ->]]]; [congruence|done|].
  by destruct (parse_name fname) as [[? ?]|].
Qed.

End MoreStoreFacts.

(** ** More on the applier *)

Section MoreApplierFacts.

Implicit Types (s t : string) (p : ascii → bool) (c x : ascii).

Lemma lstrip_by_idemp p s :
  Py.lstrip_by p (Py.lstrip_by p s) = Py.lstrip_by p s.
Proof. apply lstrip_by_fixed, lstrip_by_head. Qed.

Lemma strip_by_idemp p s :
  Py.strip_by p (Py.strip_by p s) = Py.strip_by p s.
Proof.
  unfold Py.strip_by.
  by rewrite (lstrip_rstrip_by p (Py.lstrip_by p s)), lstrip_by_idemp,
    rstrip_by_idemp.
Qed.

Lemma has_char_lstrip_by x p s :
  Py.has_char x s = false → Py.has_char x (Py.lstrip_by p s) = false.
Proof.
  induction s as [|c s IH]; [done|].
  rewrite lstrip_by_cons. destruct (p c); [|done].
  cbn [Py.has_char]. intros [_ Hs]%orb_false_iff. by apply IH.
Qed.

Lemma has_char_rstrip_by x p s :
  Py.has_char x s = false → Py.has_char x (Py.rstrip_by p s) = false.
Proof.
  induction s as [|c s IH]; [done|].
  cbn [Py.has_char]. intros [Hc Hs]%orb_false_iff.
  rewrite rstrip_by_cons. destruct (_ && p c); [done|].
  cbn [Py.has_char]. by rewrite Hc, IH.
Qed.

Lemma has_char_strip x s :
  Py.has_char x s = false → Py.has_char x (Py.strip s) = false.
Proof. intros Hs. by apply has_char_rstrip_by, has_char_lstrip_by. Qed.

(** The pieces of a split hold no separator, and no character the text
    does not hold. *)
Lemma split_pieces_free (a : ascii) s :
  Forall (λ l, Py.has_char a l = false) (Py.split a s).
Proof.
  induction s as [|c s IH]; [by repeat constructor|].
  rewrite split_cons.
  destruct (bool_decide (c = a)) eqn:Ec; [by constructor|].
  destruct (Py.split a s) as [|h ls]; [done|].
  apply Forall_cons in IH as [Hh Hls].
  constructor; [|done]. cbn [Py.has_char]. by rewrite Ec, Hh.
Qed.

Lemma split_pieces_without (a x : ascii) s :
  Py.has_char x s = false →
  Forall (λ l, Py.has_char x l = false) (Py.split a s).
Proof.
  induction s as [|c s IH]; [by repeat constructor|].
  cbn [Py.has_char]. intros [Hc Hs]%orb_false_iff. specialize (IH Hs).
  rewrite split_cons.
  destruct (bool_decide (c = a)); [by constructor|].
  destruct (Py.split a s) as [|h ls]; [done|].
  apply Forall_cons in IH as [Hh Hls].
  constructor; [|done]. cbn [Py.has_char]. by rewrite Hc, Hh.
Qed.

Lemma has_char_join x (sep : string) (ls : list string) :
  Py.has_char x sep = false →
  Forall (λ l, Py.has_char x l = false) ls →
  Py.has_char x (Py.join sep ls) = false.
Proof.
  intros Hsep Hls. induction Hls as [|l ls Hl Hls IH]; [done|].
  destruct ls as [|l' ls]; [done|].
  change (Py.has_char x (l +:+ sep +:+ Py.join sep (l' :: ls)) = false).
  by rewrite !has_char_append, Hl, Hsep, IH.
Qed.

Lemma last_is_append p s t :
  Py.is_empty t = false → last_is p (s +:+ t) = last_is p t.
Proof.
  intros Ht. induction s as [|c s IH]; [done|].
  rewrite append_cons. cbn [last_is]. rewrite IH.
  destruct (s +:+ t) eqn:E; [|done].
  by destruct s, t.
Qed.

(** Lines that are stripped and not empty, joined, are stripped. *)
Lemma join_stripped (ls : list string) :
  ls ≠ [] →
  Forall (λ l, Py.is_empty l = false
               ∧ Py.head_is Py.isspace l = false
               ∧ last_is Py.isspace l = false) ls →
  Py.is_empty (Py.join (String "010" "") ls) = false
  ∧ Py.head_is Py.isspace (Py.join (String "010" "") ls) = false
  ∧ last_is Py.isspace (Py.join (String "010" "") ls) = false.
Proof.
  intros Hne Hls. induction Hls as [|l ls (Hl & Hh & Hlast) Hls IH]; [done|].
  destruct ls as [|l' ls]; [done|].
  destruct IH as (IHe & _ & IHl); [done|].
  change (Py.join (String "010" "") (l :: l' :: ls))
    with (l +:+ String "010" (Py.join (String "010" "") (l' :: ls))).
  split; [by rewrite is_empty_append, Hl|].
  split; [by destruct l|].
  rewrite last_is_append by done. cbn [last_is].
  by destruct (Py.join _ (l' :: ls)).
Qed.

Lemma stripped_line s :
  Py.is_empty (Py.strip s) = false →
  Py.head_is Py.isspace (Py.strip s) = false
  ∧ last_is Py.isspace (Py.strip s) = false.
Proof.
  intros _. unfold Py.strip, Py.strip_by.
  split; [apply rstrip_by_head_false, lstrip_by_head|apply rstrip_by_last].
Qed.

(** What [clean_statement] makes of a statement: nothing, or lines that
    are stripped, not blank and not comments. *)
Lemma clean_statement_lines (statement : string) :
  Py.is_empty (clean_statement statement) = true
  ∨ Py.strip (clean_statement statement) = clean_statement statement
    ∧ Forall (λ l, is_sql_line l = true ∧ Py.strip l = l)
        (Py.split "010" (clean_statement statement)).
Proof.
  unfold clean_statement. rewrite keep_sql_lines_filter. cbn [app].
  set (ls := filter _ _).
  assert (Forall (λ l, is_sql_line l = true ∧ Py.strip l = l
                       ∧ Py.has_char "010" l = false) ls) as Hls.
  { apply Forall_forall. intros l [Hsql Hin]%list_elem_of_filter.
    apply list_elem_of_fmap in Hin as (x & -> & Hx).
    split; [by apply Is_true_true|]. split; [apply strip_by_idemp|].
    apply has_char_strip.
    pose proof (split_pieces_free "010" statement) as Hfree.
    rewrite Forall_forall in Hfree. by apply Hfree. }
  destruct (decide (ls = [])) as [->|Hne]; [by left|]. right.
  assert (Py.strip (Py.join (String "010" "") ls)
          = Py.join (String "010" "") ls) as Hjoin.
  { destruct (join_stripped ls Hne) as (_ & Hh & Hl).
    - eapply Forall_impl; [exact Hls|]. intros l (Hsql & Hstrip & _).
      assert (Py.is_empty l = false) as Hl
        by (unfold is_sql_line in Hsql; by destruct l).
      split; [done|]. rewrite <- Hstrip in Hl |- *.
      rewrite Hstrip at 1 2. rewrite <- Hstrip. by apply stripped_line.
    - unfold Py.strip, Py.strip_by.
      by rewrite lstrip_by_fixed, rstrip_by_fixed. }
  rewrite Hjoin. split; [done|].
  rewrite split_join by done.
  clear Hjoin Hne. induction Hls as [|l ls (Hsql & Hstrip & Hnl) Hls IH];
    [done|].
  cbn [map concat]. rewrite split_no_separator by done.
  by constructor.
Qed.

Lemma clean_statement_without (x : ascii) (statement : string) :
  x ≠ "010"%char → Py.has_char x statement = false →
  Py.has_char x (clean_statement statement) = false.
Proof.
  intros Hx Hs. unfold clean_statement. rewrite keep_sql_lines_filter.
  cbn [app]. apply has_char_strip, has_char_join.
  - simpl. by rewrite bool_decide_eq_false_2.
  - apply Forall_forall. intros l [_ Hin]%list_elem_of_filter.
    apply list_elem_of_fmap in Hin as (y & -> & Hy).
    apply has_char_strip.
    pose proof (split_pieces_without "010" x statement Hs) as Hfree.
    rewrite Forall_forall in Hfree. by apply Hfree.
Qed.

(** The lines kept of a statement do not depend on the blanks around it. *)
Lemma sql_lines_blank (ls : list string) :
  Forall (λ l, Py.all_chars Py.isspace l = true) ls →
  filter (λ l, is_sql_line l) (map Py.strip ls) = [].
Proof.
  induction 1 as [|l ls Hl _ IH]; [done|].
  cbn [map]. rewrite filter_cons, IH.
  unfold Py.strip. by rewrite strip_by_blank.
Qed.

Lemma sql_lines_cons_eq (l l' : string) (ls ls' : list string) :
  Py.strip l = Py.strip l' →
  filter (λ l, is_sql_line l) (map Py.strip ls)
  = filter (λ l, is_sql_line l) (map Py.strip ls') →
  filter (λ l, is_sql_line l) (map Py.strip (l :: ls))
  = filter (λ l, is_sql_line l) (map Py.strip (l' :: ls')).
Proof. intros Hl Hls. cbn [map]. by rewrite !filter_cons, Hl, Hls. Qed.

Lemma sql_lines_lstrip s :
  filter (λ l, is_sql_line l)
    (map Py.strip (Py.split "010" (Py.lstrip_by Py.isspace s)))
  = filter (λ l, is_sql_line l) (map Py.strip (Py.split "010" s)).
Proof.
  induction s as [|c s IH]; [done|].
  rewrite lstrip_by_cons. destruct (Py.isspace c) eqn:Ec; [|done].
  rewrite IH, split_cons.
  destruct (bool_decide (c = "010"%char)); [done|].
  pose proof (split_nonempty "010" s).
  destruct (Py.split "010" s) as [|h ls]; [done|].
  apply sql_lines_cons_eq; [|done].
  unfold Py.strip. by rewrite strip_by_cons_blank.
Qed.

Lemma sql_lines_rstrip_head s :
  ∃ h ls h' ls' w,
    Py.split "010" s = h :: ls
    ∧ Py.split "010" (Py.rstrip_by Py.isspace s) = h' :: ls'
    ∧ Py.all_chars Py.isspace w = true ∧ h = h' +:+ w
    ∧ filter (λ l, is_sql_line l) (map Py.strip ls')
      = filter (λ l, is_sql_line l) (map Py.strip ls).
Proof.
  induction s as [|c s IH].
  - by exists "", [], "", [], "".
  - destruct IH as (h0 & t0 & h0' & t0' & w & E & E' & Hw & -> & Ht).
    rewrite rstrip_by_cons.
    destruct (Py.is_empty (Py.rstrip_by Py.isspace s) && Py.isspace c) eqn:Eb.
    + apply andb_true_iff in Eb as [Hs Hc]. rewrite rstrip_by_empty in Hs.
      pose proof (split_all_chars "010" Py.isspace (String c s)) as Hall.
      destruct (Py.split "010" (String c s)) as [|h ls] eqn:Es.
      { by apply split_nonempty in Es. }
      assert (Forall (λ l, Py.all_chars Py.isspace l = true) (h :: ls)) as Hh.
      { apply Hall. simpl. rewrite Hc. simpl. clear -Hs.
        induction s as [|c' s IH]; [done|]. simpl in *.
        apply andb_true_iff in Hs as [-> Hs]. by apply IH. }
      apply Forall_cons in Hh as [Hh Hls].
      exists h, ls, "", [], h. repeat split; [done|].
      by rewrite (sql_lines_blank ls).
    + rewrite !split_cons, E, E'.
      destruct (bool_decide (c = "010"%char)).
      * exists "", ((h0' +:+ w) :: t0), "", (h0' :: t0'), "".
        repeat split; try done.
        apply sql_lines_cons_eq; [|done].
        unfold Py.strip. by rewrite strip_by_append_blank.
      * exists (String c (h0' +:+ w)), t0, (String c h0'), t0', w.
        by repeat split.
Qed.

Lemma sql_lines_rstrip s :
  filter (λ l, is_sql_line l)
    (map Py.strip (Py.split "010" (Py.rstrip_by Py.isspace s)))
  = filter (λ l, is_sql_line l) (map Py.strip (Py.split "010" s)).
Proof.
  destruct (sql_lines_rstrip_head s)
    as (h & ls & h' & ls' & w & -> & -> & Hw & -> & Hls).
  apply sql_lines_cons_eq; [|done].
  unfold Py.strip. by rewrite strip_by_append_blank.
Qed.

Lemma without_comment_lines_strip s :
  without_comment_lines (Py.strip s) = without_comment_lines s.
Proof.
  unfold without_comment_lines.
  change (Py.split "010" (Py.strip s))
    with (Py.split "010" (Py.rstrip_by Py.isspace (Py.lstrip_by Py.isspace s))).
  by rewrite sql_lines_rstrip, sql_lines_lstrip.
Qed.

(** The statements of a migration, with no stripping of the pieces. *)
Lemma statements_of_pieces s :
  statements_of s
  = filter (λ stmt, negb (Py.is_empty stmt))
      (map without_comment_lines (Py.split ";" s)).
Proof.
  unfold statements_of.
  induction (Py.split ";" s) as [|piece pieces IH]; [done|].
  cbn [map]. rewrite !filter_cons.
  rewrite <- (without_comment_lines_strip piece).
  filter_case (is_blank (Py.strip piece)).
  - unfold is_blank in E. unfold Py.strip in E. rewrite strip_by_idemp in E.
    fold (Py.strip piece) in E.
    destruct (Py.strip piece); [|done]. by rewrite IH.
  - by rewrite filter_cons, IH.
Qed.

Lemma statements_of_append s t :
  statements_of (s +:+ String ";" t) = statements_of s ++ statements_of t.
Proof.
  by rewrite !statements_of_pieces, split_append_separator, map_app,
    filter_app.
Qed.

Lemma statements_of_newline s :
  statements_of (String "010" s) = statements_of s.
Proof.
  unfold statements_of. rewrite split_cons.
  rewrite bool_decide_eq_false_2 by done.
  pose proof (split_nonempty ";" s).
  destruct (Py.split ";" s) as [|h ls]; [done|].
  cbn [map]. unfold Py.strip at 1 3. by rewrite strip_by_cons_blank.
Qed.

(** A comment line and a one-line statement under it. *)
Lemma statements_of_commented (comment body : string) :
  plain (String "-" (String "-" comment)) = true →
  plain body = true →
  is_sql_line (Py.strip body) = true →
  statements_of (String "-" (String "-" comment) +:+ String "010" body)
  = [Py.strip body].
Proof.
  unfold plain.
  intros [Hc1%negb_true_iff Hc2%negb_true_iff]%andb_true_iff
         [Hb1%negb_true_iff Hb2%negb_true_iff]%andb_true_iff Hsql.
  rewrite statements_of_pieces, split_no_separator.
  2:{ rewrite has_char_append, Hc1. cbn [Py.has_char].
      by rewrite Hb1, bool_decide_eq_false_2. }
  assert (without_comment_lines
            (String "-" (String "-" comment) +:+ String "010" body)
          = Py.strip body) as Hclean.
  { unfold without_comment_lines.
    rewrite split_append_separator, !split_no_separator by done.
    assert (filter (λ l, is_sql_line l)
              (map Py.strip ([String "-" (String "-" comment)] ++ [body]))
            = [Py.strip body]) as ->.
    { cbn [app map]. rewrite !filter_cons.
      assert (is_sql_line (Py.strip (String "-" (String "-" comment)))
              = false) as ->
        by (unfold is_sql_line; by rewrite strip_dashes, andb_false_r).
      by rewrite Hsql. }
    cbn [Py.join]. unfold Py.strip. apply strip_by_idemp. }
  cbn [map]. rewrite Hclean, filter_cons.
  unfold is_sql_line in Hsql. by destruct (Py.strip body).
Qed.

(** X11: every statement [apply_migration] sends to the database is not
    empty, holds no semicolon, has no blank at either end, and is made of
    lines that are stripped, not blank and not [--] comments; the log of the
    small database shows them. *)
Theorem statements_sent (db db' : ToyDB.t) (migration : PendingMigration.t)
    (now : timestamp) :
  apply_migration db migration now = (db', Ok tt) →
  ∃ sent,
    ToyDB.executed db' = ToyDB.executed db ++ sent
    ∧ Forall (λ s, Py.is_empty s = false
                   ∧ Py.has_char ";" s = false
                   ∧ Py.strip s = s
                   ∧ Forall (λ l, is_sql_line l = true ∧ Py.strip l = l)
                       (Py.split "010" s)) sent.
Proof.
  rewrite apply_migration_transaction. unfold transaction, run_transaction.
  destruct (execute_each (begin db) _) as [tx1 [[]|e]] eqn:Heach; [|done].
  apply toy_execute_each in Heach as [_ Heach].
  destruct (Heach eq_refl) as (He & Hl & Ht & Hu). clear Heach.
  intros Hinsert.
  exists (statements_of (PendingMigration.sql_content migration)).
  split.
  - revert Hinsert. simpl. unfold ToyDB.toy_execute_in, ToyDB.toy_execute.
    destruct (negb (ToyDB.has_table (ToyDB.reached tx1))); [done|].
    case_bool_decide; [done|]. simpl. by intros [= <-].
  - clear. unfold statements_of.
    apply Forall_forall. intros s [Hne Hin]%list_elem_of_filter.
    apply list_elem_of_fmap in Hin as (q & -> & [_ Hq]%list_elem_of_filter).
    apply list_elem_of_fmap in Hq as (piece & -> & Hpiece).
    rewrite <- clean_statement_without_comment_lines in Hne |- *.
    apply Is_true_true, negb_true_iff in Hne.
    split; [done|]. split.
    + apply clean_statement_without; [done|]. apply has_char_strip.
      pose proof (split_pieces_free ";" (PendingMigration.sql_content migration))
        as Hfree.
      rewrite Forall_forall in Hfree. by apply Hfree.
    + destruct (clean_statement_lines (Py.strip piece)) as [He|[Hs Hl]];
        [congruence|done].
Qed.

End MoreApplierFacts.

(** ** Generated scripts, executed *)

Section ScriptsExecuted.

Context {DB : Type} `{Database DB}.

Variable str_operation : MigrationOperation.t → string.
Variable str_operation_type : OperationType → string.
Variable create_table_ddl : option definition → res string.

Let emitted := emitted str_operation str_operation_type create_table_ddl.
Let one_line :=
  one_line_statement str_operation str_operation_type create_table_ddl.

Lemma one_line_block (operation : MigrationOperation.t) (body : string) :
  one_line operation body →
  Py.join (String "010" "") (emitted operation)
  = (String "-" (String "-" (" " +:+ str_operation operation))
       +:+ String "010" body)
      +:+ String ";" (String "010" "")
  ∧ statements_of
      (String "-" (String "-" (" " +:+ str_operation operation))
         +:+ String "010" body)
    = [Py.strip body].
Proof.
  intros (Hsql & Hbody & Hline & Hstr). split.
  - unfold emitted, Described.emitted. rewrite Hsql, is_empty_append.
    rewrite andb_false_r. cbn [Py.join]. by rewrite !append_assoc.
  - apply statements_of_commented; [|done..].
    change (plain ("-- " +:+ str_operation operation) = true).
    by rewrite plain_append, Hstr.
Qed.

Lemma one_line_script (operations : list MigrationOperation.t)
    (bodies : list string) :
  Forall2 one_line operations bodies →
  statements_of
    (Py.join (String "010" "") (concat (map emitted operations)))
  = map Py.strip bodies.
Proof.
  induction 1 as [|operation body rest bodies Hop Hrest IH]; [done|].
  destruct (one_line_block operation body Hop) as [Hblock Hstmt].
  cbn [map concat]. destruct rest as [|operation' rest].
  - apply Forall2_nil_inv_l in Hrest as ->.
    cbn [map concat]. rewrite app_nil_r, Hblock, statements_of_append, Hstmt.
    done.
  - rewrite join_app.
    + rewrite Hblock, (append_assoc (_ +:+ String "010" body)).
      change (String ";" (String "010" "")
                +:+ String "010" "" +:+ ?j)
        with (String ";" (String "010" (String "010" j))).
      rewrite statements_of_append, Hstmt, !statements_of_newline, IH.
      done.
    + pose proof (emitted_nonempty str_operation str_operation_type
                    create_table_ddl operation) as Hne.
      by destruct (emitted operation).
    + cbn [map concat].
      pose proof (emitted_nonempty str_operation str_operation_type
                    create_table_ddl operation') as Hne.
      fold emitted in Hne. by destruct (emitted operation').
Qed.

(** X14: when every operation is translated to one line of SQL and its
    terminator, names and rendering free of semicolons and newlines, applying
    the generated script executes exactly those lines, stripped and without
    the terminator, in the order of the operations, then the ledger insert
    and the commit. *)
Theorem one_line_script_applies (operations : list MigrationOperation.t)
    (bodies : list string) (script filename : string) (db : DB)
    (now : timestamp) :
  Forall2 one_line operations bodies →
  generate_sql str_operation str_operation_type create_table_ddl operations
  = Ok script →
  statements_of script = map Py.strip bodies
  ∧ apply_migration db (PendingMigration.Build filename script) now
    = match run_transaction db (map Py.strip bodies) filename now with
      | (_, Ok db') => (db', Ok tt)
      | (tx, Raise e) =>
          (rollback tx,
           Raise (surfaced (PendingMigration.Build filename script) e))
      end.
Proof.
  intros Hops Hscript.
  rewrite generate_sql_emitted in Hscript. injection Hscript as <-.
  pose proof (one_line_script operations bodies Hops) as Hstatements.
  split; [done|].
  rewrite apply_migration_transaction. unfold transaction.
  cbn [PendingMigration.sql_content PendingMigration.filename].
  unfold emitted in Hstatements. by rewrite Hstatements.
Qed.

End ScriptsExecuted.

Section MoreManagerFacts.

Context {DB : Type} `{Database DB}.

(** X12: [get_applied_migrations] runs the select ordered by file name in a
    session that it closes without a commit: the transaction the select
    began is rolled back, so that a database whose rollback undoes every
    statement is left as it was; it returns the file names of the rows in
    the order the database gives them, and turns a database error into a
    [RuntimeError] that carries its text. *)
Theorem get_applied_migrations_reads (db : DB) :
  get_applied_migrations db
  = match execute (begin db) (select_migrations None true) with
    | Ok (tx, rows) => (rollback tx, Ok (map LedgerRow.filename rows))
    | Raise e =>
        (rollback (begin db),
         Raise (if is_sqlalchemy_error (exn_class_of e)
                then Exn RuntimeError
                       ("Failed to query applied migrations: " +:+ exn_str e)
                else e))
    end
  ∧ (undoes_every_statement → (get_applied_migrations db).1 = db).
Proof.
  assert (get_applied_migrations db
          = match execute (begin db) (select_migrations None true) with
            | Ok (tx, rows) => (rollback tx, Ok (map LedgerRow.filename rows))
            | Raise e =>
                (rollback (begin db),
                 Raise (if is_sqlalchemy_error (exn_class_of e)
                        then Exn RuntimeError
                               ("Failed to query applied migrations: "
                                  +:+ exn_str e)
                        else e))
            end) as Hreads.
  { unfold get_applied_migrations, with_session, session_try.
    rewrite sess_bind_eq, session_execute_idle, session_execute_open.
    destruct (execute (begin db) _) as [[tx rows]|e]; simpl; [done|].
    by destruct (is_sqlalchemy_error (exn_class_of e)). }
  split; [done|]. intros [Hbegin Hundo]. rewrite Hreads.
  destruct (execute (begin db) _) as [[tx rows]|e] eqn:Hselect; simpl.
  - by rewrite (Hundo _ _ _ _ Hselect).
  - done.
Qed.

End MoreManagerFacts.

(** ** Witnesses *)

Lemma operation_block_shape_witness :
  _operation_to_sql Sample.str_operation_type Sample.create_table_ddl
    Sample.drop_users
  = Ok "DROP TABLE users;"
  ∧ generate_sql Sample.str_operation Sample.str_operation_type
      Sample.create_table_ddl
      [Sample.add_email; Sample.drop_users; Sample.alter_email]
    = Ok (Py.join (String "010" "")
            ["-- operation on users";
             "ALTER TABLE users ADD COLUMN email VARCHAR(100);";
             "";
             "-- operation on users";
             "DROP TABLE users;";
             "";
             "-- operation on users";
             Py.join (String "010" "")
               ["-- ALTER COLUMN users.email";
                "-- Note: Column alteration may require database-specific syntax";
                "-- Old: email VARCHAR(100) NULL";
                "-- New: email VARCHAR(200) NOT NULL"];
             ""]).
Proof.
  split; [reflexivity|].
  destruct (operation_block_shape Sample.str_operation
              Sample.str_operation_type Sample.create_table_ddl
              [Sample.add_email] [Sample.alter_email]
              Sample.drop_users "DROP TABLE users;" eq_refl)
    as (_ & _ & Hscript).
  exact Hscript.
Defined.

Lemma generate_sql_app_witness :
  ∃ script1 script2,
    generate_sql Sample.str_operation Sample.str_operation_type
      Sample.create_table_ddl [Sample.drop_users] = Ok script1
    ∧ generate_sql Sample.str_operation Sample.str_operation_type
        Sample.create_table_ddl [Sample.add_email; Sample.alter_email]
      = Ok script2
    ∧ generate_sql Sample.str_operation Sample.str_operation_type
        Sample.create_table_ddl
        ([Sample.drop_users] ++ [Sample.add_email; Sample.alter_email])
      = Ok (script1 +:+ String "010" "" +:+ script2).
Proof.
  apply (generate_sql_app Sample.str_operation Sample.str_operation_type
           Sample.create_table_ddl); discriminate.
Defined.

Lemma generate_sql_fallback_blocks_witness :
  _operation_to_sql Sample.str_operation_type Sample.create_table_ddl
    Sample.add_nothing
  = Raise (Exn AttributeError "'NoneType' object has no attribute 'type'")
  ∧ generate_sql Sample.str_operation Sample.str_operation_type
      Sample.create_table_ddl [Sample.drop_users; Sample.add_nothing]
    = Ok (Py.join (String "010" "")
            ["-- operation on users";
             "DROP TABLE users;";
             "";
             "-- WARNING: Could not generate SQL for operation on users: 'NoneType' object has no attribute 'type'";
             ""])
  ∧ comment_block
      (Py.join (String "010" "")
         ["-- WARNING: Could not generate SQL for operation on users: 'NoneType' object has no attribute 'type'";
          ""])
    = true.
Proof.
  destruct (generate_sql_fallback_blocks Sample.str_operation
              Sample.str_operation_type Sample.create_table_ddl
              [Sample.drop_users] [] Sample.add_nothing)
    as (Hwarned & _ & _ & Hmissing & _).
  destruct (Hmissing eq_refl) as (Hadd & _).
  destruct (Hwarned _ (Hadd eq_refl)) as [Hscript Hcomment].
  split; [exact (Hadd eq_refl)|].
  split; [exact Hscript|exact (Hcomment eq_refl eq_refl)].
Defined.

Lemma alter_only_script_applies_witness :
  forallb (plain_alter_column Sample.str_operation) [Sample.alter_email] = true
  ∧ ∃ script,
      generate_sql Sample.str_operation Sample.str_operation_type
        Sample.create_table_ddl [Sample.alter_email] = Ok script
      ∧ apply_migration ToyDB.empty
          (PendingMigration.Build "0002_alter_email.sql" script) 9
        = (ToyDB.Build true true []
             [LedgerRow.Build 1 "0002_alter_email.sql" 9], Ok tt).
Proof.
  split; [reflexivity|]. eexists. split; [reflexivity|].
  destruct (alter_only_script_applies (H := ToyDB.toy_database)
              Sample.str_operation
              Sample.str_operation_type Sample.create_table_ddl
              [Sample.alter_email] _ "0002_alter_email.sql" ToyDB.empty 9
              eq_refl eq_refl) as [_ Happly].
  rewrite Happly. reflexivity.
Defined.

Lemma apply_migration_comments_only_witness :
  only_comments (PendingMigration.sql_content ToyDB.comment_migration) = true
  ∧ apply_migration ToyDB.empty ToyDB.comment_migration 7
    = (ToyDB.Build true true []
         [LedgerRow.Build 1 "0003_notes.sql" 7], Ok tt).
Proof.
  split; [by vm_compute|].
  destruct (apply_migration_comments_only (H := ToyDB.toy_database)
              ToyDB.empty ToyDB.comment_migration 7)
    as [_ Happly]; [by vm_compute|].
  rewrite Happly. reflexivity.
Defined.

Lemma create_migration_name_keeps_clean_witness :
  create_migration_name "add_email_column" = "add_email_column".
Proof.
  apply create_migration_name_keeps_clean; (reflexivity || (simpl; lia)).
Defined.

Lemma save_then_get_all_witness :
  save_migration "migrations" scenario_store 3 "add_email"
    (String "013" (String "010" "SELECT 1;"))
  = (<["0003_add_email.sql" := Text (String "013" (String "010" "SELECT 1;"))]>
       scenario_store,
     Ok "migrations/0003_add_email.sql")
  ∧ ∃ after,
      get_all_migrations "migrations"
        (<["0003_add_email.sql" :=
             Text (String "013" (String "010" "SELECT 1;"))]> scenario_store)
      = Ok after
      ∧ MigrationFile.Build 3 "add_email" "0003_add_email.sql"
          "migrations/0003_add_email.sql" (String "010" "SELECT 1;") ∈ after.
Proof.
  split; [by vm_compute|].
  destruct (save_then_get_all "migrations" scenario_store 3 "add_email"
              (String "013" (String "010" "SELECT 1;")))
    as (_ & _ & Hread).
  destruct (Hread "migrations/0003_add_email.sql" eq_refl)
    as (_ & before & after & _ & Hafter & Hsaved & _).
  exists after. split; [exact Hafter|exact Hsaved].
Defined.

Lemma save_then_pending_witness :
  ("0003_add_email.sql" ∉ ["0001_init.sql"; "0002_add_name.sql"])
  ∧ (∃ pending,
       get_pending_migrations "migrations"
         (<["0003_add_email.sql" :=
              Text "ALTER TABLE users ADD COLUMN email VARCHAR(100);"]>
            scenario_store)
         (Ok ["0001_init.sql"; "0002_add_name.sql"])
       = Ok pending
       ∧ PendingMigration.Build "0003_add_email.sql"
           "ALTER TABLE users ADD COLUMN email VARCHAR(100);" ∈ pending).
Proof.
  assert ("0003_add_email.sql" ∉ ["0001_init.sql"; "0002_add_name.sql"])
    as Hfresh by (apply (bool_decide_unpack _); vm_compute; exact I).
  split; [exact Hfresh|].
  exact (save_then_pending "migrations" scenario_store _ 3 "add_email"
           "ALTER TABLE users ADD COLUMN email VARCHAR(100);"
           "migrations/0003_add_email.sql" _ eq_refl Hfresh).
Defined.

Lemma statements_sent_witness :
  apply_migration ToyDB.empty Sample.commented_migration 3
  = (ToyDB.Build true true
       [Py.join (String "010" "") ["CREATE TABLE users ("; "id INTEGER"; ")"];
        "INSERT INTO users VALUES (1)"]
       [LedgerRow.Build 1 "0001_init.sql" 3], Ok tt)
  ∧ ∃ sent,
      [Py.join (String "010" "") ["CREATE TABLE users ("; "id INTEGER"; ")"];
       "INSERT INTO users VALUES (1)"] = [] ++ sent
      ∧ Forall (λ s, Py.is_empty s = false
                     ∧ Py.has_char ";" s = false
                     ∧ Py.strip s = s
                     ∧ Forall (λ l, is_sql_line l = true ∧ Py.strip l = l)
                         (Py.split "010" s)) sent.
Proof.
  split; [reflexivity|].
  exact (statements_sent ToyDB.empty _ Sample.commented_migration 3 eq_refl).
Defined.

Lemma one_line_script_applies_witness :
  Forall2 (one_line_statement Sample.str_operation Sample.str_operation_type
             Sample.create_table_ddl)
    [Sample.drop_users; Sample.add_email]
    ["DROP TABLE users"; "ALTER TABLE users ADD COLUMN email VARCHAR(100)"]
  ∧ ∃ script,
      generate_sql Sample.str_operation Sample.str_operation_type
        Sample.create_table_ddl [Sample.drop_users; Sample.add_email]
      = Ok script
      ∧ apply_migration ToyDB.empty
          (PendingMigration.Build "0002_email.sql" script) 4
        = (ToyDB.Build true true
             ["DROP TABLE users";
              "ALTER TABLE users ADD COLUMN email VARCHAR(100)"]
             [LedgerRow.Build 1 "0002_email.sql" 4], Ok tt).
Proof.
  assert (Forall2 (one_line_statement Sample.str_operation
                     Sample.str_operation_type Sample.create_table_ddl)
            [Sample.drop_users; Sample.add_email]
            ["DROP TABLE users";
             "ALTER TABLE users ADD COLUMN email VARCHAR(100)"]) as Hlines
    by (repeat constructor).
  split; [exact Hlines|]. eexists. split; [reflexivity|].
  destruct (one_line_script_applies (H := ToyDB.toy_database)
              Sample.str_operation
              Sample.str_operation_type Sample.create_table_ddl
              _ _ _ "0002_email.sql" ToyDB.empty 4 Hlines eq_refl)
    as [_ Happly].
  rewrite Happly. reflexivity.
Defined.

Lemma get_applied_migrations_reads_witness :
  get_applied_migrations
    (ToyDB.Build true true [] [LedgerRow.Build 1 "0001_init.sql" 3])
  = (ToyDB.Build true true [] [LedgerRow.Build 1 "0001_init.sql" 3],
     Ok ["0001_init.sql"]).
Proof.
  destruct (get_applied_migrations_reads (H := ToyDB.toy_database)
              (ToyDB.Build true true [] [LedgerRow.Build 1 "0001_init.sql" 3]))
    as [Hreads Hleft].
  rewrite (surjective_pairing (get_applied_migrations _)).
  rewrite (Hleft toy_undoes_every_statement).
  rewrite Hreads. reflexivity.
Defined.

Lemma get_all_migrations_ignores_witness :
  get_all_migrations "migrations" (<["README.md" := Text "notes"]> scenario_store)
  = get_all_migrations "migrations" scenario_store.
Proof.
  apply (get_all_migrations_ignores "migrations" scenario_store "README.md"
           (Text "notes")).
  - reflexivity.
  - left. reflexivity.
Defined.
